(** * F1 lap time calculator: a shallow embedding of the simulation core

    The development follows the Python package [modules/]:
    [utils.py], [circuit.py], [car.py] and [lap_simulator.py].

    Conventions of the embedding.
    - Python numbers are exact rationals [Q] (floats) and integers [Z]
      (lap numbers, sector numbers, tire temperature, downforce level).
      Rounding of binary floating point is not modelled: every formula is
      read as exact arithmetic.  Equality of computed numbers is therefore
      stated with [==] on [Q].  Where a property turns on the rounding (a
      strict order between close numbers, the integer part of a quotient)
      the function is given a second time on binary64 numbers, in the
      modules [utils_binary64] and [car_binary64], and run there.
    - A Python exception is a value [Raise e]; a method of a mutable object
      is a function from the state before the call to the outcome and the
      state after it, and the state reached when an exception escapes is kept.
    - A JSON object used as a table is a [gmap string _]; a JSON object used
      as a record is a Rocq record whose optional keys (those the code reads
      with [dict.get]) are [option] fields.
    - The module-level random number generator is an explicit sequence of
      draws [nat -> Q] together with the position of the next draw. *)

From Stdlib Require Import QArith Qabs Qminmax Qround Lqa ZArith Lia String List.
From Stdlib Require Import PrimFloat.
From Stdlib Require SpecFloat FloatOps.
From Stdlib Require Import Sorting.Sorted Sorting.Permutation.
From stdpp Require Import gmap strings list fin_maps pretty.

Open Scope Q_scope.

(* ===================================================================== *)
(** * Python primitives *)
(* ===================================================================== *)

Module Py.

(** Exceptions raised by the modelled code. *)
Inductive exn : Type :=
| ValueError
| KeyError
| ZeroDivisionError.

Inductive result (A : Type) : Type :=
| Ok (a : A)
| Raise (e : exn).
Arguments Ok {A} a.
Arguments Raise {A} e.

Definition bind {A B} (r : result A) (k : A -> result B) : result B :=
  match r with
  | Ok a => k a
  | Raise e => Raise e
  end.

Definition is_ok {A} (r : result A) : bool :=
  match r with Ok _ => true | Raise _ => false end.

(** [a < b] and [a <= b] on floats, as booleans. *)
Definition ltb (a b : Q) : bool := negb (Qle_bool b a).
Definition leb (a b : Q) : bool := Qle_bool a b.

(** [min(a, b)] keeps the first argument unless the second is smaller. *)
Definition min (a b : Q) : Q := if ltb b a then b else a.

(** [max(a, b)] keeps the first argument unless the second is larger. *)
Definition max (a b : Q) : Q := if ltb a b then b else a.

(** [abs(x)]. *)
Definition abs (x : Q) : Q := Qabs x.

(** True division [a / b]: raises [ZeroDivisionError] on a zero divisor. *)
Definition truediv (a b : Q) : result Q :=
  if Qeq_bool b 0 then Raise ZeroDivisionError else Ok (a / b).

(** [int(x)] on a float: truncation towards zero. *)
Definition int (x : Q) : Z := Z.quot (Qnum x) (Zpos (Qden x)).

(** [sum(l)] from the start value [0]. *)
Definition sum (l : list Q) : Q := fold_left Qplus l 0.

(** [d.get(key, default)] on an optional key. *)
Definition get {A} (o : option A) (default : A) : A :=
  match o with Some a => a | None => default end.

(** [key in d] on an optional key. *)
Definition contains {A} (o : option A) : bool :=
  match o with Some _ => true | None => false end.

(** [d[key]] on an optional key. *)
Definition subscript {A} (o : option A) : result A :=
  match o with Some a => Ok a | None => Raise KeyError end.

End Py.

Import Py.

(** [x ← r; k] sequences two computations that may raise. *)
#[global] Instance result_bind : MBind result := fun A B k r => bind r k.
#[global] Instance result_ret : MRet result := fun A a => Ok a.

(* ===================================================================== *)
(** * Methods of mutable objects *)
(* ===================================================================== *)

(** A method run on an object of state [S]: the outcome and the state the
    object is left in (also when an exception escapes). *)
Definition Method (S A : Type) : Type := S -> result A * S.

Module Method.

Definition ret {S A} (a : A) : Method S A := fun s => (Ok a, s).

Definition bind {S A B} (m : Method S A) (k : A -> Method S B) : Method S B :=
  fun s =>
    match m s with
    | (Ok a, s') => k a s'
    | (Raise e, s') => (Raise e, s')
    end.

(** [raise e]. *)
Definition raise {S A} (e : exn) : Method S A := fun s => (Raise e, s).

(** A computation that does not touch the object. *)
Definition lift {S A} (r : result A) : Method S A := fun s => (r, s).

(** Read the object. *)
Definition get {S} : Method S S := fun s => (Ok s, s).

(** Assign to attributes of the object. *)
Definition modify {S} (f : S -> S) : Method S unit := fun s => (Ok tt, f s).

End Method.

#[global] Instance method_bind {S} : MBind (Method S) :=
  fun A B k m => Method.bind m k.
#[global] Instance method_ret {S} : MRet (Method S) :=
  fun A a => Method.ret a.

(* ===================================================================== *)
(** * Reference data (the JSON tables read by [load_json_data]) *)
(* ===================================================================== *)

(** One entry of ["tire_compounds"] in [tires.json]. *)
Module TireInfo.
Record t : Type := mk {
  grip_modifier : Q;
  optimal_temp_range : Q * Q;
  life_span : Q;
  peak_performance_laps : option Q;
  degradation_rate : option Q
}.
End TireInfo.

(** One entry of ["tire_temperature_effects"] in [tires.json]. *)
Module TempEffect.
Record t : Type := mk {
  temp_threshold : Q;
  grip_loss : Q
}.
End TempEffect.

(** [tires.json]. *)
Module TireData.
Record t : Type := mk {
  tire_compounds : gmap string TireInfo.t;
  cold : TempEffect.t;
  overheated : TempEffect.t
}.
End TireData.

(** One entry of ["weather_conditions"] in [weather_presets.json]. *)
Module Weather.
Record t : Type := mk {
  name : option string;
  grip_modifier : option Q;
  speed_modifier : option Q;
  mistake_probability : option Q;
  optimal_tire : option (list string)
}.
End Weather.

(** [weather_presets.json]; a track condition is kept as its
    ["grip_modifier"], the only key the code reads. *)
Module WeatherData.
Record t : Type := mk {
  weather_conditions : gmap string Weather.t;
  track_conditions : gmap string Q
}.
End WeatherData.

(** A sector of a circuit. *)
Module Sector.
Record t : Type := mk {
  number : Z;
  length : Q;
  turns : Q;
  type : option string;
  elevation_change : option Q
}.
End Sector.

(** A DRS zone; only the sector it belongs to is read by the code. *)
Module DrsZone.
Record t : Type := mk {
  sector : Z
}.
End DrsZone.

(** One entry of ["circuits"] in [circuits.json]. *)
Module CircuitData.
Record t : Type := mk {
  name : string;
  country : string;
  length : Q;
  sectors : list Sector.t;
  drs_zones : option (list DrsZone.t);
  lap_record : option Q;
  base_lap_time : option Q;
  difficulty : option Q
}.
End CircuitData.

(* ===================================================================== *)
(** * utils.py *)
(* ===================================================================== *)

Module utils.

Definition fuel_weight_to_lap_time (fuel_kg circuit_length : Q) : Q :=
  let time_penalty_per_kg_per_km := 0.035 in
  fuel_kg * (circuit_length / 1000) * time_penalty_per_kg_per_km.

(** [tire_data.get('peak_performance_laps', 10)]. *)
Definition peak_laps (tire_data : TireInfo.t) : Q :=
  get (TireInfo.peak_performance_laps tire_data) 10.

(** [tire_data.get('degradation_rate', 0.05)]. *)
Definition degradation_rate (tire_data : TireInfo.t) : Q :=
  get (TireInfo.degradation_rate tire_data) 0.05.

Definition calculate_tire_degradation (current_lap : Z) (tire_data : TireInfo.t)
  : result Q :=
  let peak_laps := peak_laps tire_data in
  let degradation_rate := degradation_rate tire_data in
  if leb (inject_Z current_lap) peak_laps then
    r ← truediv (inject_Z current_lap) peak_laps;
    Ok (min 1.0 (0.95 + r * 0.05))
  else
    let laps_past_peak := inject_Z current_lap - peak_laps in
    let degradation := 1.0 - (laps_past_peak * degradation_rate) in
    Ok (max 0.7 degradation).

Definition calculate_drs_benefit (sector_data : Sector.t) (has_drs : bool) : Q :=
  if negb has_drs then 0.0
  else
    let sector_type := get (Sector.type sector_data) "medium_speed"%string in
    if String.eqb sector_type "high_speed" then 0.8
    else if String.eqb sector_type "medium_speed" then 0.4
    else if String.eqb sector_type "low_speed" then 0.1
    else 0.4.

(** The warning text of [apply_weather_effect]. *)
Definition suboptimal_warning (weather_data : Weather.t) : string :=
  ("Suboptimal tire compound for "
     ++ get (Weather.name weather_data) "current" ++ " conditions")%string.

Definition apply_weather_effect (base_time : Q) (weather_data : Weather.t)
           (tire_compound : string) : result (Q * string) :=
  let grip_modifier := get (Weather.grip_modifier weather_data) 1.0 in
  let speed_modifier := get (Weather.speed_modifier weather_data) 1.0 in
  let mistake_prob := get (Weather.mistake_probability weather_data) 0.0 in
  modified_time ← truediv base_time (grip_modifier * speed_modifier);
  let optimal_tires := get (Weather.optimal_tire weather_data) [] in
  let '(modified_time, warning) :=
    if negb (bool_decide (tire_compound ∈ optimal_tires))
    then (modified_time * 1.15, suboptimal_warning weather_data)
    else (modified_time, ""%string) in
  let mistake_time := base_time * mistake_prob * 0.1 in
  Ok (modified_time + mistake_time, warning).

Definition calculate_driver_effect (aggression_level : Q) : Q * Q :=
  let time_modifier := 1.0 - (aggression_level * 0.08) in
  let mistake_probability := aggression_level * 0.15 in
  (time_modifier, mistake_probability).

End utils.

(** [fuel_weight_to_lap_time] on binary64 numbers, the arithmetic of
    Python's floats: every operation rounds its exact result to the
    nearest binary64 number. *)
Module utils_binary64.

#[warnings="-inexact-float"]
Definition fuel_weight_to_lap_time (fuel_kg circuit_length : float) : float :=
  let time_penalty_per_kg_per_km := 0.035%float in
  (fuel_kg * (circuit_length / 1000) * time_penalty_per_kg_per_km)%float.

End utils_binary64.

(* ===================================================================== *)
(** * circuit.py *)
(* ===================================================================== *)

Module circuit.

(** The attributes of a [Circuit] object that the engine reads. *)
Record Circuit : Type := mkCircuit {
  name : string;
  full_name : string;
  country : string;
  length : Q;
  sectors : list Sector.t;
  drs_zones : list DrsZone.t;
  lap_record : Q;
  base_lap_time : Q;
  difficulty : Q
}.

(** [Circuit.__init__], over the table of [circuits.json]. *)
Definition __init__ (circuits : gmap string CircuitData.t) (circuit_name : string)
  : result Circuit :=
  match circuits !! circuit_name with
  | None => Raise ValueError
  | Some data =>
      Ok {| name := circuit_name;
            full_name := CircuitData.name data;
            country := CircuitData.country data;
            length := CircuitData.length data;
            sectors := CircuitData.sectors data;
            drs_zones := get (CircuitData.drs_zones data) [];
            lap_record := get (CircuitData.lap_record data) 0;
            base_lap_time := get (CircuitData.base_lap_time data) 0;
            difficulty := get (CircuitData.difficulty data) 0.7 |}
  end.

(** The first sector carrying the number, or [None]. *)
Definition get_sector_data (self : Circuit) (sector_number : Z)
  : option Sector.t :=
  List.find (fun sector => Z.eqb (Sector.number sector) sector_number)
            (sectors self).

Definition get_total_sectors (self : Circuit) : nat :=
  List.length (sectors self).

Definition has_drs_in_sector (self : Circuit) (sector_number : Z) : bool :=
  existsb (fun drs_zone => Z.eqb (DrsZone.sector drs_zone) sector_number)
          (drs_zones self).

Definition type_modifier (sector_type : string) : Q :=
  if String.eqb sector_type "low_speed" then 0.2
  else if String.eqb sector_type "medium_speed" then 0.1
  else if String.eqb sector_type "high_speed" then -0.1
  else 0.1.

Definition calculate_sector_difficulty (self : Circuit) (sector_number : Z)
  : result Q :=
  match get_sector_data self sector_number with
  | None => Ok 1.0
  | Some sector =>
      let base_difficulty := 0.8 in
      turn_density ← truediv (Sector.turns sector) (Sector.length sector / 1000);
      let turn_effect := min 0.3 (turn_density * 0.1) in
      let type_effect :=
        type_modifier (get (Sector.type sector) "medium_speed"%string) in
      let elevation_effect :=
        abs (get (Sector.elevation_change sector) 0) * 0.005 in
      let difficulty :=
        base_difficulty + turn_effect + type_effect + elevation_effect in
      Ok (max 0.5 (min 1.2 difficulty))
  end.

Definition get_sector_base_time (self : Circuit) (sector_number : Z)
  : result Q :=
  match get_sector_data self sector_number with
  | None => Ok 0.0
  | Some sector =>
      sector_ratio ← truediv (Sector.length sector) (length self);
      let base_sector_time := base_lap_time self * sector_ratio in
      difficulty_modifier ← calculate_sector_difficulty self sector_number;
      Ok (base_sector_time * difficulty_modifier)
  end.

(** [Circuit.create_custom_circuit]: no table lookup, no validation. *)
Definition create_custom_circuit (name : string) (length : Q)
           (sectors : list Sector.t) : Circuit :=
  {| name := "custom";
     full_name := name;
     country := "Custom";
     length := length;
     sectors := sectors;
     drs_zones := [];
     lap_record := 0;
     base_lap_time := length / 70;
     difficulty := 0.8 |}.

End circuit.

(* ===================================================================== *)
(** * car.py *)
(* ===================================================================== *)

Module car.

(** The attributes of a [Car] object. *)
Record Car : Type := mkCar {
  tire_data : TireData.t;
  tire_compound : string;
  fuel_load : Q;
  downforce_level : Z;
  engine_mode : string;
  ers_deployment : string;
  base_weight : Q;
  power_unit_power : Q;
  drag_coefficient : Q;
  current_lap : Z;
  tire_temperature : Z
}.

(** [Car.__init__], over the contents of [tires.json]. *)
Definition __init__ (tires : TireData.t) (tire_compound : string)
           (fuel_load : Q) : result Car :=
  if negb (contains (TireData.tire_compounds tires !! tire_compound))
  then Raise ValueError
  else if negb (leb 0 fuel_load && leb fuel_load 110)
  then Raise ValueError
  else Ok {| tire_data := tires;
             tire_compound := tire_compound;
             fuel_load := fuel_load;
             downforce_level := 5;
             engine_mode := "race";
             ers_deployment := "auto";
             base_weight := 798;
             power_unit_power := 1000;
             drag_coefficient := 1.0;
             current_lap := 1;
             tire_temperature := 90 |}.

Definition valid_engine_modes : list string :=
  ["quali"; "race"; "conservation"]%string.

Definition valid_ers_modes : list string :=
  ["auto"; "aggressive"; "conservative"]%string.

Definition set_setup (downforce : Z) (engine_mode ers_deployment : string)
  : Method Car unit :=
  if negb ((1 <=? downforce)%Z && (downforce <=? 10)%Z)
  then Method.raise ValueError
  else if negb (bool_decide (engine_mode ∈ valid_engine_modes))
  then Method.raise ValueError
  else if negb (bool_decide (ers_deployment ∈ valid_ers_modes))
  then Method.raise ValueError
  else
    Method.modify (fun self =>
      {| tire_data := tire_data self;
         tire_compound := tire_compound self;
         fuel_load := fuel_load self;
         downforce_level := downforce;
         engine_mode := engine_mode;
         ers_deployment := ers_deployment;
         base_weight := base_weight self;
         power_unit_power := power_unit_power self;
         drag_coefficient := 0.7 + (inject_Z downforce / 10) * 0.6;
         current_lap := current_lap self;
         tire_temperature := tire_temperature self |}).

(** [self.tire_data['tire_compounds'][self.tire_compound]]. *)
Definition tire_info (self : Car) : result TireInfo.t :=
  subscript (TireData.tire_compounds (tire_data self) !! tire_compound self).

Definition _calculate_temperature_effect (self : Car) : result Q :=
  tire_info ← tire_info self;
  let cold := TireData.cold (tire_data self) in
  let overheated := TireData.overheated (tire_data self) in
  let optimal_range := TireInfo.optimal_temp_range tire_info in
  let temp := inject_Z (tire_temperature self) in
  if leb (fst optimal_range) temp && leb temp (snd optimal_range) then
    Ok 1.0
  else if ltb temp (TempEffect.temp_threshold cold) then
    Ok (1.0 - TempEffect.grip_loss cold)
  else if ltb (TempEffect.temp_threshold overheated) temp then
    Ok (1.0 - TempEffect.grip_loss overheated)
  else if ltb temp (fst optimal_range) then
    let temp_diff := fst optimal_range - temp in
    Ok (1.0 - (temp_diff / 20) * 0.05)
  else
    let temp_diff := temp - snd optimal_range in
    Ok (1.0 - (temp_diff / 20) * 0.05).

(** The dictionary returned by [get_tire_performance]. *)
Record TirePerformance : Type := mkTirePerformance {
  base_grip : Q;
  degradation_multiplier : Q;
  temperature_effect : Q;
  effective_grip : Q;
  compound : string;
  lap_number : Z;
  tire_life_remaining : Q
}.

Definition get_tire_performance (self : Car) (lap_number : option Z)
  : result TirePerformance :=
  let lap_number := get lap_number (current_lap self) in
  tire_info ← tire_info self;
  let base_grip := TireInfo.grip_modifier tire_info in
  degradation_multiplier ← utils.calculate_tire_degradation lap_number tire_info;
  temp_effect ← _calculate_temperature_effect self;
  let effective_grip := base_grip * degradation_multiplier * temp_effect in
  used ← truediv (inject_Z lap_number) (TireInfo.life_span tire_info);
  Ok {| base_grip := base_grip;
        degradation_multiplier := degradation_multiplier;
        temperature_effect := temp_effect;
        effective_grip := effective_grip;
        compound := tire_compound self;
        lap_number := lap_number;
        tire_life_remaining := max 0 (1 - used) |}.

(** The dictionary returned by [get_engine_performance]. *)
Record EnginePerformance : Type := mkEnginePerformance {
  base_power : Q;
  engine_mode_multiplier : Q;
  effective_power : Q;
  ers_contribution : Q;
  total_power : Q;
  fuel_consumption_rate : Q;
  reliability_factor : Q
}.

(** [engine_modifiers]: power, fuel consumption, reliability. *)
Definition engine_modifiers (mode : string) : option (Q * Q * Q) :=
  if String.eqb mode "quali" then Some (1.08, 1.5, 0.95)
  else if String.eqb mode "race" then Some (1.0, 1.0, 1.0)
  else if String.eqb mode "conservation" then Some (0.92, 0.85, 1.05)
  else None.

(** [ers_modifiers]: power boost, deployment time. *)
Definition ers_modifiers (mode : string) : option (Q * Q) :=
  if String.eqb mode "aggressive" then Some (50, 0.8)
  else if String.eqb mode "auto" then Some (35, 0.6)
  else if String.eqb mode "conservative" then Some (25, 0.4)
  else None.

Definition get_engine_performance (self : Car) : result EnginePerformance :=
  let base_power := power_unit_power self in
  '(power, fuel_consumption, reliability) ←
    subscript (engine_modifiers (engine_mode self));
  '(power_boost, deployment_time) ←
    subscript (ers_modifiers (ers_deployment self));
  let effective_power := base_power * power in
  let ers_contribution := power_boost * deployment_time in
  Ok {| base_power := base_power;
        engine_mode_multiplier := power;
        effective_power := effective_power;
        ers_contribution := ers_contribution;
        total_power := effective_power + ers_contribution;
        fuel_consumption_rate := fuel_consumption;
        reliability_factor := reliability |}.

Definition _get_aero_balance_description (self : Car) : string :=
  if (downforce_level self <=? 3)%Z then "Low downforce (Monza-style)"
  else if (downforce_level self <=? 7)%Z then "Medium downforce (Balanced)"
  else "High downforce (Monaco-style)".

(** The dictionary returned by [get_aerodynamic_balance]. *)
Record AeroBalance : Type := mkAeroBalance {
  ab_downforce_level : Z;
  cornering_multiplier : Q;
  drag_multiplier : Q;
  ab_drag_coefficient : Q;
  balance_type : string
}.

Definition get_aerodynamic_balance (self : Car) : AeroBalance :=
  let downforce_efficiency := inject_Z (downforce_level self) / 10 in
  let cornering_benefit := 1.0 + (downforce_efficiency * 0.15) in
  let straight_line_penalty := 1.0 + (downforce_efficiency * 0.08) in
  {| ab_downforce_level := downforce_level self;
     cornering_multiplier := cornering_benefit;
     drag_multiplier := straight_line_penalty;
     ab_drag_coefficient := drag_coefficient self;
     balance_type := _get_aero_balance_description self |}.

Definition get_total_weight (self : Car) : Q :=
  base_weight self + fuel_load self.

(** [consumption_rates]. *)
Definition consumption_rates (mode : string) : option Q :=
  if String.eqb mode "quali" then Some 3.5
  else if String.eqb mode "race" then Some 2.8
  else if String.eqb mode "conservation" then Some 2.3
  else None.

Definition _estimate_fuel_laps (self : Car) : result Z :=
  consumption_per_lap ← subscript (consumption_rates (engine_mode self));
  Ok (int (fuel_load self / consumption_per_lap)).

(** The dictionary returned by [get_fuel_effect]. *)
Record FuelEffect : Type := mkFuelEffect {
  fe_fuel_load : Q;
  total_weight : Q;
  time_penalty : Q;
  handling_multiplier : Q;
  laps_remaining : Z
}.

Definition get_fuel_effect (self : Car) (circuit_length : Q) : result FuelEffect :=
  let time_penalty := utils.fuel_weight_to_lap_time (fuel_load self) circuit_length in
  let handling_effect := 1.0 + (fuel_load self / 1000) in
  laps ← _estimate_fuel_laps self;
  Ok {| fe_fuel_load := fuel_load self;
        total_weight := get_total_weight self;
        time_penalty := time_penalty;
        handling_multiplier := handling_effect;
        laps_remaining := laps |}.

(** [temp_changes.get(sector_type, 0)]. *)
Definition temp_changes (sector_type : string) : Z :=
  if String.eqb sector_type "low_speed" then (-2)%Z
  else if String.eqb sector_type "medium_speed" then 0%Z
  else if String.eqb sector_type "high_speed" then 3%Z
  else 0%Z.

Definition update_tire_state (lap_number : Z) (sector_type : string)
  : Method Car unit :=
  Method.modify (fun self =>
    let temp_change := temp_changes sector_type in
    {| tire_data := tire_data self;
       tire_compound := tire_compound self;
       fuel_load := fuel_load self;
       downforce_level := downforce_level self;
       engine_mode := engine_mode self;
       ers_deployment := ers_deployment self;
       base_weight := base_weight self;
       power_unit_power := power_unit_power self;
       drag_coefficient := drag_coefficient self;
       current_lap := lap_number;
       tire_temperature :=
         Z.max 60 (Z.min 140 (tire_temperature self + temp_change)) |}).

End car.

(* ===================================================================== *)
(** * Python's [list.sort(key=...)], [min] and [max] over sequences *)
(* ===================================================================== *)

Module PyList.

Section Sort.
Context {A : Type} (key : A -> Q).

(** [x] goes in front of the first element whose key is not smaller:
    only [<] on keys is used, as in [list.sort]. *)
Fixpoint insert (x : A) (l : list A) : list A :=
  match l with
  | [] => [x]
  | y :: l' => if ltb (key y) (key x) then y :: insert x l' else x :: y :: l'
  end.

(** [l.sort(key=key)]: a stable sort. *)
Definition sort (l : list A) : list A := foldr insert [] l.
End Sort.

(** [min(range(len(l)), key=lambda i: l[i])]: the first index of a
    smallest element; [ValueError] on an empty sequence. *)
Fixpoint argmin_from (best_i : nat) (best : Q) (i : nat) (l : list Q) : nat :=
  match l with
  | [] => best_i
  | x :: l' =>
      if ltb x best then argmin_from i x (S i) l'
      else argmin_from best_i best (S i) l'
  end.

Definition argmin (l : list Q) : result nat :=
  match l with
  | [] => Raise ValueError
  | x :: l' => Ok (argmin_from 0 x 1 l')
  end.

(** [max(range(len(l)), key=lambda i: l[i])]. *)
Fixpoint argmax_from (best_i : nat) (best : Q) (i : nat) (l : list Q) : nat :=
  match l with
  | [] => best_i
  | x :: l' =>
      if ltb best x then argmax_from i x (S i) l'
      else argmax_from best_i best (S i) l'
  end.

Definition argmax (l : list Q) : result nat :=
  match l with
  | [] => Raise ValueError
  | x :: l' => Ok (argmax_from 0 x 1 l')
  end.

(** [min(l)] and [max(l)]. *)
Definition minimum (l : list Q) : result Q :=
  match l with
  | [] => Raise ValueError
  | x :: l' => Ok (fold_left (fun best y => if ltb y best then y else best) l' x)
  end.

Definition maximum (l : list Q) : result Q :=
  match l with
  | [] => Raise ValueError
  | x :: l' => Ok (fold_left (fun best y => if ltb best y then y else best) l' x)
  end.

End PyList.

(* ===================================================================== *)
(** * lap_simulator.py *)
(* ===================================================================== *)

Module lap_simulator.

Import circuit car.

(** The attributes of a [LapSimulator] object.  [car] is the [Car] object
    the simulator holds a reference to. *)
Record LapSimulator : Type := mkLapSimulator {
  circuit : Circuit;
  car : Car;
  weather : string;
  weather_data : WeatherData.t;
  current_weather : Weather.t;
  driver_aggression : Q;
  track_condition : string;
  use_drs : bool;
  simulation_variance : Q
}.

Definition with_car (self : LapSimulator) (c : Car) : LapSimulator :=
  {| circuit := circuit self;
     car := c;
     weather := weather self;
     weather_data := weather_data self;
     current_weather := current_weather self;
     driver_aggression := driver_aggression self;
     track_condition := track_condition self;
     use_drs := use_drs self;
     simulation_variance := simulation_variance self |}.

(** [LapSimulator.__init__], over the contents of [weather_presets.json]. *)
Definition __init__ (presets : WeatherData.t) (circuit : Circuit) (car : Car)
           (weather : string) : result LapSimulator :=
  match WeatherData.weather_conditions presets !! weather with
  | None => Raise ValueError
  | Some w =>
      Ok {| circuit := circuit;
            car := car;
            weather := weather;
            weather_data := presets;
            current_weather := w;
            driver_aggression := 0.5;
            track_condition := "rubbered_in";
            use_drs := true;
            simulation_variance := 0.02 |}
  end.

Definition set_driver_parameters (aggression : Q) (use_drs : bool)
  : Method LapSimulator unit :=
  if negb (leb 0.0 aggression && leb aggression 1.0)
  then Method.raise ValueError
  else
    Method.modify (fun self =>
      {| circuit := circuit self;
         car := car self;
         weather := weather self;
         weather_data := weather_data self;
         current_weather := current_weather self;
         driver_aggression := aggression;
         track_condition := track_condition self;
         use_drs := use_drs;
         simulation_variance := simulation_variance self |}).

Definition set_track_condition (condition : string) : Method LapSimulator unit :=
  fun self =>
    if negb (contains (WeatherData.track_conditions (weather_data self) !! condition))
    then (Raise ValueError, self)
    else
      (Ok tt,
       {| circuit := circuit self;
          car := car self;
          weather := weather self;
          weather_data := weather_data self;
          current_weather := current_weather self;
          driver_aggression := driver_aggression self;
          track_condition := condition;
          use_drs := use_drs self;
          simulation_variance := simulation_variance self |}).

(** The state a simulation runs on: the simulator object (with its car)
    and the number of values already drawn from the random source. *)
Record State : Type := mkState {
  self : LapSimulator;
  draws : nat
}.

(** Run a method of the simulator's car. *)
Definition on_car {A} (m : Method Car A) : Method State A :=
  fun st =>
    let '(r, c) := m (car (self st)) in
    (r, {| self := with_car (self st) c; draws := draws st |}).

(** Run a method of the simulator. *)
Definition on_self {A} (m : Method LapSimulator A) : Method State A :=
  fun st =>
    let '(r, s) := m (self st) in
    (r, {| self := s; draws := draws st |}).

(** The dictionary built by [_calculate_all_modifiers], with the key
    ["driver_mistake"] that [calculate_sector_time] may add. *)
Record Modifiers : Type := mkModifiers {
  tire_grip : Q;
  tire_degradation : Q;
  tire_temperature : Q;
  fuel_penalty : Q;
  downforce_level : Z;
  engine_power : Q;
  weather_grip : Q;
  m_track_condition : Q;
  m_driver_aggression : Q;
  driver_mistake : option Q
}.

(** The dictionary returned by [calculate_sector_time]. *)
Record SectorResult : Type := mkSectorResult {
  sector_number : Z;
  time : Q;
  base_time : Q;
  modifiers : Modifiers;
  warnings : list string;
  has_drs : bool;
  sector_data : Sector.t
}.

Definition _calculate_all_modifiers (self : LapSimulator)
           (tire_perf : TirePerformance) (engine_perf : EnginePerformance)
           (fuel_effect : FuelEffect) : result Modifiers :=
  weather_grip ← subscript (Weather.grip_modifier (current_weather self));
  track ← subscript (WeatherData.track_conditions (weather_data self)
                       !! track_condition self);
  Ok {| tire_grip := effective_grip tire_perf;
        tire_degradation := degradation_multiplier tire_perf;
        tire_temperature := temperature_effect tire_perf;
        fuel_penalty := time_penalty fuel_effect;
        downforce_level := car.downforce_level (car self);
        engine_power := total_power engine_perf;
        weather_grip := weather_grip;
        m_track_condition := track;
        m_driver_aggression := driver_aggression self;
        driver_mistake := None |}.

Definition set_driver_mistake (m : Modifiers) (mistake_time : Q) : Modifiers :=
  {| tire_grip := tire_grip m;
     tire_degradation := tire_degradation m;
     tire_temperature := tire_temperature m;
     fuel_penalty := fuel_penalty m;
     downforce_level := downforce_level m;
     engine_power := engine_power m;
     weather_grip := weather_grip m;
     m_track_condition := m_track_condition m;
     m_driver_aggression := m_driver_aggression m;
     driver_mistake := Some mistake_time |}.

Section Random.

(** The sequence of values that successive calls of [random.random()]
    return. *)
Variable random_source : nat -> Q.

(** [random.random()]. *)
Definition random : Method State Q :=
  fun st => (Ok (random_source (draws st)),
             {| self := self st; draws := S (draws st) |}).

(** [random.uniform(a, b)], which is [a + (b - a) * random()]. *)
Definition uniform (a b : Q) : Method State Q :=
  u ← random; mret (a + (b - a) * u).

Definition calculate_sector_time (sector_number lap_number : Z)
  : Method State SectorResult :=
  st ← Method.get;
  let circuit := circuit (self st) in
  base_sector_time ←
    Method.lift (get_sector_base_time circuit sector_number);
  match get_sector_data circuit sector_number with
  | None => Method.raise ValueError
  | Some sector_data =>
      _ ← on_car (update_tire_state lap_number
                    (get (Sector.type sector_data) "medium_speed"%string));
      st ← Method.get;
      let self := self st in
      tire_performance ←
        Method.lift (get_tire_performance (car self) (Some lap_number));
      engine_performance ← Method.lift (get_engine_performance (car self));
      let aero_balance := get_aerodynamic_balance (car self) in
      fuel_effect ←
        Method.lift (get_fuel_effect (car self) (length circuit));
      modifiers ←
        Method.lift (_calculate_all_modifiers self tire_performance
                       engine_performance fuel_effect);
      let sector_time := base_sector_time in
      sector_time ←
        Method.lift (truediv sector_time (effective_grip tire_performance));
      share ←
        Method.lift (truediv (time_penalty fuel_effect)
                       (inject_Z (Z.of_nat (get_total_sectors circuit))));
      let sector_time := sector_time + share in
      sector_time ←
        Method.lift
          (if bool_decide (Sector.type sector_data = Some "high_speed"%string)
           then Ok (sector_time * drag_multiplier aero_balance)
           else if bool_decide (Sector.type sector_data = Some "low_speed"%string)
           then truediv sector_time (cornering_multiplier aero_balance)
           else
             let drag_effect := (drag_multiplier aero_balance - 1.0) * 0.5 in
             let corner_effect :=
               (cornering_multiplier aero_balance - 1.0) * 0.5 in
             Ok (sector_time * (1.0 + drag_effect - corner_effect)));
      power_factor ←
        Method.lift (truediv (total_power engine_performance) 1000);
      sector_time ←
        Method.lift (truediv sector_time (0.95 + power_factor * 0.05));
      let sector_time :=
        if use_drs self && has_drs_in_sector circuit sector_number
        then sector_time - utils.calculate_drs_benefit sector_data true
        else sector_time in
      '(sector_time, weather_warning) ←
        Method.lift (utils.apply_weather_effect sector_time
                       (current_weather self) (tire_compound (car self)));
      track_modifier ←
        Method.lift (subscript (WeatherData.track_conditions (weather_data self)
                                  !! track_condition self));
      sector_time ← Method.lift (truediv sector_time track_modifier);
      let '(driver_time_mod, mistake_prob) :=
        utils.calculate_driver_effect (driver_aggression self) in
      let sector_time := sector_time * driver_time_mod in
      sector_time ←
        (if ltb 0 (simulation_variance self)
         then
           variance ← uniform (- simulation_variance self)
                              (simulation_variance self);
           mret (sector_time * (1.0 + variance))
         else mret sector_time);
      u ← random;
      '(sector_time, modifiers) ←
        (if ltb u mistake_prob
         then
           f ← uniform 0.05 0.15;
           let mistake_time := sector_time * f in
           mret (sector_time + mistake_time,
                 set_driver_mistake modifiers mistake_time)
         else mret (sector_time, modifiers));
      mret {| sector_number := sector_number;
              time := max 0 sector_time;
              base_time := base_sector_time;
              modifiers := modifiers;
              warnings :=
                if String.eqb weather_warning "" then [] else [weather_warning];
              has_drs := has_drs_in_sector circuit sector_number;
              sector_data := sector_data |}
  end.

(** ["time_loss_breakdown"] of the lap statistics. *)
Record TimeLossBreakdown : Type := mkTimeLossBreakdown {
  tlb_tire_degradation : Q;
  tlb_fuel_weight : Q;
  tlb_weather_conditions : Q;
  tlb_suboptimal_setup : Q
}.

(** The dictionary returned by [_calculate_lap_statistics]. *)
Record LapStatistics : Type := mkLapStatistics {
  fastest_sector : nat;
  slowest_sector : nat;
  sector_balance : Q;
  theoretical_best : Q;
  time_delta_to_theoretical : Q;
  average_sector_time : Q;
  tire_performance_remaining : Q;
  estimated_fuel_remaining : Q;
  time_loss_breakdown : TimeLossBreakdown
}.

Definition _calculate_lap_statistics (self : LapSimulator)
           (sector_results : list SectorResult) (total_time : Q)
  : result LapStatistics :=
  let sector_times := map time sector_results in
  fastest_sector ← PyList.argmin sector_times;
  slowest_sector ← PyList.argmax sector_times;
  let best_possible_sectors := map base_time sector_results in
  let theoretical_best := sum best_possible_sectors in
  tire_perf ← get_tire_performance (car self) None;
  let count := inject_Z (Z.of_nat (List.length sector_results)) in
  fuel_weight ←
    truediv (sum (map (fun s => fuel_penalty (modifiers s)) sector_results))
            count;
  weather_grip ← subscript (Weather.grip_modifier (current_weather self));
  let time_loss_breakdown :=
    {| tlb_tire_degradation :=
         total_time * (1 - degradation_multiplier tire_perf) * 0.1;
       tlb_fuel_weight := fuel_weight;
       tlb_weather_conditions := total_time * (1 - weather_grip) * 0.05;
       tlb_suboptimal_setup := 0 |} in
  hi ← PyList.maximum sector_times;
  lo ← PyList.minimum sector_times;
  average ← truediv total_time count;
  Ok {| fastest_sector := fastest_sector + 1;
        slowest_sector := slowest_sector + 1;
        sector_balance := hi - lo;
        theoretical_best := theoretical_best;
        time_delta_to_theoretical := total_time - theoretical_best;
        average_sector_time := average;
        tire_performance_remaining := tire_life_remaining tire_perf;
        estimated_fuel_remaining :=
          max 0 (fuel_load (car self)
                 - 2.8 * inject_Z (current_lap (car self)));
        time_loss_breakdown := time_loss_breakdown |}.

(** ["conditions"] of a lap result. *)
Record Conditions : Type := mkConditions {
  c_circuit : string;
  c_weather : string;
  c_track_condition : string;
  c_tire_compound : string;
  c_fuel_load : Q
}.

(** The dictionary returned by [simulate_full_lap]. *)
Record LapResult : Type := mkLapResult {
  lr_lap_number : Z;
  total_time : Q;
  sector_times : list Q;
  sector_results : list SectorResult;
  lap_statistics : LapStatistics;
  lr_warnings : list string;
  conditions : Conditions
}.

(** The sector loop of [simulate_full_lap], from the values of
    [sector_results], [total_time] and [all_warnings] reached so far. *)
Fixpoint simulate_sectors (lap_number : Z) (sector_nums : list Z)
         (acc : list SectorResult * Q * list string)
  : Method State (list SectorResult * Q * list string) :=
  match sector_nums with
  | [] => mret acc
  | sector_num :: rest =>
      let '(sector_results, total_time, all_warnings) := acc in
      sector_result ← calculate_sector_time sector_num lap_number;
      simulate_sectors lap_number rest
        (sector_results ++ [sector_result],
         total_time + time sector_result,
         all_warnings ++ warnings sector_result)
  end.

(** [range(1, n + 1)]. *)
Definition range1 (n : nat) : list Z := seqZ 1 (Z.of_nat n).

(** [list(set(all_warnings))]: the distinct warnings.  A set has no
    specified order; within one lap every warning is the same string
    (see [lap_warnings_at_most_one]), so the order cannot be observed. *)
Definition distinct (l : list string) : list string := remove_dups l.

Definition simulate_full_lap (lap_number : Z) : Method State LapResult :=
  st ← Method.get;
  '(sector_results, total_time, all_warnings) ←
    simulate_sectors lap_number
      (range1 (get_total_sectors (circuit (self st)))) ([], 0.0, []);
  st ← Method.get;
  let self := self st in
  lap_stats ←
    Method.lift (_calculate_lap_statistics self sector_results total_time);
  mret {| lr_lap_number := lap_number;
          total_time := total_time;
          sector_times := map time sector_results;
          sector_results := sector_results;
          lap_statistics := lap_stats;
          lr_warnings := distinct all_warnings;
          conditions :=
            {| c_circuit := name (circuit self);
               c_weather := weather self;
               c_track_condition := track_condition self;
               c_tire_compound := tire_compound (car self);
               c_fuel_load := fuel_load (car self) |} |}.

(** [self.car.current_lap = lap]. *)
Definition set_current_lap (lap : Z) : Method Car unit :=
  Method.modify (fun self =>
    {| tire_data := tire_data self;
       tire_compound := tire_compound self;
       fuel_load := fuel_load self;
       car.downforce_level := car.downforce_level self;
       engine_mode := engine_mode self;
       ers_deployment := ers_deployment self;
       base_weight := base_weight self;
       power_unit_power := power_unit_power self;
       drag_coefficient := drag_coefficient self;
       current_lap := lap;
       car.tire_temperature := car.tire_temperature self |}).

(** The lap loop of [simulate_stint]. *)
Fixpoint simulate_laps (laps : list Z) (stint_results : list LapResult)
  : Method State (list LapResult) :=
  match laps with
  | [] => mret stint_results
  | lap :: rest =>
      lap_result ← simulate_full_lap lap;
      _ ← on_car (set_current_lap lap);
      simulate_laps rest (stint_results ++ [lap_result])
  end.

(** [num_laps] is a count; [range(start_lap, start_lap + num_laps)]. *)
Definition simulate_stint (num_laps : nat) (start_lap : Z)
  : Method State (list LapResult) :=
  simulate_laps (seqZ start_lap (Z.of_nat num_laps)) [].

(** A configuration dictionary of [compare_configurations]. *)
Record Config : Type := mkConfig {
  cfg_tire : option string;
  cfg_fuel : option Q;
  cfg_downforce : option Z;
  cfg_engine_mode : option string;
  cfg_ers : option string
}.

(** A lap result with the keys ["configuration"] and ["config_index"]
    that [compare_configurations] adds. *)
Record Comparison : Type := mkComparison {
  lap : LapResult;
  configuration : Config;
  config_index : nat
}.

(** The files read by [Car.__init__] and [LapSimulator.__init__]. *)
Variable tires_json : TireData.t.
Variable weather_presets_json : WeatherData.t.

(** The car and the simulator built for one candidate. *)
Definition candidate_simulator (self : LapSimulator) (config : Config)
  : result LapSimulator :=
  temp_car ← car.__init__ tires_json (get (cfg_tire config) "medium"%string)
                          (get (cfg_fuel config) 50.0);
  temp_car ←
    (if contains (cfg_downforce config)
        || contains (cfg_engine_mode config)
        || contains (cfg_ers config)
     then
       match set_setup (get (cfg_downforce config) 5%Z)
                       (get (cfg_engine_mode config) "race"%string)
                       (get (cfg_ers config) "auto"%string) temp_car with
       | (Ok _, temp_car) => Ok temp_car
       | (Raise e, _) => Raise e
       end
     else Ok temp_car);
  temp_sim ← __init__ weather_presets_json (circuit self) temp_car (weather self);
  temp_sim ←
    match set_driver_parameters (driver_aggression self) (use_drs self) temp_sim with
    | (Ok _, temp_sim) => Ok temp_sim
    | (Raise e, _) => Raise e
    end;
  match set_track_condition (track_condition self) temp_sim with
  | (Ok _, temp_sim) => Ok temp_sim
  | (Raise e, _) => Raise e
  end.

(** One iteration of the loop of [compare_configurations]: the lap is
    run on the temporary simulator; of the state of [self] only the
    random source advances. *)
Definition compare_one (i : nat) (config : Config) : Method State Comparison :=
  fun st =>
    match candidate_simulator (self st) config with
    | Raise e => (Raise e, st)
    | Ok temp_sim =>
        let '(r, temp_st) :=
          simulate_full_lap 1 {| self := temp_sim; draws := draws st |} in
        let st' := {| self := self st; draws := draws temp_st |} in
        match r with
        | Raise e => (Raise e, st')
        | Ok result =>
            (Ok {| lap := result; configuration := config; config_index := i |},
             st')
        end
    end.

(** The loop over [enumerate(configurations)], from index [i]. *)
Fixpoint compare_loop (i : nat) (configurations : list Config)
         (results : list Comparison) : Method State (list Comparison) :=
  match configurations with
  | [] => mret results
  | config :: rest =>
      result ← compare_one i config;
      compare_loop (S i) rest (results ++ [result])
  end.

Definition compare_configurations (configurations : list Config)
  : Method State (list Comparison) :=
  results ← compare_loop 0 configurations [];
  mret (PyList.sort (fun x => total_time (lap x)) results).

End Random.

End lap_simulator.

(* ===================================================================== *)
(** * Example data *)
(* ===================================================================== *)

(** Tables and tracks on which the definitions are run.  The JSON files of
    the repository are data, not code; these have their shape. *)
Module Demo.

Open Scope string_scope.

Definition medium : TireInfo.t :=
  {| TireInfo.grip_modifier := 1.0;
     TireInfo.optimal_temp_range := (85, 105);
     TireInfo.life_span := 40;
     TireInfo.peak_performance_laps := Some 10;
     TireInfo.degradation_rate := Some 0.02 |}.

Definition soft : TireInfo.t :=
  {| TireInfo.grip_modifier := 1.05;
     TireInfo.optimal_temp_range := (90, 110);
     TireInfo.life_span := 25;
     TireInfo.peak_performance_laps := Some 5;
     TireInfo.degradation_rate := Some 0.04 |}.

Definition tires : TireData.t :=
  {| TireData.tire_compounds := <["soft" := soft]> (<["medium" := medium]> ∅);
     TireData.cold := {| TempEffect.temp_threshold := 70;
                         TempEffect.grip_loss := 0.15 |};
     TireData.overheated := {| TempEffect.temp_threshold := 120;
                               TempEffect.grip_loss := 0.1 |} |}.

Definition dry : Weather.t :=
  {| Weather.name := Some "Dry";
     Weather.grip_modifier := Some 1.0;
     Weather.speed_modifier := Some 1.0;
     Weather.mistake_probability := Some 0.02;
     Weather.optimal_tire := Some ["soft"; "medium"; "hard"] |}.

Definition presets : WeatherData.t :=
  {| WeatherData.weather_conditions := <["dry" := dry]> ∅;
     WeatherData.track_conditions :=
       <["rubbered_in" := 1.0]> (<["green" := 0.97]> ∅) |}.

(** The track of the worked scenario: one medium-speed segment of 5000 m
    with 10 turns, base lap time 100 s. *)
Definition scenario_segment : Sector.t :=
  {| Sector.number := 1;
     Sector.length := 5000;
     Sector.turns := 10;
     Sector.type := Some "medium_speed";
     Sector.elevation_change := None |}.

Definition scenario_track : circuit.Circuit :=
  {| circuit.name := "scenario";
     circuit.full_name := "Scenario";
     circuit.country := "Nowhere";
     circuit.length := 5000;
     circuit.sectors := [scenario_segment];
     circuit.drs_zones := [];
     circuit.lap_record := 0;
     circuit.base_lap_time := 100;
     circuit.difficulty := 0.7 |}.

(** A track of two segments, the second fast and with a DRS zone. *)
Definition two_segment_track : circuit.Circuit :=
  {| circuit.name := "demo";
     circuit.full_name := "Demo ring";
     circuit.country := "Nowhere";
     circuit.length := 5000;
     circuit.sectors :=
       [ {| Sector.number := 1; Sector.length := 2000; Sector.turns := 5;
            Sector.type := Some "medium_speed"; Sector.elevation_change := None |};
         {| Sector.number := 2; Sector.length := 3000; Sector.turns := 3;
            Sector.type := Some "high_speed"; Sector.elevation_change := None |} ];
     circuit.drs_zones := [ {| DrsZone.sector := 2 |} ];
     circuit.lap_record := 0;
     circuit.base_lap_time := 100;
     circuit.difficulty := 0.7 |}.

(** A random source that always returns one half. *)
Definition half : nat -> Q := fun _ => 0.5.

End Demo.

(** ** Evolution of a car *)

Module Reach.
Import car lap_simulator.

(** [evolves c c']: [c'] is [c] after some calls of [update_tire_state]
    and assignments to [current_lap]. *)
Inductive evolves (c : Car) : Car -> Prop :=
| evolves_refl : evolves c c
| evolves_update c' lap sector_type :
    evolves c c' -> evolves c (snd (update_tire_state lap sector_type c'))
| evolves_current_lap c' lap :
    evolves c c' -> evolves c (snd (set_current_lap lap c')).

(** A method of the simulator that changes nothing of it but its car,
    and the car only as [evolves] allows. *)
Definition car_evolves {A} (m : Method State A) : Prop :=
  forall st, exists c',
    evolves (car (self st)) c'
    /\ self (snd (m st)) = with_car (self st) c'.

(** The cars the code can produce: built by [Car.__init__] and then
    passed through the mutating operations of [Car] and [LapSimulator]. *)
Inductive reachable : Car -> Prop :=
| reach_init tires compound fuel c :
    car.__init__ tires compound fuel = Ok c -> reachable c
| reach_set_setup downforce engine_mode ers c :
    reachable c -> reachable (snd (set_setup downforce engine_mode ers c))
| reach_update_tire_state lap sector_type c :
    reachable c -> reachable (snd (update_tire_state lap sector_type c))
| reach_calculate_sector_time random_source sector_number lap st :
    reachable (car (self st)) ->
    reachable (car (self (snd (calculate_sector_time random_source
                                 sector_number lap st))))
| reach_simulate_full_lap random_source lap st :
    reachable (car (self st)) ->
    reachable (car (self (snd (simulate_full_lap random_source lap st))))
| reach_simulate_stint random_source num_laps start_lap st :
    reachable (car (self st)) ->
    reachable (car (self (snd (simulate_stint random_source num_laps
                                 start_lap st))))
| reach_compare_configurations random_source tires presets configurations st :
    reachable (car (self st)) ->
    reachable (car (self (snd (compare_configurations random_source tires
                                 presets configurations st))))
| reach_set_driver_parameters aggression use_drs s :
    reachable (car s) ->
    reachable (car (snd (set_driver_parameters aggression use_drs s)))
| reach_set_track_condition condition s :
    reachable (car s) ->
    reachable (car (snd (set_track_condition condition s))).

(** The range the tire temperature is kept in. *)
Definition temperature_in_range (c : Car) : Prop :=
  (60 <= car.tire_temperature c <= 140)%Z.

End Reach.

(** More example data: a car, a simulator, and a compound whose optimal
    temperature band lies far above any tire temperature. *)
Module Demo2.

Open Scope string_scope.

(** [Car('medium', 50)] over [Demo.tires]. *)
Definition medium_car : car.Car :=
  {| car.tire_data := Demo.tires;
     car.tire_compound := "medium";
     car.fuel_load := 50;
     car.downforce_level := 5;
     car.engine_mode := "race";
     car.ers_deployment := "auto";
     car.base_weight := 798;
     car.power_unit_power := 1000;
     car.drag_coefficient := 1.0;
     car.current_lap := 1;
     car.tire_temperature := 90 |}.

(** [LapSimulator(two_segment_track, medium_car, 'dry')] over
    [Demo.presets]. *)
Definition simulator : lap_simulator.LapSimulator :=
  {| lap_simulator.circuit := Demo.two_segment_track;
     lap_simulator.car := medium_car;
     lap_simulator.weather := "dry";
     lap_simulator.weather_data := Demo.presets;
     lap_simulator.current_weather := Demo.dry;
     lap_simulator.driver_aggression := 0.5;
     lap_simulator.track_condition := "rubbered_in";
     lap_simulator.use_drs := true;
     lap_simulator.simulation_variance := 0.02 |}.

Definition start : lap_simulator.State :=
  {| lap_simulator.self := simulator; lap_simulator.draws := 0 |}.

Definition hot_compound : TireInfo.t :=
  {| TireInfo.grip_modifier := 1.0;
     TireInfo.optimal_temp_range := (500, 600);
     TireInfo.life_span := 40;
     TireInfo.peak_performance_laps := Some 10;
     TireInfo.degradation_rate := Some 0.02 |}.

Definition hot_tires : TireData.t :=
  {| TireData.tire_compounds := <["medium" := hot_compound]> ∅;
     TireData.cold := {| TempEffect.temp_threshold := 70;
                         TempEffect.grip_loss := 0.15 |};
     TireData.overheated := {| TempEffect.temp_threshold := 120;
                               TempEffect.grip_loss := 0.1 |} |}.

(** [Car('medium', 50)] over [hot_tires]. *)
Definition hot_car : car.Car :=
  {| car.tire_data := hot_tires;
     car.tire_compound := "medium";
     car.fuel_load := 50;
     car.downforce_level := 5;
     car.engine_mode := "race";
     car.ers_deployment := "auto";
     car.base_weight := 798;
     car.power_unit_power := 1000;
     car.drag_coefficient := 1.0;
     car.current_lap := 1;
     car.tire_temperature := 90 |}.

End Demo2.

(** What [compare_configurations] checks of a candidate configuration. *)
Definition valid_config (tires : TireData.t) (config : lap_simulator.Config) : Prop :=
  is_Some (TireData.tire_compounds tires
             !! get (lap_simulator.cfg_tire config) "medium"%string)
  /\ 0 <= get (lap_simulator.cfg_fuel config) 50.0
  /\ get (lap_simulator.cfg_fuel config) 50.0 <= 110
  /\ (contains (lap_simulator.cfg_downforce config)
      || contains (lap_simulator.cfg_engine_mode config)
      || contains (lap_simulator.cfg_ers config) = true ->
      (1 <= get (lap_simulator.cfg_downforce config) 5 <= 10)%Z
      /\ get (lap_simulator.cfg_engine_mode config) "race"%string
           ∈ car.valid_engine_modes
      /\ get (lap_simulator.cfg_ers config) "auto"%string ∈ car.valid_ers_modes).

(** ** What the comparison promises of each entry of its result *)

(** The order of a list sorted by [key] from an input listed in the order
    [before]: by key, and by position in the input among equal keys. *)
Definition key_then_input {A} (key : A -> Q) (before : A -> A -> Prop)
           (x y : A) : Prop :=
  key x < key y \/ (key x == key y /\ before x y).

(** The car built for a configuration: [Car(tire, fuel)] with the
    configuration's compound and fuel load (medium and 50.0 when it names
    none), as the constructor leaves it, on lap 1 at 90 degrees; and, when
    the configuration names a downforce level, an engine mode or an ERS
    mode, set up with these (5, race and auto for those it does not
    name). *)
Definition candidate_car (tires : TireData.t) (config : lap_simulator.Config)
  : car.Car :=
  {| car.tire_data := tires;
     car.tire_compound := get (lap_simulator.cfg_tire config) "medium"%string;
     car.fuel_load := get (lap_simulator.cfg_fuel config) 50.0;
     car.downforce_level := get (lap_simulator.cfg_downforce config) 5%Z;
     car.engine_mode := get (lap_simulator.cfg_engine_mode config) "race"%string;
     car.ers_deployment := get (lap_simulator.cfg_ers config) "auto"%string;
     car.base_weight := 798;
     car.power_unit_power := 1000;
     car.drag_coefficient :=
       if contains (lap_simulator.cfg_downforce config)
          || contains (lap_simulator.cfg_engine_mode config)
          || contains (lap_simulator.cfg_ers config)
       then 0.7 + (inject_Z (get (lap_simulator.cfg_downforce config) 5%Z) / 10)
                  * 0.6
       else 1.0;
     car.current_lap := 1;
     car.tire_temperature := 90 |}.

(** The simulator built around that car: on the track, in the weather [w]
    named by the comparing simulator [s], with the driver parameters and
    the track condition of [s], and the variance of a new simulator. *)
Definition candidate (tires : TireData.t) (presets : WeatherData.t)
           (s : lap_simulator.LapSimulator) (w : Weather.t)
           (config : lap_simulator.Config) : lap_simulator.LapSimulator :=
  {| lap_simulator.circuit := lap_simulator.circuit s;
     lap_simulator.car := candidate_car tires config;
     lap_simulator.weather := lap_simulator.weather s;
     lap_simulator.weather_data := presets;
     lap_simulator.current_weather := w;
     lap_simulator.driver_aggression := lap_simulator.driver_aggression s;
     lap_simulator.track_condition := lap_simulator.track_condition s;
     lap_simulator.use_drs := lap_simulator.use_drs s;
     lap_simulator.simulation_variance := 0.02 |}.

(** [r] is the lap number 1 of the simulator and the car built for the
    configuration of [r] alone, which is a valid one. *)
Definition evaluated_afresh (random_source : nat -> Q) (tires : TireData.t)
           (presets : WeatherData.t) (s : lap_simulator.LapSimulator)
           (r : lap_simulator.Comparison) : Prop :=
  exists w d,
    WeatherData.weather_conditions presets !! lap_simulator.weather s = Some w
    /\ valid_config tires (lap_simulator.configuration r)
    /\ fst (lap_simulator.simulate_full_lap random_source 1
              {| lap_simulator.self :=
                   candidate tires presets s w (lap_simulator.configuration r);
                 lap_simulator.draws := d |})
       = Ok (lap_simulator.lap r)
    /\ lap_simulator.lr_lap_number (lap_simulator.lap r) = 1%Z.

(** Two candidates for a comparison: soft tires on 30 kg, and medium tires
    on 50 kg with downforce 3. *)
Module Demo3.

Open Scope string_scope.

Definition candidates : list lap_simulator.Config :=
  [ {| lap_simulator.cfg_tire := Some "soft";
       lap_simulator.cfg_fuel := Some 30;
       lap_simulator.cfg_downforce := None;
       lap_simulator.cfg_engine_mode := None;
       lap_simulator.cfg_ers := None |};
    {| lap_simulator.cfg_tire := Some "medium";
       lap_simulator.cfg_fuel := Some 50;
       lap_simulator.cfg_downforce := Some 3%Z;
       lap_simulator.cfg_engine_mode := None;
       lap_simulator.cfg_ers := None |} ].

End Demo3.

(** ** Dependence on the random source *)

(** Two random sources deliver the same [k] values from position [start]. *)
Definition agree_from (rs1 rs2 : nat -> Q) (start k : nat) : Prop :=
  forall i, (i < k)%nat -> rs1 (start + i)%nat = rs2 (start + i)%nat.

(** A computation over a random source that makes at most [k] draws and
    depends on the source through those draws only. *)
Definition reads {A} (k : nat) (m : (nat -> Q) -> Method lap_simulator.State A)
  : Prop :=
  forall rs1 rs2 st,
    agree_from rs1 rs2 (lap_simulator.draws st) k ->
    m rs1 st = m rs2 st
    /\ (lap_simulator.draws st <= lap_simulator.draws (snd (m rs1 st))
        <= lap_simulator.draws st + k)%nat.

(** A track with a single slow segment. *)
Module Demo4.

Open Scope string_scope.

Definition hairpin_track : circuit.Circuit :=
  {| circuit.name := "hairpin";
     circuit.full_name := "Hairpin";
     circuit.country := "Nowhere";
     circuit.length := 1000;
     circuit.sectors :=
       [ {| Sector.number := 1; Sector.length := 1000; Sector.turns := 4;
            Sector.type := Some "low_speed"; Sector.elevation_change := None |} ];
     circuit.drs_zones := [];
     circuit.lap_record := 0;
     circuit.base_lap_time := 30;
     circuit.difficulty := 0.7 |}.

(** [Car('soft', 50)] over [Demo.tires]. *)
Definition soft_car : car.Car :=
  {| car.tire_data := Demo.tires;
     car.tire_compound := "soft";
     car.fuel_load := 50;
     car.downforce_level := 5;
     car.engine_mode := "race";
     car.ers_deployment := "auto";
     car.base_weight := 798;
     car.power_unit_power := 1000;
     car.drag_coefficient := 1.0;
     car.current_lap := 1;
     car.tire_temperature := 90 |}.

(** [LapSimulator(hairpin_track, soft_car, 'dry')] over [Demo.presets]. *)
Definition simulator : lap_simulator.LapSimulator :=
  {| lap_simulator.circuit := hairpin_track;
     lap_simulator.car := soft_car;
     lap_simulator.weather := "dry";
     lap_simulator.weather_data := Demo.presets;
     lap_simulator.current_weather := Demo.dry;
     lap_simulator.driver_aggression := 0.5;
     lap_simulator.track_condition := "rubbered_in";
     lap_simulator.use_drs := true;
     lap_simulator.simulation_variance := 0.02 |}.

Definition start : lap_simulator.State :=
  {| lap_simulator.self := simulator; lap_simulator.draws := 0 |}.

(** A random source that agrees with [Demo.half] on the first three
    draws only. *)
Definition half_then_zero : nat -> Q :=
  fun i => if (i <? 3)%nat then 0.5 else 0.

End Demo4.

(* ===================================================================== *)
(** * circuit.py: the remaining methods of [Circuit] *)
(* ===================================================================== *)

Module circuit_rest.

Import circuit.


(** [base_speeds.get(sector_type, 180)]. *)
Definition base_speeds (sector_type : string) : Q :=
  if String.eqb sector_type "low_speed" then 120
  else if String.eqb sector_type "medium_speed" then 180
  else if String.eqb sector_type "high_speed" then 280
  else 180.

Definition get_average_speed_estimate (self : Circuit) (sector_number : Z)
  : result Q :=
  match get_sector_data self sector_number with
  | None => Ok 200.0
  | Some sector =>
      let base_speed :=
        base_speeds (get (Sector.type sector) "medium_speed"%string) in
      turn_density ← truediv (Sector.turns sector) (Sector.length sector / 1000);
      let speed_reduction := min 50 (turn_density * 15) in
      Ok (max 80 (base_speed - speed_reduction))
  end.

(** [sum(self.get_average_speed_estimate(i) for i in ...)], from the
    partial sum [acc]. *)
Fixpoint sum_speed_estimates (self : Circuit) (sector_nums : list Z) (acc : Q)
  : result Q :=
  match sector_nums with
  | [] => Ok acc
  | i :: rest =>
      v ← get_average_speed_estimate self i;
      sum_speed_estimates self rest (acc + v)
  end.

Definition _classify_circuit_type (self : Circuit) : result string :=
  total ← sum_speed_estimates self
            (lap_simulator.range1 (get_total_sectors self)) 0;
  avg_speed ← truediv total (inject_Z (Z.of_nat (get_total_sectors self)));
  Ok (if ltb 220 avg_speed then "High-speed circuit"
      else if ltb avg_speed 140 then "Street/Technical circuit"
      else "Mixed circuit")%string.

(** An entry of ["sectors"] in the dictionary of [get_circuit_info]. *)
Record SectorInfo : Type := mkSectorInfo {
  si_sector : Z;
  si_length : Q;
  si_turns : Q;
  si_type : string;
  si_has_drs : bool;
  si_difficulty : Q;
  si_base_time : Q;
  si_avg_speed_estimate : Q
}.

(** The dictionary returned by [get_circuit_info]. *)
Record CircuitInfo : Type := mkCircuitInfo {
  ci_name : string;
  ci_country : string;
  ci_length : Q;
  ci_total_turns : Q;
  ci_sectors : list SectorInfo;
  ci_drs_zones : nat;
  ci_lap_record : Q;
  ci_base_lap_time : Q;
  ci_difficulty : Q;
  ci_circuit_type : string
}.

(** The loop of [get_circuit_info], from the values of [sector_info] and
    [total_turns] reached so far. *)
Fixpoint collect_sector_info (self : Circuit) (sector_nums : list Z)
         (acc : list SectorInfo * Q) : result (list SectorInfo * Q) :=
  match sector_nums with
  | [] => Ok acc
  | i :: rest =>
      let '(sector_info, total_turns) := acc in
      match get_sector_data self i with
      | None => collect_sector_info self rest acc
      | Some sector =>
          difficulty ← calculate_sector_difficulty self i;
          base_time ← get_sector_base_time self i;
          avg_speed ← get_average_speed_estimate self i;
          collect_sector_info self rest
            (sector_info ++
               [ {| si_sector := i;
                    si_length := Sector.length sector;
                    si_turns := Sector.turns sector;
                    si_type := get (Sector.type sector) "unknown"%string;
                    si_has_drs := has_drs_in_sector self i;
                    si_difficulty := difficulty;
                    si_base_time := base_time;
                    si_avg_speed_estimate := avg_speed |} ],
             total_turns + Sector.turns sector)
      end
  end.

Definition get_circuit_info (self : Circuit) : result CircuitInfo :=
  '(sector_info, total_turns) ←
    collect_sector_info self (lap_simulator.range1 (get_total_sectors self))
                        ([], 0);
  circuit_type ← _classify_circuit_type self;
  Ok {| ci_name := full_name self;
        ci_country := country self;
        ci_length := length self;
        ci_total_turns := total_turns;
        ci_sectors := sector_info;
        ci_drs_zones := List.length (drs_zones self);
        ci_lap_record := lap_record self;
        ci_base_lap_time := base_lap_time self;
        ci_difficulty := difficulty self;
        ci_circuit_type := circuit_type |}.

End circuit_rest.

(** What an entry of the summary says of its segment. *)
Definition describes (c : circuit.Circuit) (e : circuit_rest.SectorInfo) : Prop :=
  exists s,
    circuit.get_sector_data c (circuit_rest.si_sector e) = Some s
    /\ circuit_rest.si_length e = Sector.length s
    /\ circuit_rest.si_turns e = Sector.turns s
    /\ circuit_rest.si_type e = get (Sector.type s) "unknown"%string
    /\ circuit_rest.si_has_drs e
       = circuit.has_drs_in_sector c (circuit_rest.si_sector e)
    /\ circuit.calculate_sector_difficulty c (circuit_rest.si_sector e)
       = Ok (circuit_rest.si_difficulty e)
    /\ circuit.get_sector_base_time c (circuit_rest.si_sector e)
       = Ok (circuit_rest.si_base_time e)
    /\ circuit_rest.get_average_speed_estimate c (circuit_rest.si_sector e)
       = Ok (circuit_rest.si_avg_speed_estimate e).

(* ===================================================================== *)
(** * car.py: the summary of a car, and what validation establishes *)
(* ===================================================================== *)

Module car_rest.

Import car.

(** ["setup_summary"] of the dictionary of [get_car_summary]. *)
Record SetupSummary : Type := mkSetupSummary {
  ss_downforce : Z;
  ss_engine_mode : string;
  ss_ers_deployment : string
}.

(** The dictionary returned by [get_car_summary]. *)
Record CarSummary : Type := mkCarSummary {
  cs_tire_compound : string;
  cs_tire_performance : TirePerformance;
  cs_fuel_load : Q;
  cs_total_weight : Q;
  cs_engine_performance : EnginePerformance;
  cs_aerodynamic_balance : AeroBalance;
  cs_current_lap : Z;
  cs_tire_temperature : Z;
  cs_setup_summary : SetupSummary
}.

Definition get_car_summary (self : Car) : result CarSummary :=
  tire_perf ← get_tire_performance self None;
  engine_perf ← get_engine_performance self;
  let aero_balance := get_aerodynamic_balance self in
  Ok {| cs_tire_compound := tire_compound self;
        cs_tire_performance := tire_perf;
        cs_fuel_load := fuel_load self;
        cs_total_weight := get_total_weight self;
        cs_engine_performance := engine_perf;
        cs_aerodynamic_balance := aero_balance;
        cs_current_lap := current_lap self;
        cs_tire_temperature := tire_temperature self;
        cs_setup_summary :=
          {| ss_downforce := downforce_level self;
             ss_engine_mode := engine_mode self;
             ss_ers_deployment := ers_deployment self |} |}.

(** What [Car.__init__] and [set_setup] check, and the constants they set. *)
Definition validated (c : Car) : Prop :=
  is_Some (TireData.tire_compounds (tire_data c) !! tire_compound c)
  /\ 0 <= fuel_load c /\ fuel_load c <= 110
  /\ (1 <= downforce_level c <= 10)%Z
  /\ engine_mode c ∈ valid_engine_modes
  /\ ers_deployment c ∈ valid_ers_modes
  /\ base_weight c = 798
  /\ power_unit_power c = 1000
  /\ 0.76 <= drag_coefficient c /\ drag_coefficient c <= 1.3.

End car_rest.

(** [_estimate_fuel_laps] on binary64 numbers: the quotient is rounded to
    the nearest binary64 number before [int] truncates it. *)
Module car_binary64.

(** [int(x)] on a binary64 number: truncation towards zero; nothing for
    an infinity or a NaN, where Python raises. *)
Definition int (x : float) : option Z :=
  match FloatOps.Prim2SF x with
  | SpecFloat.S754_zero _ => Some 0%Z
  | SpecFloat.S754_finite s m e =>
      let v := if (0 <=? e)%Z then (Z.pos m * 2 ^ e)%Z
               else (Z.pos m / 2 ^ (- e))%Z in
      Some (if s then (- v)%Z else v)
  | _ => None
  end.

#[warnings="-inexact-float"]
Definition consumption_rates (mode : string) : option float :=
  if String.eqb mode "quali" then Some 3.5%float
  else if String.eqb mode "race" then Some 2.8%float
  else if String.eqb mode "conservation" then Some 2.3%float
  else None.

(** [None] stands for the [KeyError] of an engine mode that is not in the
    table. *)
Definition _estimate_fuel_laps (fuel_load : float) (engine_mode : string)
  : option Z :=
  match consumption_rates engine_mode with
  | Some consumption_per_lap => int (fuel_load / consumption_per_lap)
  | None => None
  end.

End car_binary64.

(* ===================================================================== *)
(** * utils.py: formatting and the validation of inputs *)
(* ===================================================================== *)

Module utils_rest.

Local Open Scope string_scope.

(** The nearest integer, a tie going to the even one: how the format
    [.3f] rounds the thousandths. *)
Definition round_half_even (x : Q) : Z :=
  let f := Qfloor x in
  let d := x - inject_Z f in
  if ltb d 0.5 then f
  else if ltb 0.5 d then (f + 1)%Z
  else if Z.even f then f else (f + 1)%Z.

(** Three digits, with leading zeros. *)
Definition three_digits (n : Z) : string :=
  let s := pretty n in
  match String.length s with
  | 1%nat => "00" ++ s
  | 2%nat => "0" ++ s
  | _ => s
  end.

(** [f"{x:.3f}"]. *)
Definition fixed3 (x : Q) : string :=
  let n := round_half_even (Qabs x * 1000) in
  (if ltb x 0 then "-" else "")
    ++ pretty (n / 1000)%Z ++ "." ++ three_digits (n mod 1000)%Z.

(** [f"{x:06.3f}"]: zeros in front, up to six characters. *)
Definition fixed3_width6 (x : Q) : string :=
  let s := fixed3 x in
  match String.length s with
  | 5%nat => "0" ++ s
  | _ => s
  end.

(** [x // 60] and [x % 60] on floats. *)
Definition floordiv60 (x : Q) : Q := inject_Z (Qfloor (x / 60)).
Definition mod60 (x : Q) : Q := x - 60 * inject_Z (Qfloor (x / 60)).

Definition format_lap_time (seconds : Q) : string :=
  if ltb seconds 0 then "N/A"
  else
    let minutes := int (floordiv60 seconds) in
    let remaining_seconds := mod60 seconds in
    if (0 <? minutes)%Z
    then pretty minutes ++ ":" ++ fixed3_width6 remaining_seconds
    else fixed3 remaining_seconds ++ "s".

Definition format_sector_time (seconds : Q) : string :=
  if ltb seconds 0 then "N/A" else fixed3 seconds ++ "s".

Section ValidateInputs.

(** The three files, and the text of [list(d.keys())] for a table [d] of
    them (which depends on the order of the keys in the file). *)
Variable circuits_json : gmap string CircuitData.t.
Variable tires_json : TireData.t.
Variable weather_presets_json : WeatherData.t.
Variable keys_text : forall V, gmap string V -> string.

Definition validate_inputs (circuit tire_compound : string) (fuel_load : Q)
           (weather : string) : bool * string :=
  if negb (contains (circuits_json !! circuit))
  then (false, "Circuit '" ++ circuit ++ "' not found. Available: "
               ++ keys_text _ circuits_json)
  else if negb (contains (TireData.tire_compounds tires_json !! tire_compound))
  then (false, "Tire compound '" ++ tire_compound ++ "' not found. Available: "
               ++ keys_text _ (TireData.tire_compounds tires_json))
  else if negb (contains (WeatherData.weather_conditions weather_presets_json
                            !! weather))
  then (false, "Weather condition '" ++ weather ++ "' not found. Available: "
               ++ keys_text _ (WeatherData.weather_conditions
                                 weather_presets_json))
  else if negb (leb 0 fuel_load && leb fuel_load 110)
  then (false, "Fuel load must be between 0 and 110 kg")
  else (true, "").

End ValidateInputs.

End utils_rest.

(* ===================================================================== *)
(** * lap_simulator.py: what results record *)
(* ===================================================================== *)

(** What a segment result says, for the track [c] and the fuel load [f]. *)
Definition records_segment (c : circuit.Circuit) (f : Q)
           (r : lap_simulator.SectorResult) : Prop :=
  0 <= lap_simulator.time r
  /\ circuit.get_sector_data c (lap_simulator.sector_number r)
     = Some (lap_simulator.sector_data r)
  /\ circuit.get_sector_base_time c (lap_simulator.sector_number r)
     = Ok (lap_simulator.base_time r)
  /\ lap_simulator.has_drs r
     = circuit.has_drs_in_sector c (lap_simulator.sector_number r)
  /\ lap_simulator.fuel_penalty (lap_simulator.modifiers r)
     = utils.fuel_weight_to_lap_time f (circuit.length c).

(** The category [calculate_sector_time] passes to [update_tire_state]:
    [sector_data.get('type', 'medium_speed')]. *)
Definition category (r : lap_simulator.SectorResult) : string :=
  get (Sector.type (lap_simulator.sector_data r)) "medium_speed"%string.

(** The car after the calls of [update_tire_state] of a lap, one for
    each category of [categories] in turn. *)
Definition after_segments (lap : Z) (categories : list string) (c : car.Car)
  : car.Car :=
  fold_left (fun c ty => snd (car.update_tire_state lap ty c)) categories c.

(* ===================================================================== *)
(** * lap_simulator.py: [get_optimal_setup_suggestions] *)
(* ===================================================================== *)

Module lap_simulator_rest.

Import lap_simulator.

Local Open Scope string_scope.

(** [needle in s] on strings. *)
Fixpoint substring_in (needle s : string) : bool :=
  String.prefix needle s
  || match s with
     | EmptyString => false
     | String _ s' => substring_in needle s'
     end.

(** What a call ends in: besides the exceptions of [Py.exn], indexing an
    empty list raises [IndexError]. *)
Inductive outcome (A : Type) : Type :=
| Returns (a : A)
| Raises (e : exn)
| RaisesIndexError.
Arguments Returns {A} a.
Arguments Raises {A} e.
Arguments RaisesIndexError {A}.

(** [suggestions['recommended_setup']]: the three keys are all set when
    the method returns. *)
Record RecommendedSetup : Type := mkRecommendedSetup {
  rs_downforce : Z;
  rs_engine_mode : string;
  rs_ers_deployment : string
}.

(** [suggestions['tire_strategy']]: the keys the method may set. *)
Record TireStrategy : Type := mkTireStrategy {
  ts_qualifying : option string;
  ts_race_start : option string;
  ts_recommended : option string
}.

Record Suggestions : Type := mkSuggestions {
  circuit_analysis : circuit_rest.CircuitInfo;
  recommended_setup : RecommendedSetup;
  tire_strategy : TireStrategy;
  reasoning : list string
}.

Definition get_optimal_setup_suggestions (self : LapSimulator)
  : outcome Suggestions :=
  match circuit_rest.get_circuit_info (circuit self) with
  | Raise e => Raises e
  | Ok circuit_info =>
      let circuit_type := circuit_rest.ci_circuit_type circuit_info in
      let '(downforce, reason) :=
        if substring_in "High-speed" circuit_type
        then (3%Z, "Low downforce for high-speed circuit")
        else if substring_in "Street" circuit_type
                || substring_in "Technical" circuit_type
        then (8%Z, "High downforce for technical circuit")
        else (5%Z, "Balanced downforce for mixed circuit") in
      let finish (tire_strategy : TireStrategy) :=
        Returns {| circuit_analysis := circuit_info;
                   recommended_setup :=
                     {| rs_downforce := downforce;
                        rs_engine_mode := "race";
                        rs_ers_deployment := "auto" |};
                   tire_strategy := tire_strategy;
                   reasoning := [reason] |} in
      if String.eqb (weather self) "dry"
      then
        if ltb 0.8 (circuit_rest.ci_difficulty circuit_info)
        then finish {| ts_qualifying := Some "soft";
                       ts_race_start := Some "medium";
                       ts_recommended := None |}
        else finish {| ts_qualifying := Some "soft";
                       ts_race_start := Some "medium";
                       ts_recommended := None |}
      else
        match Weather.optimal_tire (current_weather self) with
        | None => Raises KeyError
        | Some [] => RaisesIndexError
        | Some (optimal_tire :: _) =>
            finish {| ts_qualifying := None;
                      ts_race_start := None;
                      ts_recommended := Some optimal_tire |}
        end
  end.

End lap_simulator_rest.

(* ===================================================================== *)
(** * Two evaluations in a row *)
(* ===================================================================== *)

(** [st2] is [st1] but for the current lap of its car. *)
Definition same_but_current_lap (st1 st2 : lap_simulator.State) : Prop :=
  lap_simulator.draws st1 = lap_simulator.draws st2
  /\ exists l,
       lap_simulator.self st2
       = lap_simulator.with_car (lap_simulator.self st1)
           (snd (lap_simulator.set_current_lap l
                   (lap_simulator.car (lap_simulator.self st1)))).

(** The state in which a second evaluation starts when the first has left
    [st'] and the random source is started again at the position [d]. *)
Definition replayed (st' : lap_simulator.State) (d : nat) : lap_simulator.State :=
  {| lap_simulator.self := lap_simulator.self st'; lap_simulator.draws := d |}.

(** The simulator of [Demo2] on the track of the scenario, whose only
    segment is of medium speed. *)
Module Demo5.

Definition simulator : lap_simulator.LapSimulator :=
  {| lap_simulator.circuit := Demo.scenario_track;
     lap_simulator.car := Demo2.medium_car;
     lap_simulator.weather := "dry";
     lap_simulator.weather_data := Demo.presets;
     lap_simulator.current_weather := Demo.dry;
     lap_simulator.driver_aggression := 0.5;
     lap_simulator.track_condition := "rubbered_in";
     lap_simulator.use_drs := true;
     lap_simulator.simulation_variance := 0.02 |}.

Definition start : lap_simulator.State :=
  {| lap_simulator.self := simulator; lap_simulator.draws := 0 |}.

End Demo5.

(* ===================================================================== *)
(** * Properties *)
(* ===================================================================== *)

(** ** Comparisons, [min], [max] and division *)

Lemma leb_iff a b : leb a b = true <-> a <= b.
Proof. apply Qle_bool_iff. Qed.

Lemma ltb_iff a b : ltb a b = true <-> a < b.
Proof.
  unfold ltb. rewrite negb_true_iff. split.
  - intros H. apply Qnot_le_lt. intros Hle. apply Qle_bool_iff in Hle. congruence.
  - intros H. destruct (Qle_bool b a) eqn:E; [|reflexivity].
    apply Qle_bool_iff in E. exfalso. eapply Qlt_not_le; eauto.
Qed.

Lemma leb_false_iff a b : leb a b = false <-> b < a.
Proof.
  rewrite <- ltb_iff. unfold ltb, leb.
  destruct (Qle_bool a b); simpl; intuition congruence.
Qed.

Lemma ltb_false_iff a b : ltb a b = false <-> b <= a.
Proof.
  rewrite <- leb_iff. unfold ltb, leb.
  destruct (Qle_bool b a); simpl; intuition congruence.
Qed.

Lemma min_Qmin a b : min a b == Qmin a b.
Proof.
  unfold min. destruct (ltb b a) eqn:E.
  - apply ltb_iff in E. symmetry. apply Q.min_r. lra.
  - apply ltb_false_iff in E. symmetry. apply Q.min_l. lra.
Qed.

Lemma max_Qmax a b : max a b == Qmax a b.
Proof.
  unfold max. destruct (ltb a b) eqn:E.
  - apply ltb_iff in E. symmetry. apply Q.max_r. lra.
  - apply ltb_false_iff in E. symmetry. apply Q.max_l. lra.
Qed.

Lemma max_lower a b : a <= max a b.
Proof. unfold max. destruct (ltb a b) eqn:E; [apply ltb_iff in E|]; lra. Qed.

Lemma max_cases a b : (b <= a /\ max a b = a) \/ (a < b /\ max a b = b).
Proof.
  unfold max. destruct (ltb a b) eqn:E.
  - right. apply ltb_iff in E. auto.
  - left. apply ltb_false_iff in E. auto.
Qed.

Lemma min_cases a b : (a <= b /\ min a b = a) \/ (b < a /\ min a b = b).
Proof.
  unfold min. destruct (ltb b a) eqn:E.
  - right. apply ltb_iff in E. auto.
  - left. apply ltb_false_iff in E. auto.
Qed.

Lemma truediv_ok a b : ~ b == 0 -> truediv a b = Ok (a / b).
Proof.
  intros H. unfold truediv. destruct (Qeq_bool b 0) eqn:E; [|reflexivity].
  apply Qeq_bool_iff in E. contradiction.
Qed.

(** ** Fuel weight *)

(** Two fuel loads next to each other among the binary64 numbers,
    50.000000000000021 and 50.000000000000028 kg, both accepted by
    [Car.__init__], give the same penalty on a 5000 m track,
    8.7500000000000053 s: the computed penalty is not strictly increasing
    in the fuel mass. *)
Lemma fuel_penalty_not_strictly_increasing :
  PrimFloat.leb 0 0x1.9000000000003p+5 = true
  /\ PrimFloat.ltb 0x1.9000000000003p+5 0x1.9000000000004p+5 = true
  /\ PrimFloat.leb 0x1.9000000000004p+5 110 = true
  /\ PrimFloat.eqb
       (utils_binary64.fuel_weight_to_lap_time 0x1.9000000000003p+5 5000)
       (utils_binary64.fuel_weight_to_lap_time 0x1.9000000000004p+5 5000)
     = true.
Proof. repeat split; vm_compute; reflexivity. Qed.

(** C6: the fuel time penalty is fuel mass x track length in km x 0.035 s;
    for a fixed track length it does not decrease when the fuel mass
    grows, and doubling the fuel doubles it; on a 5000 m track the penalty
    at 110 kg is strictly larger than the one at 20 kg and the two are in
    ratio 5.5, also as computed on binary64 numbers, where 40 kg gives
    twice the penalty of 20 kg. *)
Theorem fuel_penalty_linear (f L : Q) :
  0 <= f -> 0 < L ->
  utils.fuel_weight_to_lap_time f L == f * (L / 1000) * 0.035
  /\ (forall f', f <= f' ->
        utils.fuel_weight_to_lap_time f L <= utils.fuel_weight_to_lap_time f' L)
  /\ utils.fuel_weight_to_lap_time (2 * f) L
     == 2 * utils.fuel_weight_to_lap_time f L
  /\ utils.fuel_weight_to_lap_time 20 5000 < utils.fuel_weight_to_lap_time 110 5000
  /\ utils.fuel_weight_to_lap_time 110 5000 / utils.fuel_weight_to_lap_time 20 5000
     == 5.5
  /\ PrimFloat.ltb (utils_binary64.fuel_weight_to_lap_time 20 5000)
       (utils_binary64.fuel_weight_to_lap_time 110 5000) = true
  /\ PrimFloat.eqb
       (utils_binary64.fuel_weight_to_lap_time 110 5000
        / utils_binary64.fuel_weight_to_lap_time 20 5000)%float
       5.5 = true
  /\ PrimFloat.eqb
       (utils_binary64.fuel_weight_to_lap_time 40 5000)
       (2 * utils_binary64.fuel_weight_to_lap_time 20 5000)%float = true.
Proof.
  intros Hf HL.
  split; [unfold utils.fuel_weight_to_lap_time; reflexivity|].
  split.
  { intros f' Hle. unfold utils.fuel_weight_to_lap_time.
    assert (0 < L / 1000) by (apply Qlt_shift_div_l; lra).
    nra. }
  split; [unfold utils.fuel_weight_to_lap_time; ring|].
  split; [reflexivity|]. split; [reflexivity|].
  repeat split; vm_compute; reflexivity.
Qed.

Lemma fuel_penalty_linear_witness :
  0 <= 20 /\ 0 < 5000
  /\ utils.fuel_weight_to_lap_time 20 5000 == 3.5
  /\ utils.fuel_weight_to_lap_time 40 5000
     == 2 * utils.fuel_weight_to_lap_time 20 5000.
Proof.
  assert (H0 : 0 <= 20) by (unfold Qle; simpl; lia).
  assert (H1 : 0 < 5000) by reflexivity.
  destruct (fuel_penalty_linear 20 5000 H0 H1) as (He & _ & Hd & _).
  split; [exact H0|]. split; [exact H1|]. split; [|exact Hd].
  rewrite He. reflexivity.
Defined.

(** ** Tire degradation *)

Lemma degradation_warm_up (lap : Z) (td : TireInfo.t) :
  1 <= utils.peak_laps td ->
  inject_Z lap <= utils.peak_laps td ->
  utils.calculate_tire_degradation lap td
  = Ok (min 1.0 (0.95 + (inject_Z lap / utils.peak_laps td) * 0.05)).
Proof.
  intros Hp Hle. unfold utils.calculate_tire_degradation.
  apply leb_iff in Hle. rewrite Hle.
  rewrite truediv_ok by lra. reflexivity.
Qed.

Lemma degradation_past_peak (lap : Z) (td : TireInfo.t) :
  utils.peak_laps td < inject_Z lap ->
  utils.calculate_tire_degradation lap td
  = Ok (max 0.7 (1.0 - (inject_Z lap - utils.peak_laps td)
                       * utils.degradation_rate td)).
Proof.
  intros Hlt. unfold utils.calculate_tire_degradation.
  apply leb_false_iff in Hlt. rewrite Hlt. reflexivity.
Qed.

(** The multiplier lies in [0.7, 1] for every lap number from 0 on. *)
Lemma degradation_range (lap : Z) (td : TireInfo.t) :
  1 <= utils.peak_laps td -> 0 <= utils.degradation_rate td -> (0 <= lap)%Z ->
  exists m, utils.calculate_tire_degradation lap td = Ok m /\ 0.7 <= m /\ m <= 1.
Proof.
  intros Hp Hr Hlap.
  assert (H0 : 0 <= inject_Z lap).
  { change 0 with (inject_Z 0). rewrite <- Zle_Qle. exact Hlap. }
  destruct (Qlt_le_dec (utils.peak_laps td) (inject_Z lap)) as [Hlt|Hle].
  - rewrite degradation_past_peak by assumption. eexists. split; [reflexivity|].
    split; [apply max_lower|].
    destruct (max_cases 0.7 (1.0 - (inject_Z lap - utils.peak_laps td)
                                   * utils.degradation_rate td))
      as [[_ ->]|[_ ->]]; [lra|nra].
  - rewrite degradation_warm_up by assumption. eexists. split; [reflexivity|].
    assert (0 <= inject_Z lap / utils.peak_laps td).
    { apply Qle_shift_div_l; lra. }
    destruct (min_cases 1.0 (0.95 + inject_Z lap / utils.peak_laps td * 0.05))
      as [[? ->]|[? ->]]; lra.
Qed.

(** C4: for a compound with peak_laps >= 1 and degradation_rate >= 0, the
    multiplier of a lap up to peak_laps is min(1.0, 0.95 + (lap/peak_laps) x 0.05);
    past peak_laps it is non-increasing in the lap number; and it never
    falls below 0.7. *)
Theorem tire_degradation_curve (td : TireInfo.t) :
  1 <= utils.peak_laps td ->
  0 <= utils.degradation_rate td ->
  (forall lap : Z, inject_Z lap <= utils.peak_laps td ->
     exists m, utils.calculate_tire_degradation lap td = Ok m
               /\ m == Qmin 1 (0.95 + (inject_Z lap / utils.peak_laps td) * 0.05))
  /\ (forall lap1 lap2 : Z,
        utils.peak_laps td < inject_Z lap1 -> (lap1 <= lap2)%Z ->
        exists m1 m2, utils.calculate_tire_degradation lap1 td = Ok m1
                      /\ utils.calculate_tire_degradation lap2 td = Ok m2
                      /\ m2 <= m1 /\ 0.7 <= m2)
  /\ (forall lap : Z, (0 <= lap)%Z ->
        exists m, utils.calculate_tire_degradation lap td = Ok m /\ 0.7 <= m).
Proof.
  intros Hp Hr. split; [|split].
  - intros lap Hle. rewrite degradation_warm_up by assumption.
    eexists. split; [reflexivity|].
    destruct (min_cases 1.0 (0.95 + inject_Z lap / utils.peak_laps td * 0.05))
      as [[H ->]|[H ->]]; symmetry.
    + rewrite Q.min_l by lra. reflexivity.
    + apply Q.min_r. lra.
  - intros lap1 lap2 H1 H12.
    assert (Hq : inject_Z lap1 <= inject_Z lap2) by (rewrite <- Zle_Qle; exact H12).
    rewrite !degradation_past_peak by lra.
    do 2 eexists. split; [reflexivity|]. split; [reflexivity|].
    split; [|apply max_lower].
    rewrite !max_Qmax. apply Q.max_le_compat_l. nra.
  - intros lap Hlap.
    destruct (degradation_range lap td Hp Hr Hlap) as (m & Hm & Hlo & _).
    eauto.
Qed.

Lemma tire_degradation_curve_witness :
  (exists m, utils.calculate_tire_degradation 5 Demo.medium = Ok m /\ m == 0.975)
  /\ (exists m1 m2, utils.calculate_tire_degradation 12 Demo.medium = Ok m1
                    /\ utils.calculate_tire_degradation 30 Demo.medium = Ok m2
                    /\ m2 <= m1 /\ 0.7 <= m2).
Proof.
  assert (Hp : 1 <= utils.peak_laps Demo.medium) by (vm_compute; discriminate).
  assert (Hr : 0 <= utils.degradation_rate Demo.medium) by (vm_compute; discriminate).
  destruct (tire_degradation_curve Demo.medium Hp Hr) as (Hup & Hdown & _).
  split.
  - destruct (Hup 5%Z) as (m & Hm & Heq); [vm_compute; discriminate|].
    exists m. split; [exact Hm|]. rewrite Heq. reflexivity.
  - apply (Hdown 12%Z 30%Z); [reflexivity | lia].
Defined.

(** ** Segments of a track *)

Lemma get_sector_data_absent (c : circuit.Circuit) (n : Z) :
  (forall s, In s (circuit.sectors c) -> Sector.number s <> n) ->
  circuit.get_sector_data c n = None.
Proof.
  intros H. unfold circuit.get_sector_data.
  destruct (find _ _) as [s|] eqn:E; [|reflexivity].
  apply find_some in E. destruct E as [Hin Heq].
  apply Z.eqb_eq in Heq. exfalso. exact (H s Hin Heq).
Qed.

Lemma get_sector_data_found (c : circuit.Circuit) (n : Z) (s : Sector.t) :
  circuit.get_sector_data c n = Some s ->
  In s (circuit.sectors c) /\ Sector.number s = n.
Proof.
  unfold circuit.get_sector_data. intros E. apply find_some in E.
  destruct E as [Hin Heq]. apply Z.eqb_eq in Heq. auto.
Qed.

(** C1, as the code has it: for a segment number that is not on the track
    the lookup returns [None]; the base time is then 0.0 and the difficulty
    1.0, both returned normally; the segment time computation of the engine
    raises [ValueError] and leaves the simulator, its car and the random
    source as they were. *)
Theorem absent_segment (c : circuit.Circuit) (n : Z) :
  (forall s, In s (circuit.sectors c) -> Sector.number s <> n) ->
  circuit.get_sector_data c n = None
  /\ circuit.get_sector_base_time c n = Ok 0.0
  /\ circuit.calculate_sector_difficulty c n = Ok 1.0
  /\ (forall random_source lap st,
        lap_simulator.circuit (lap_simulator.self st) = c ->
        lap_simulator.calculate_sector_time random_source n lap st
        = (Raise ValueError, st)).
Proof.
  intros H. pose proof (get_sector_data_absent c n H) as E.
  split; [exact E|]. split; [|split].
  - unfold circuit.get_sector_base_time. rewrite E. reflexivity.
  - unfold circuit.calculate_sector_difficulty. rewrite E. reflexivity.
  - intros rs lap st Hc. unfold lap_simulator.calculate_sector_time.
    unfold mbind, method_bind, Method.bind, Method.get, Method.lift.
    rewrite Hc. unfold circuit.get_sector_base_time. rewrite E. reflexivity.
Qed.

Lemma absent_segment_witness :
  circuit.get_sector_data Demo.scenario_track 2 = None
  /\ circuit.get_sector_base_time Demo.scenario_track 2 = Ok 0.0.
Proof.
  assert (H : forall s, In s (circuit.sectors Demo.scenario_track) ->
                        Sector.number s <> 2%Z).
  { intros s [<-|[]]. vm_compute. discriminate. }
  destruct (absent_segment Demo.scenario_track 2 H) as (H1 & H2 & _).
  split; assumption.
Defined.

(** C1 fails as stated: on the one-segment scenario track, segment number 2
    does not exist, yet its base time is computed without any error, as
    0.0, and its difficulty as 1.0. *)
Lemma absent_segment_base_time_is_zero :
  circuit.get_sector_data Demo.scenario_track 2 = None
  /\ circuit.get_sector_base_time Demo.scenario_track 2 = Ok 0.0
  /\ circuit.calculate_sector_difficulty Demo.scenario_track 2 = Ok 1.0
  /\ is_ok (circuit.get_sector_base_time Demo.scenario_track 2) = true.
Proof. repeat split. Qed.

(** C2 fails as stated: on the scenario track the difficulty of the segment
    is 1.1 (0.8, plus 0.2 for 2 turns per km, plus 0.1 for medium speed) and
    its base time 110 s; they are 0.2 and 20 s away from 0.9 and 90 s. *)
Lemma scenario_difficulty_is_not_0_9 :
  exists d t,
    circuit.calculate_sector_difficulty Demo.scenario_track 1 = Ok d
    /\ circuit.get_sector_base_time Demo.scenario_track 1 = Ok t
    /\ Qabs (d - 0.9) == 0.2
    /\ Qabs (t - 90) == 20.
Proof.
  eexists. eexists. split; [vm_compute; reflexivity|].
  split; [vm_compute; reflexivity|]. split; reflexivity.
Qed.

(** C2, as the code has it: for the scenario track (one medium-speed
    segment of 5000 m with 10 turns, base lap time 100 s) the difficulty
    factor is 0.8 + min(0.3, 2 x 0.1) + 0.1 = 1.1, inside [0.5, 1.2], and
    the segment base time is 100 x 1.0 x 1.1 = 110 s. *)
Theorem scenario_difficulty_and_base_time :
  exists d t,
    circuit.calculate_sector_difficulty Demo.scenario_track 1 = Ok d
    /\ circuit.get_sector_base_time Demo.scenario_track 1 = Ok t
    /\ d == 0.8 + Qmin 0.3 (10 / (5000 / 1000) * 0.1) + 0.1
    /\ d == 1.1
    /\ 0.5 <= d /\ d <= 1.2
    /\ t == 100 * (5000 / 5000) * d
    /\ t == 110.
Proof.
  eexists. eexists. split; [vm_compute; reflexivity|].
  split; [vm_compute; reflexivity|].
  repeat (split; [first [reflexivity | vm_compute; discriminate]|]).
  reflexivity.
Qed.

(** ** The car of a simulation *)

Section CarEvolves.
Import car lap_simulator Reach.

Lemma evolves_trans c1 c2 c3 : evolves c1 c2 -> evolves c2 c3 -> evolves c1 c3.
Proof. intros H12 H23. induction H23; [assumption| |]; constructor; assumption. Qed.

Lemma with_car_car s : with_car s (car s) = s.
Proof. destruct s; reflexivity. Qed.

Lemma with_car_with_car s c1 c2 : with_car (with_car s c1) c2 = with_car s c2.
Proof. reflexivity. Qed.

Lemma car_evolves_ret {A} (a : A) : car_evolves (mret a).
Proof. intros st. exists (car (self st)). split; [constructor|]. symmetry. apply with_car_car. Qed.

Lemma car_evolves_raise {A} e : car_evolves (@Method.raise State A e).
Proof. intros st. exists (car (self st)). split; [constructor|]. symmetry. apply with_car_car. Qed.

Lemma car_evolves_lift {A} (r : result A) : car_evolves (Method.lift r).
Proof. intros st. exists (car (self st)). split; [constructor|]. symmetry. apply with_car_car. Qed.

Lemma car_evolves_get : car_evolves (@Method.get State).
Proof. intros st. exists (car (self st)). split; [constructor|]. symmetry. apply with_car_car. Qed.

Lemma car_evolves_bind {A B} (m : Method State A) (k : A -> Method State B) :
  car_evolves m -> (forall a, car_evolves (k a)) -> car_evolves (m ≫= k).
Proof.
  intros Hm Hk st. unfold mbind, method_bind, Method.bind.
  destruct (Hm st) as (c1 & E1 & S1).
  destruct (m st) as [[a|e] st1] eqn:Em; simpl in S1.
  - destruct (Hk a st1) as (c2 & E2 & S2).
    exists c2. rewrite S2, S1. split; [|reflexivity].
    rewrite S1 in E2. simpl in E2. eapply evolves_trans; eassumption.
  - exists c1. simpl. auto.
Qed.

Lemma car_evolves_random rs : car_evolves (random rs).
Proof. intros st. exists (car (self st)). split; [constructor|]. symmetry. apply with_car_car. Qed.

Lemma car_evolves_uniform rs a b : car_evolves (uniform rs a b).
Proof.
  unfold uniform. apply car_evolves_bind; [apply car_evolves_random|].
  intros u. apply car_evolves_ret.
Qed.

Lemma car_evolves_update lap ty : car_evolves (on_car (update_tire_state lap ty)).
Proof.
  intros st. exists (snd (update_tire_state lap ty (car (self st)))).
  split; [constructor; constructor|]. reflexivity.
Qed.

Lemma car_evolves_set_current_lap lap : car_evolves (on_car (set_current_lap lap)).
Proof.
  intros st. exists (snd (set_current_lap lap (car (self st)))).
  split; [constructor; constructor|]. reflexivity.
Qed.

Ltac evolve :=
  repeat first
    [ apply car_evolves_ret
    | apply car_evolves_raise
    | apply car_evolves_lift
    | apply car_evolves_get
    | apply car_evolves_random
    | apply car_evolves_uniform
    | apply car_evolves_update
    | apply car_evolves_set_current_lap
    | apply car_evolves_bind; [|intros]
    | match goal with
      | |- car_evolves (match ?x with _ => _ end) => destruct x
      | |- car_evolves (let '(_, _) := ?x in _) => destruct x
      end ].

Lemma car_evolves_calculate_sector_time rs n lap :
  car_evolves (calculate_sector_time rs n lap).
Proof. unfold calculate_sector_time. evolve. Qed.

Lemma car_evolves_simulate_sectors rs lap nums acc :
  car_evolves (simulate_sectors rs lap nums acc).
Proof.
  revert acc. induction nums as [|n nums IH]; intros acc; simpl.
  - apply car_evolves_ret.
  - destruct acc as [[results total] all_warnings].
    apply car_evolves_bind; [apply car_evolves_calculate_sector_time|].
    intros r. apply IH.
Qed.

Lemma car_evolves_simulate_full_lap rs lap : car_evolves (simulate_full_lap rs lap).
Proof.
  unfold simulate_full_lap.
  apply car_evolves_bind; [apply car_evolves_get|]. intros st.
  apply car_evolves_bind; [apply car_evolves_simulate_sectors|].
  intros [[results total] all_warnings]. evolve.
Qed.

Lemma car_evolves_simulate_laps rs laps results :
  car_evolves (simulate_laps rs laps results).
Proof.
  revert results. induction laps as [|lap laps IH]; intros results; simpl.
  - apply car_evolves_ret.
  - apply car_evolves_bind; [apply car_evolves_simulate_full_lap|]. intros r.
    apply car_evolves_bind; [apply car_evolves_set_current_lap|]. intros _.
    apply IH.
Qed.

Lemma car_evolves_simulate_stint rs num_laps start_lap :
  car_evolves (simulate_stint rs num_laps start_lap).
Proof. apply car_evolves_simulate_laps. Qed.

(** A comparison leaves the simulator and its car exactly as they were:
    each candidate runs on a car and a simulator of its own. *)
Lemma compare_one_self rs tires presets i config st :
  self (snd (compare_one rs tires presets i config st)) = self st.
Proof.
  unfold compare_one.
  destruct (candidate_simulator tires presets (self st) config); [|reflexivity].
  destruct (simulate_full_lap rs 1 _) as [[r|e] temp_st]; reflexivity.
Qed.

Lemma compare_loop_self rs tires presets configurations :
  forall i results st,
    self (snd (compare_loop rs tires presets i configurations results st))
    = self st.
Proof.
  induction configurations as [|config rest IH]; intros i results st; simpl.
  - reflexivity.
  - unfold mbind, method_bind, Method.bind.
    pose proof (compare_one_self rs tires presets i config st) as H1.
    destruct (compare_one rs tires presets i config st) as [[r|e] st1];
      simpl in H1.
    + rewrite IH. exact H1.
    + exact H1.
Qed.

Lemma compare_configurations_self rs tires presets configurations st :
  self (snd (compare_configurations rs tires presets configurations st))
  = self st.
Proof.
  unfold compare_configurations, mbind, method_bind, Method.bind.
  pose proof (compare_loop_self rs tires presets configurations 0 [] st) as H.
  destruct (compare_loop rs tires presets 0 configurations [] st)
    as [[r|e] st1]; exact H.
Qed.

Lemma evolves_temperature c c' :
  temperature_in_range c -> evolves c c' -> temperature_in_range c'.
Proof.
  intros Hc H. induction H as [|c' lap ty _ IH|c' lap _ IH].
  - exact Hc.
  - unfold temperature_in_range in *. simpl. lia.
  - exact IH.
Qed.

Lemma car_evolves_temperature {A} (m : Method State A) st :
  car_evolves m ->
  temperature_in_range (car (self st)) ->
  temperature_in_range (car (self (snd (m st)))).
Proof.
  intros Hm Hc. destruct (Hm st) as (c' & E & S). rewrite S. simpl.
  eapply evolves_temperature; eassumption.
Qed.

Lemma init_temperature tires compound fuel c :
  car.__init__ tires compound fuel = Ok c -> car.tire_temperature c = 90%Z.
Proof.
  unfold car.__init__. intros H.
  destruct (negb _); [discriminate|]. destruct (negb _); [discriminate|].
  injection H as <-. reflexivity.
Qed.

Lemma set_setup_temperature downforce engine_mode ers c :
  car.tire_temperature (snd (set_setup downforce engine_mode ers c))
  = car.tire_temperature c.
Proof.
  unfold set_setup.
  repeat (destruct (negb _); [reflexivity|]). reflexivity.
Qed.

Lemma reachable_temperature c : reachable c -> temperature_in_range c.
Proof.
  intros H. induction H.
  - unfold temperature_in_range. erewrite init_temperature by eassumption. lia.
  - unfold temperature_in_range in *. rewrite set_setup_temperature. assumption.
  - unfold temperature_in_range in *. simpl. lia.
  - apply car_evolves_temperature;
      [apply car_evolves_calculate_sector_time|assumption].
  - apply car_evolves_temperature;
      [apply car_evolves_simulate_full_lap|assumption].
  - apply car_evolves_temperature;
      [apply car_evolves_simulate_stint|assumption].
  - rewrite compare_configurations_self. assumption.
  - unfold set_driver_parameters. destruct (negb _); assumption.
  - unfold set_track_condition. destruct (negb _); assumption.
Qed.

End CarEvolves.

(** C9: a car is built with tire temperature 90; [update_tire_state] sets
    the current lap and moves the temperature by -2 (low_speed), 0
    (medium_speed) or +3 (high_speed), clamped to [60, 140]; the other
    operations leave the temperature alone or change the car only through
    [update_tire_state]; so every reachable car has its tire temperature
    in [60, 140]. *)
Theorem tire_temperature_invariant :
  (forall tires compound fuel c,
      car.__init__ tires compound fuel = Ok c -> car.tire_temperature c = 90%Z)
  /\ (forall lap c,
        car.update_tire_state lap "low_speed" c
        = (Ok tt, snd (car.update_tire_state lap "low_speed" c))
        /\ car.current_lap (snd (car.update_tire_state lap "low_speed" c)) = lap
        /\ car.tire_temperature (snd (car.update_tire_state lap "low_speed" c))
           = Z.max 60 (Z.min 140 (car.tire_temperature c - 2)))
  /\ (forall lap c,
        car.current_lap (snd (car.update_tire_state lap "medium_speed" c)) = lap
        /\ car.tire_temperature (snd (car.update_tire_state lap "medium_speed" c))
           = Z.max 60 (Z.min 140 (car.tire_temperature c + 0)))
  /\ (forall lap c,
        car.current_lap (snd (car.update_tire_state lap "high_speed" c)) = lap
        /\ car.tire_temperature (snd (car.update_tire_state lap "high_speed" c))
           = Z.max 60 (Z.min 140 (car.tire_temperature c + 3)))
  /\ (forall downforce engine_mode ers c,
        car.tire_temperature (snd (car.set_setup downforce engine_mode ers c))
        = car.tire_temperature c)
  /\ (forall random_source lap st,
        Reach.evolves
          (lap_simulator.car (lap_simulator.self st))
          (lap_simulator.car
             (lap_simulator.self
                (snd (lap_simulator.simulate_full_lap random_source lap st)))))
  /\ (forall random_source num_laps start_lap st,
        Reach.evolves
          (lap_simulator.car (lap_simulator.self st))
          (lap_simulator.car
             (lap_simulator.self
                (snd (lap_simulator.simulate_stint random_source num_laps
                        start_lap st)))))
  /\ (forall c, Reach.reachable c ->
                (60 <= car.tire_temperature c <= 140)%Z).
Proof.
  split; [exact init_temperature|].
  split; [intros lap c; repeat split|].
  split; [intros lap c; repeat split|].
  split; [intros lap c; repeat split|].
  split; [exact set_setup_temperature|].
  split.
  { intros rs lap st.
    destruct (car_evolves_simulate_full_lap rs lap st) as (c' & E & S).
    rewrite S. exact E. }
  split.
  { intros rs k start st.
    destruct (car_evolves_simulate_stint rs k start st) as (c' & E & S).
    rewrite S. exact E. }
  exact reachable_temperature.
Qed.

Lemma medium_car_init : car.__init__ Demo.tires "medium" 50 = Ok Demo2.medium_car.
Proof. vm_compute. reflexivity. Qed.

Lemma medium_car_reachable : Reach.reachable Demo2.medium_car.
Proof. eapply Reach.reach_init. exact medium_car_init. Qed.

Lemma tire_temperature_invariant_witness :
  car.tire_temperature
    (lap_simulator.car
       (lap_simulator.self
          (snd (lap_simulator.simulate_full_lap Demo.half 1 Demo2.start)))) = 93%Z
  /\ (60 <= 93 <= 140)%Z.
Proof.
  assert (E : car.tire_temperature
                (lap_simulator.car
                   (lap_simulator.self
                      (snd (lap_simulator.simulate_full_lap Demo.half 1
                              Demo2.start)))) = 93%Z)
    by (vm_compute; reflexivity).
  split; [exact E|]. rewrite <- E.
  destruct tire_temperature_invariant as (_ & _ & _ & _ & _ & _ & _ & H).
  apply H. apply Reach.reach_simulate_full_lap. exact medium_car_reachable.
Defined.

(** C10: on a reachable car, [update_tire_state] with a category other
    than low_speed, medium_speed and high_speed returns normally, sets the
    current lap to the given number and leaves the tire temperature (and
    everything else) as it was. *)
Theorem update_tire_state_unknown_category (c : car.Car) (n : Z) (category : string) :
  Reach.reachable c ->
  category <> "low_speed"%string ->
  category <> "medium_speed"%string ->
  category <> "high_speed"%string ->
  exists c',
    car.update_tire_state n category c = (Ok tt, c')
    /\ car.current_lap c' = n
    /\ car.tire_temperature c' = car.tire_temperature c
    /\ c' = snd (lap_simulator.set_current_lap n c).
Proof.
  intros Hr Hl Hm Hh.
  pose proof (reachable_temperature c Hr) as Ht. unfold Reach.temperature_in_range in Ht.
  assert (Hd : car.temp_changes category = 0%Z).
  { unfold car.temp_changes.
    apply String.eqb_neq in Hl, Hm, Hh. rewrite Hl, Hm, Hh. reflexivity. }
  assert (E : Z.max 60 (Z.min 140 (car.tire_temperature c + 0)) = car.tire_temperature c)
    by lia.
  eexists. split; [reflexivity|]. simpl. rewrite Hd, E.
  split; [reflexivity|]. split; reflexivity.
Qed.

Lemma update_tire_state_unknown_category_witness :
  exists c',
    car.update_tire_state 7 "pit_lane" Demo2.medium_car = (Ok tt, c')
    /\ car.current_lap c' = 7%Z
    /\ car.tire_temperature c' = 90%Z.
Proof.
  destruct (update_tire_state_unknown_category Demo2.medium_car 7 "pit_lane"
              medium_car_reachable)
    as (c' & H1 & H2 & H3 & _); [discriminate..|].
  exists c'. split; [exact H1|]. split; [exact H2|]. exact H3.
Defined.

(** ** Effective grip *)

Section Grip.
Import car.

(** The temperature effect is in (0, 1] when the grip losses are in
    [0, 1) and the temperature is less than 400 degrees outside the
    optimal band. *)
Lemma temperature_effect_range (c : Car) (ti : TireInfo.t) :
  tire_info c = Ok ti ->
  0 <= TempEffect.grip_loss (TireData.cold (tire_data c)) ->
  TempEffect.grip_loss (TireData.cold (tire_data c)) < 1 ->
  0 <= TempEffect.grip_loss (TireData.overheated (tire_data c)) ->
  TempEffect.grip_loss (TireData.overheated (tire_data c)) < 1 ->
  fst (TireInfo.optimal_temp_range ti) - 400 < inject_Z (tire_temperature c) ->
  inject_Z (tire_temperature c) < snd (TireInfo.optimal_temp_range ti) + 400 ->
  exists e, _calculate_temperature_effect c = Ok e /\ 0 < e /\ e <= 1.
Proof.
  intros Hti Hc0 Hc1 Hh0 Hh1 Hlo Hhi.
  unfold _calculate_temperature_effect. rewrite Hti. cbn.
  set (t := inject_Z (tire_temperature c)) in *.
  set (lo := fst (TireInfo.optimal_temp_range ti)) in *.
  set (hi := snd (TireInfo.optimal_temp_range ti)) in *.
  destruct (leb lo t && leb t hi) eqn:Eband.
  { eexists. split; [reflexivity|]. split; [reflexivity|]. discriminate. }
  destruct (ltb t _) eqn:Ecold.
  { eexists. split; [reflexivity|]. lra. }
  destruct (ltb _ t) eqn:Ehot.
  { eexists. split; [reflexivity|]. lra. }
  destruct (ltb t lo) eqn:Ecool.
  - apply ltb_iff in Ecool. eexists. split; [reflexivity|].
    assert (E : (lo - t) / 20 * 0.05 == (lo - t) / 400) by field.
    assert (0 < (lo - t) / 400) by (apply Qlt_shift_div_l; lra).
    assert ((lo - t) / 400 < 1) by (apply Qlt_shift_div_r; lra).
    rewrite E. lra.
  - apply ltb_false_iff in Ecool.
    assert (Hw : hi < t).
    { apply andb_false_iff in Eband. destruct Eband as [E|E].
      - apply leb_false_iff in E. lra.
      - apply leb_false_iff in E. exact E. }
    eexists. split; [reflexivity|].
    assert (E : (t - hi) / 20 * 0.05 == (t - hi) / 400) by field.
    assert (0 < (t - hi) / 400) by (apply Qlt_shift_div_l; lra).
    assert ((t - hi) / 400 < 1) by (apply Qlt_shift_div_r; lra).
    rewrite E. lra.
Qed.

(** From lap 1 on, the degradation multiplier is in (0, 1] when the
    degradation rate is not negative. *)
Lemma degradation_positive (lap : Z) (ti : TireInfo.t) :
  (1 <= lap)%Z -> 0 <= utils.degradation_rate ti ->
  exists m, utils.calculate_tire_degradation lap ti = Ok m /\ 0 < m /\ m <= 1.
Proof.
  intros Hlap Hr.
  assert (H1 : 1 <= inject_Z lap).
  { change 1 with (inject_Z 1). rewrite <- Zle_Qle. exact Hlap. }
  destruct (Qlt_le_dec (utils.peak_laps ti) (inject_Z lap)) as [Hlt|Hle].
  - rewrite degradation_past_peak by assumption. eexists. split; [reflexivity|].
    destruct (max_cases 0.7 (1.0 - (inject_Z lap - utils.peak_laps ti)
                                   * utils.degradation_rate ti))
      as [[? ->]|[? ->]]; [lra|]. split; [lra|nra].
  - rewrite degradation_warm_up by (assumption || lra).
    eexists. split; [reflexivity|].
    assert (0 <= inject_Z lap / utils.peak_laps ti).
    { apply Qle_shift_div_l; lra. }
    destruct (min_cases 1.0 (0.95 + inject_Z lap / utils.peak_laps ti * 0.05))
      as [[? ->]|[? ->]]; lra.
Qed.

End Grip.

(** C5 fails as stated: a car built by [Car('medium', 50)] over a table
    whose compound has base grip 1.0 and whose cold and overheat grip
    losses are 0.15 and 0.1 has tire temperature 90; with an optimal band
    of 500 to 600 degrees the interpolated temperature effect is
    1 - 410/400 and the effective grip is negative. *)
Lemma effective_grip_can_be_negative :
  car.__init__ Demo2.hot_tires "medium" 50 = Ok Demo2.hot_car
  /\ (60 <= car.tire_temperature Demo2.hot_car <= 140)%Z
  /\ 0 < TireInfo.grip_modifier Demo2.hot_compound
  /\ TempEffect.grip_loss (TireData.cold Demo2.hot_tires) < 1
  /\ TempEffect.grip_loss (TireData.overheated Demo2.hot_tires) < 1
  /\ exists p,
       car.get_tire_performance Demo2.hot_car None = Ok p
       /\ car.temperature_effect p == -0.025
       /\ car.effective_grip p < 0.
Proof.
  split; [vm_compute; reflexivity|].
  split; [simpl; lia|].
  split; [reflexivity|]. split; [reflexivity|]. split; [reflexivity|].
  eexists. split; [vm_compute; reflexivity|]. split; reflexivity.
Qed.

(** C5, as the code has it: for a car whose tire temperature is in
    [60, 140], evaluated at a lap number of at least 1, whose compound has
    base grip > 0, a degradation rate that is not negative, a life span
    that is not zero and an optimal band that starts below 460 and ends
    above -260 degrees, and whose cold and overheat grip losses are in
    [0, 1), the effective grip is base grip x degradation x temperature
    effect, is strictly positive and is at most the base grip (so at most
    base grip x 1.05). *)
Theorem effective_grip_bounds (c : car.Car) (lap_number : option Z) (ti : TireInfo.t) :
  car.tire_info c = Ok ti ->
  (60 <= car.tire_temperature c <= 140)%Z ->
  (1 <= get lap_number (car.current_lap c))%Z ->
  0 < TireInfo.grip_modifier ti ->
  0 <= utils.degradation_rate ti ->
  ~ TireInfo.life_span ti == 0 ->
  fst (TireInfo.optimal_temp_range ti) < 460 ->
  -260 < snd (TireInfo.optimal_temp_range ti) ->
  0 <= TempEffect.grip_loss (TireData.cold (car.tire_data c)) ->
  TempEffect.grip_loss (TireData.cold (car.tire_data c)) < 1 ->
  0 <= TempEffect.grip_loss (TireData.overheated (car.tire_data c)) ->
  TempEffect.grip_loss (TireData.overheated (car.tire_data c)) < 1 ->
  exists p,
    car.get_tire_performance c lap_number = Ok p
    /\ car.effective_grip p
       == TireInfo.grip_modifier ti * car.degradation_multiplier p
          * car.temperature_effect p
    /\ 0 < car.effective_grip p
    /\ car.effective_grip p <= TireInfo.grip_modifier ti
    /\ car.effective_grip p <= TireInfo.grip_modifier ti * 1.05.
Proof.
  intros Hti Htemp Hlap Hg Hr Hls Hlo Hhi Hc0 Hc1 Hh0 Hh1.
  assert (Ht60 : 60 <= inject_Z (car.tire_temperature c)).
  { change 60 with (inject_Z 60). rewrite <- Zle_Qle. lia. }
  assert (Ht140 : inject_Z (car.tire_temperature c) <= 140).
  { change 140 with (inject_Z 140). rewrite <- Zle_Qle. lia. }
  destruct (degradation_positive _ ti Hlap Hr) as (m & Hm & Hm0 & Hm1).
  destruct (temperature_effect_range c ti Hti Hc0 Hc1 Hh0 Hh1) as (e & He & He0 & He1);
    [lra|lra|].
  unfold car.get_tire_performance. rewrite Hti. cbn.
  rewrite Hm. cbn. rewrite He. cbn.
  rewrite truediv_ok by assumption. cbn.
  eexists. split; [reflexivity|]. cbn.
  split; [reflexivity|].
  assert (0 < m * e) by nra.
  assert (m * e <= 1) by nra.
  set (g := TireInfo.grip_modifier ti) in *.
  assert (Eg : g * m * e == g * (m * e)) by ring.
  rewrite Eg. split; [nra|]. split; nra.
Qed.

Lemma effective_grip_bounds_witness :
  exists p,
    car.get_tire_performance Demo2.medium_car (Some 12%Z) = Ok p
    /\ 0 < car.effective_grip p
    /\ car.effective_grip p <= 1.0.
Proof.
  destruct (effective_grip_bounds Demo2.medium_car (Some 12%Z) Demo.medium)
    as (p & Hp & _ & H0 & H1 & _).
  - vm_compute. reflexivity.
  - simpl. lia.
  - simpl. lia.
  - reflexivity.
  - vm_compute. discriminate.
  - vm_compute. discriminate.
  - reflexivity.
  - reflexivity.
  - vm_compute. discriminate.
  - reflexivity.
  - vm_compute. discriminate.
  - reflexivity.
  - exists p. split; [exact Hp|]. split; [exact H0|exact H1].
Defined.

(** ** Validation *)

Section Validation.
Import car lap_simulator.

Lemma car_init_unknown_compound tires compound fuel :
  TireData.tire_compounds tires !! compound = None ->
  car.__init__ tires compound fuel = Raise ValueError.
Proof. intros H. unfold car.__init__. rewrite H. reflexivity. Qed.

Lemma car_init_fuel_out_of_range tires compound fuel :
  fuel < 0 \/ 110 < fuel ->
  car.__init__ tires compound fuel = Raise ValueError.
Proof.
  intros H. unfold car.__init__.
  destruct (negb (contains _)); [reflexivity|].
  assert (E : leb 0 fuel && leb fuel 110 = false).
  { apply andb_false_iff. destruct H as [H|H]; [left|right];
      apply leb_false_iff; exact H. }
  rewrite E. reflexivity.
Qed.

Lemma set_setup_downforce_out_of_range downforce engine_mode ers c :
  (downforce < 1 \/ 10 < downforce)%Z ->
  set_setup downforce engine_mode ers c = (Raise ValueError, c).
Proof.
  intros H. unfold set_setup.
  assert (E : (1 <=? downforce)%Z && (downforce <=? 10)%Z = false).
  { apply andb_false_iff. destruct H as [H|H]; [left|right];
      apply Z.leb_gt; exact H. }
  rewrite E. reflexivity.
Qed.

Lemma set_setup_unknown_engine_mode downforce engine_mode ers c :
  engine_mode ∉ valid_engine_modes ->
  set_setup downforce engine_mode ers c = (Raise ValueError, c).
Proof.
  intros H. unfold set_setup.
  destruct (negb (_ && _)); [reflexivity|].
  rewrite bool_decide_eq_false_2 by exact H. reflexivity.
Qed.

Lemma set_setup_unknown_ers_mode downforce engine_mode ers c :
  ers ∉ valid_ers_modes ->
  set_setup downforce engine_mode ers c = (Raise ValueError, c).
Proof.
  intros H. unfold set_setup.
  destruct (negb (_ && _)); [reflexivity|].
  destruct (negb (bool_decide (engine_mode ∈ _))); [reflexivity|].
  rewrite bool_decide_eq_false_2 by exact H. reflexivity.
Qed.

(** Whatever fails in [set_setup] is a [ValueError], and the car is left
    as it was. *)
Lemma set_setup_raises_only_ValueError downforce engine_mode ers c e c' :
  set_setup downforce engine_mode ers c = (Raise e, c') ->
  e = ValueError /\ c' = c.
Proof.
  unfold set_setup.
  repeat (destruct (negb _); [intros [= <- <-]; auto|]).
  discriminate.
Qed.

(** The loop of [compare_configurations] stops at the first candidate
    that raises. *)
Lemma compare_loop_raises rs tires presets configurations :
  forall i results st e st1 config rest,
    configurations = config :: rest ->
    compare_one rs tires presets i config st = (Raise e, st1) ->
    compare_loop rs tires presets i configurations results st = (Raise e, st1).
Proof.
  intros i results st e st1 config rest -> H. simpl.
  unfold mbind, method_bind, Method.bind. rewrite H. reflexivity.
Qed.

(** A comparison returns a list only if every candidate could be built. *)
Lemma compare_loop_ok_candidates rs tires presets configurations :
  forall i results st out st',
    compare_loop rs tires presets i configurations results st = (Ok out, st') ->
    Forall (fun config =>
              is_ok (candidate_simulator tires presets (self st) config) = true)
           configurations.
Proof.
  induction configurations as [|config rest IH]; intros i results st out st' H.
  - constructor.
  - simpl in H. unfold mbind, method_bind, Method.bind in H.
    pose proof (compare_one_self rs tires presets i config st) as Hs.
    destruct (compare_one rs tires presets i config st) as [[r|e] st1] eqn:E1;
      [|discriminate].
    simpl in Hs. constructor.
    + unfold compare_one in E1.
      destruct (candidate_simulator tires presets (self st) config);
        [reflexivity|discriminate].
    + rewrite <- Hs. eapply IH. exact H.
Qed.

Lemma car_init_ok tires compound fuel c :
  car.__init__ tires compound fuel = Ok c ->
  is_Some (TireData.tire_compounds tires !! compound)
  /\ 0 <= fuel /\ fuel <= 110.
Proof.
  unfold car.__init__. intros H.
  destruct (TireData.tire_compounds tires !! compound) eqn:E;
    [|discriminate].
  simpl in H.
  destruct (leb 0 fuel && leb fuel 110) eqn:E2; [|discriminate].
  apply andb_true_iff in E2. destruct E2 as [E2 E3].
  apply leb_iff in E2, E3. split; [eauto|]. split; assumption.
Qed.

Lemma set_setup_ok downforce engine_mode ers c c' :
  set_setup downforce engine_mode ers c = (Ok tt, c') ->
  (1 <= downforce <= 10)%Z
  /\ engine_mode ∈ valid_engine_modes
  /\ ers ∈ valid_ers_modes.
Proof.
  unfold set_setup. intros H.
  destruct ((1 <=? downforce)%Z && (downforce <=? 10)%Z) eqn:E1;
    [|discriminate].
  destruct (bool_decide (engine_mode ∈ valid_engine_modes)) eqn:E2;
    [|discriminate].
  destruct (bool_decide (ers ∈ valid_ers_modes)) eqn:E3; [|discriminate].
  apply andb_true_iff in E1. destruct E1 as [E1 E1'].
  apply Z.leb_le in E1, E1'.
  apply bool_decide_eq_true_1 in E2, E3. auto.
Qed.

End Validation.

Lemma candidate_simulator_ok_valid tires presets s config :
  is_ok (lap_simulator.candidate_simulator tires presets s config) = true ->
  valid_config tires config.
Proof.
  unfold lap_simulator.candidate_simulator, valid_config. intros H.
  destruct (car.__init__ tires _ _) as [c|e] eqn:Ec; [|discriminate].
  destruct (car_init_ok _ _ _ _ Ec) as (H1 & H2 & H3).
  split; [exact H1|]. split; [exact H2|]. split; [exact H3|].
  intros Hk. cbn in H. rewrite Hk in H.
  destruct (car.set_setup _ _ _ c) as [[[]|e] c'] eqn:Es; [|discriminate].
  eapply set_setup_ok. exact Es.
Qed.

(** C8: invalid inputs fail with [ValueError] at once, leaving the object
    as it was: an unknown circuit name (no [Circuit] is built), an unknown
    compound, a fuel load outside [0, 110], a downforce level outside
    [1, 10], an engine or ERS mode outside the enumerated sets, an unknown
    weather or track condition name, an aggression outside [0, 1].
    Nothing recovers from it: [compare_configurations] returns a list only
    if every candidate configuration is valid. *)
Theorem validation_errors :
  (forall (circuits : gmap string CircuitData.t) circuit_name,
      circuits !! circuit_name = None ->
      circuit.__init__ circuits circuit_name = Raise ValueError)
  /\ (forall tires compound fuel,
        TireData.tire_compounds tires !! compound = None ->
        car.__init__ tires compound fuel = Raise ValueError)
  /\ (forall tires compound fuel,
        fuel < 0 \/ 110 < fuel ->
        car.__init__ tires compound fuel = Raise ValueError)
  /\ (forall downforce engine_mode ers c,
        (downforce < 1 \/ 10 < downforce)%Z ->
        car.set_setup downforce engine_mode ers c = (Raise ValueError, c))
  /\ (forall downforce engine_mode ers c,
        engine_mode ∉ car.valid_engine_modes ->
        car.set_setup downforce engine_mode ers c = (Raise ValueError, c))
  /\ (forall downforce engine_mode ers c,
        ers ∉ car.valid_ers_modes ->
        car.set_setup downforce engine_mode ers c = (Raise ValueError, c))
  /\ (forall presets track c weather,
        WeatherData.weather_conditions presets !! weather = None ->
        lap_simulator.__init__ presets track c weather = Raise ValueError)
  /\ (forall condition s,
        WeatherData.track_conditions (lap_simulator.weather_data s) !! condition
        = None ->
        lap_simulator.set_track_condition condition s = (Raise ValueError, s))
  /\ (forall aggression use_drs s,
        aggression < 0 \/ 1 < aggression ->
        lap_simulator.set_driver_parameters aggression use_drs s
        = (Raise ValueError, s))
  /\ (forall random_source tires presets configurations st results st',
        lap_simulator.compare_configurations random_source tires presets
          configurations st = (Ok results, st') ->
        Forall (valid_config tires) configurations).
Proof.
  split.
  { intros circuits n H. unfold circuit.__init__. rewrite H. reflexivity. }
  split; [exact car_init_unknown_compound|].
  split; [exact car_init_fuel_out_of_range|].
  split; [exact set_setup_downforce_out_of_range|].
  split; [exact set_setup_unknown_engine_mode|].
  split; [exact set_setup_unknown_ers_mode|].
  split.
  { intros presets track c w H. unfold lap_simulator.__init__. rewrite H.
    reflexivity. }
  split.
  { intros condition s H. unfold lap_simulator.set_track_condition.
    rewrite H. reflexivity. }
  split.
  { intros a u s H. unfold lap_simulator.set_driver_parameters.
    assert (E : leb 0.0 a && leb a 1.0 = false).
    { apply andb_false_iff. destruct H as [H|H]; [left|right];
        apply leb_false_iff; lra. }
    rewrite E. reflexivity. }
  intros rs tires presets configurations st results st' H.
  unfold lap_simulator.compare_configurations, mbind, method_bind, Method.bind in H.
  destruct (lap_simulator.compare_loop rs tires presets 0 configurations [] st)
    as [[out|e] st1] eqn:E; [|discriminate].
  apply compare_loop_ok_candidates in E.
  eapply Forall_impl; [exact E|].
  intros config Hc. eapply candidate_simulator_ok_valid. exact Hc.
Qed.

(** ** [list.sort(key=...)] *)

Section SortProperties.
Context {A : Type} (key : A -> Q).

Lemma insert_Permutation (x : A) (l : list A) :
  Permutation (PyList.insert key x l) (x :: l).
Proof.
  induction l as [|y l IH]; simpl; [reflexivity|].
  destruct (ltb (key y) (key x)); [|reflexivity].
  rewrite IH. apply perm_swap.
Qed.

Lemma sort_Permutation (l : list A) : Permutation (PyList.sort key l) l.
Proof.
  induction l as [|x l IH]; simpl; [reflexivity|].
  unfold PyList.sort in *. simpl. rewrite insert_Permutation.
  constructor. exact IH.
Qed.

Lemma sort_length (l : list A) :
  List.length (PyList.sort key l) = List.length l.
Proof. apply Permutation_length, sort_Permutation. Qed.

(** [before x y]: [x] was in front of [y] in the list given to [sort]. *)
Variable before : A -> A -> Prop.

Lemma key_then_input_le x y : key_then_input key before x y -> key x <= key y.
Proof. intros [H|[H _]]; lra. Qed.

Lemma insert_sorted (x : A) (l : list A) :
  Forall (before x) l ->
  StronglySorted (key_then_input key before) l ->
  StronglySorted (key_then_input key before) (PyList.insert key x l).
Proof.
  intros Hx Hs. induction Hs as [|y l Hs IH Hy]; simpl.
  - repeat constructor.
  - apply Forall_cons in Hx. destruct Hx as [Hxy Hxl].
    destruct (ltb (key y) (key x)) eqn:E.
    + apply ltb_iff in E. constructor; [apply IH; exact Hxl|].
      eapply Permutation_Forall; [symmetry; apply insert_Permutation|].
      constructor; [left; exact E|exact Hy].
    + apply ltb_false_iff in E. constructor; [constructor; assumption|].
      constructor.
      * destruct (Qlt_le_dec (key x) (key y)) as [Hlt|Hle];
          [left; exact Hlt|right; split; [lra|exact Hxy]].
      * rewrite Forall_forall in Hy, Hxl |- *. intros z Hz.
        pose proof (key_then_input_le _ _ (Hy z Hz)) as Hyz.
        destruct (Qlt_le_dec (key x) (key z)) as [Hlt|Hle];
          [left; exact Hlt|right; split; [lra|exact (Hxl z Hz)]].
Qed.

(** Stability: when the input is listed in the order [before], the
    output is ordered by key and, among equal keys, by [before]. *)
Lemma sort_stable (l : list A) :
  StronglySorted before l ->
  StronglySorted (key_then_input key before) (PyList.sort key l).
Proof.
  intros Hs. induction Hs as [|x l Hs IH Hx].
  - constructor.
  - unfold PyList.sort in *. simpl. apply insert_sorted; [|exact IH].
    eapply Permutation_Forall; [symmetry; apply sort_Permutation|exact Hx].
Qed.

End SortProperties.

Lemma sort_sorted {A} (key : A -> Q) (l : list A) :
  StronglySorted (fun x y => key x <= key y) (PyList.sort key l).
Proof.
  assert (H : StronglySorted (key_then_input key (fun _ _ => True))
                             (PyList.sort key l)).
  { unfold PyList.sort. induction l as [|x l IH]; simpl; [constructor|].
    apply insert_sorted; [|exact IH].
    apply Forall_forall. trivial. }
  induction H as [|x l' _ IH Hx]; constructor; [exact IH|].
  eapply Forall_impl; [exact Hx|]. intros y Hy.
  eapply key_then_input_le. exact Hy.
Qed.

(** ** Comparison of configurations *)

Section Compare.
Import car lap_simulator.

Variable random_source : nat -> Q.
Variable tires : TireData.t.
Variable presets : WeatherData.t.

Lemma simulate_full_lap_lap_number lap st r :
  fst (simulate_full_lap random_source lap st) = Ok r -> lr_lap_number r = lap.
Proof.
  unfold simulate_full_lap, mbind, method_bind, Method.bind, Method.get,
    Method.lift, mret, method_ret, Method.ret.
  destruct (simulate_sectors _ _ _ _ _) as [[[[results total] ws]|e] st1];
    [|discriminate].
  destruct (_calculate_lap_statistics _ _ _); [|discriminate].
  simpl. intros [= <-]. reflexivity.
Qed.

(** The simulator built for a candidate, field by field. *)
Lemma candidate_simulator_spec s config temp_sim :
  candidate_simulator tires presets s config = Ok temp_sim ->
  exists w,
    WeatherData.weather_conditions presets !! weather s = Some w
    /\ temp_sim = candidate tires presets s w config.
Proof.
  unfold candidate_simulator. intros H.
  destruct (car.__init__ tires _ _) as [c|e] eqn:Ec; [|discriminate].
  unfold car.__init__ in Ec.
  destruct (negb _); [discriminate|]. destruct (negb _); [discriminate|].
  injection Ec as <-. cbn in H.
  destruct (contains (cfg_downforce config) || contains (cfg_engine_mode config)
            || contains (cfg_ers config)) eqn:Ek.
  - destruct (set_setup _ _ _ _) as [[[]|e] c2] eqn:Es; [|discriminate].
    unfold set_setup in Es.
    destruct (negb _); [discriminate|]. destruct (negb _); [discriminate|].
    destruct (negb _); [discriminate|].
    cbn in Es. injection Es as <-. cbn in H.
    unfold __init__ in H.
    destruct (WeatherData.weather_conditions presets !! weather s) as [w|] eqn:Ew;
      [|discriminate].
    cbn in H. unfold set_driver_parameters in H.
    destruct (negb _); [discriminate|]. cbn in H.
    unfold set_track_condition in H.
    destruct (negb _); [discriminate|]. cbn in H.
    injection H as <-. exists w. split; [reflexivity|].
    unfold candidate, candidate_car. rewrite Ek. reflexivity.
  - cbn in H. unfold __init__ in H.
    destruct (WeatherData.weather_conditions presets !! weather s) as [w|] eqn:Ew;
      [|discriminate].
    cbn in H. unfold set_driver_parameters in H.
    destruct (negb _); [discriminate|]. cbn in H.
    unfold set_track_condition in H.
    destruct (negb _); [discriminate|]. cbn in H.
    injection H as <-. exists w. split; [reflexivity|].
    unfold candidate, candidate_car. rewrite Ek.
    destruct config as [t f [d|] [m|] [r|]]; try discriminate Ek.
    reflexivity.
Qed.

Lemma compare_one_spec i config st r st1 :
  compare_one random_source tires presets i config st = (Ok r, st1) ->
  configuration r = config /\ config_index r = i
  /\ evaluated_afresh random_source tires presets (self st) r
  /\ self st1 = self st.
Proof.
  unfold compare_one. intros H.
  destruct (candidate_simulator tires presets (self st) config)
    as [temp_sim|e] eqn:Ec; [|discriminate].
  destruct (simulate_full_lap random_source 1 _) as [[res|e] temp_st] eqn:El;
    [|discriminate].
  injection H as <- <-. simpl.
  split; [reflexivity|]. split; [reflexivity|]. split; [|reflexivity].
  assert (Hv : valid_config tires config).
  { apply (candidate_simulator_ok_valid tires presets (self st)).
    rewrite Ec. reflexivity. }
  destruct (candidate_simulator_spec _ _ _ Ec) as (w & Hw & ->).
  exists w, (draws st). simpl. split; [exact Hw|]. split; [exact Hv|].
  split; [rewrite El; reflexivity|].
  eapply simulate_full_lap_lap_number. rewrite El. reflexivity.
Qed.

Lemma compare_loop_spec configurations :
  forall i acc st out st',
    compare_loop random_source tires presets i configurations acc st
    = (Ok out, st') ->
    exists new,
      out = acc ++ new
      /\ List.length new = List.length configurations
      /\ StronglySorted (fun a b => (config_index a < config_index b)%nat) new
      /\ Forall (fun r => (i <= config_index r)%nat
                          /\ configurations !! (config_index r - i)%nat
                             = Some (configuration r)) new
      /\ Forall (evaluated_afresh random_source tires presets (self st)) new.
Proof.
  induction configurations as [|config rest IH]; intros i acc st out st' H.
  - simpl in H. injection H as <- <-. exists [].
    rewrite app_nil_r. repeat split; constructor.
  - simpl in H. unfold mbind, method_bind, Method.bind in H.
    destruct (compare_one random_source tires presets i config st)
      as [[r|e] st1] eqn:E1; [|discriminate].
    apply compare_one_spec in E1. destruct E1 as (Hc & Hi & Hf & Hs).
    apply IH in H. destruct H as (new & -> & Hlen & Hsorted & Hidx & Hfresh).
    exists (r :: new). rewrite <- app_assoc. simpl.
    split; [reflexivity|]. split; [rewrite Hlen; reflexivity|].
    split; [|split].
    + constructor; [exact Hsorted|].
      eapply Forall_impl; [exact Hidx|]. intros r' [Hle _]. simpl in Hle. lia.
    + constructor.
      * rewrite Hi, Nat.sub_diag, Hc. split; [lia|reflexivity].
      * eapply Forall_impl; [exact Hidx|]. intros r' [Hle Hl]. simpl.
        split; [lia|].
        replace (config_index r' - i)%nat with (S (config_index r' - S i))
          by lia.
        exact Hl.
    + constructor; [exact Hf|]. rewrite <- Hs. exact Hfresh.
Qed.

(** The car a simulator holds plays no part in a comparison. *)
Lemma compare_one_other_car i config s c' d :
  compare_one random_source tires presets i config
    {| self := with_car s c'; draws := d |}
  = let '(r, st1) := compare_one random_source tires presets i config
                       {| self := s; draws := d |} in
    (r, {| self := with_car s c'; draws := draws st1 |}).
Proof.
  unfold compare_one. simpl.
  change (candidate_simulator tires presets (with_car s c') config)
    with (candidate_simulator tires presets s config).
  destruct (candidate_simulator tires presets s config); [|reflexivity].
  destruct (simulate_full_lap random_source 1 _) as [[r|e] temp_st];
    reflexivity.
Qed.

Lemma compare_loop_other_car configurations :
  forall i acc s c' d,
    fst (compare_loop random_source tires presets i configurations acc
           {| self := with_car s c'; draws := d |})
    = fst (compare_loop random_source tires presets i configurations acc
             {| self := s; draws := d |}).
Proof.
  induction configurations as [|config rest IH]; intros i acc s c' d; simpl.
  - reflexivity.
  - unfold mbind, method_bind, Method.bind.
    rewrite compare_one_other_car.
    pose proof (compare_one_self random_source tires presets i config
                  {| self := s; draws := d |}) as Hs.
    destruct (compare_one random_source tires presets i config
                {| self := s; draws := d |}) as [[r|e] st1]; [|reflexivity].
    simpl in Hs. destruct st1 as [s1 d1]. simpl in *. subst s1.
    apply IH.
Qed.

End Compare.

(** C7: when [compare_configurations] returns, its list has the length of
    the input and is sorted non-decreasing by total lap time, candidates
    of equal total time standing in input order; every entry carries its
    input index and configuration, which is a valid one, and is lap
    number 1 of the simulator built for that configuration alone: on the
    track, in the weather and with the driver parameters and the track
    condition of the comparing simulator, around a car of its own with
    the configuration's compound, fuel load and setup, on lap 1 at 90
    degrees; the simulator's own car is neither changed nor consulted. *)
Theorem compare_configurations_sorted
        (random_source : nat -> Q) (tires : TireData.t) (presets : WeatherData.t)
        (configurations : list lap_simulator.Config)
        (st st' : lap_simulator.State) (results : list lap_simulator.Comparison) :
  lap_simulator.compare_configurations random_source tires presets
    configurations st = (Ok results, st') ->
  List.length results = List.length configurations
  /\ StronglySorted
       (fun a b => lap_simulator.total_time (lap_simulator.lap a)
                   <= lap_simulator.total_time (lap_simulator.lap b)) results
  /\ StronglySorted
       (key_then_input
          (fun x => lap_simulator.total_time (lap_simulator.lap x))
          (fun a b => (lap_simulator.config_index a
                       < lap_simulator.config_index b)%nat)) results
  /\ Forall (fun r => configurations !! lap_simulator.config_index r
                      = Some (lap_simulator.configuration r)) results
  /\ Forall (evaluated_afresh random_source tires presets
               (lap_simulator.self st)) results
  /\ lap_simulator.self st' = lap_simulator.self st
  /\ (forall c',
        fst (lap_simulator.compare_configurations random_source tires presets
               configurations
               {| lap_simulator.self :=
                    lap_simulator.with_car (lap_simulator.self st) c';
                  lap_simulator.draws := lap_simulator.draws st |})
        = Ok results).
Proof.
  intros H.
  pose proof (compare_configurations_self random_source tires presets
                configurations st) as Hself.
  rewrite H in Hself. simpl in Hself.
  assert (Hother : forall c',
             fst (lap_simulator.compare_configurations random_source tires
                    presets configurations
                    {| lap_simulator.self :=
                         lap_simulator.with_car (lap_simulator.self st) c';
                       lap_simulator.draws := lap_simulator.draws st |})
             = Ok results).
  { intros c'.
    pose proof (compare_loop_other_car random_source tires presets
                  configurations 0 [] (lap_simulator.self st) c'
                  (lap_simulator.draws st)) as Ho.
    unfold lap_simulator.compare_configurations, mbind, method_bind,
      Method.bind in H |- *.
    destruct st as [s d]. simpl in *.
    destruct (lap_simulator.compare_loop random_source tires presets 0
                configurations [] {| lap_simulator.self := s;
                                     lap_simulator.draws := d |})
      as [[out|e] st1]; [|discriminate].
    destruct (lap_simulator.compare_loop random_source tires presets 0
                configurations []
                {| lap_simulator.self := lap_simulator.with_car s c';
                   lap_simulator.draws := d |})
      as [[out'|e'] st1']; simpl in Ho; [|discriminate].
    injection Ho as ->. injection H as <- _. reflexivity. }
  unfold lap_simulator.compare_configurations, mbind, method_bind,
    Method.bind in H.
  destruct (lap_simulator.compare_loop random_source tires presets 0
              configurations [] st) as [[out|e] st1] eqn:E; [|discriminate].
  injection H as <- <-.
  apply compare_loop_spec in E.
  destruct E as (new & -> & Hlen & Hsorted & Hidx & Hfresh). simpl.
  split; [rewrite sort_length; exact Hlen|].
  split; [apply sort_sorted|].
  split; [apply sort_stable; exact Hsorted|].
  split.
  { eapply Permutation_Forall; [symmetry; apply sort_Permutation|].
    eapply Forall_impl; [exact Hidx|]. intros r [_ Hl].
    rewrite Nat.sub_0_r in Hl. exact Hl. }
  split.
  { eapply Permutation_Forall; [symmetry; apply sort_Permutation|exact Hfresh]. }
  split; [exact Hself|exact Hother].
Qed.

Lemma compare_configurations_sorted_witness :
  exists results st',
    lap_simulator.compare_configurations Demo.half Demo.tires Demo.presets
      Demo3.candidates Demo2.start = (Ok results, st')
    /\ List.length results = 2%nat
    /\ StronglySorted
         (fun a b => lap_simulator.total_time (lap_simulator.lap a)
                     <= lap_simulator.total_time (lap_simulator.lap b)) results.
Proof.
  destruct (lap_simulator.compare_configurations Demo.half Demo.tires
              Demo.presets Demo3.candidates Demo2.start)
    as [[results|e] st'] eqn:E.
  - exists results, st'. split; [reflexivity|].
    destruct (compare_configurations_sorted _ _ _ _ _ _ _ E) as (H1 & H2 & _).
    split; [exact H1|exact H2].
  - exfalso. vm_compute in E. discriminate E.
Defined.

(** ** Replay under a fixed random source *)

Section Replay.
Import car lap_simulator.

Lemma agree_from_weaken rs1 rs2 start k k' :
  (k' <= k)%nat -> agree_from rs1 rs2 start k -> agree_from rs1 rs2 start k'.
Proof. intros Hk H i Hi. apply H. lia. Qed.

Lemma agree_from_shift rs1 rs2 start start' k k' :
  (start <= start')%nat -> (start' + k' <= start + k)%nat ->
  agree_from rs1 rs2 start k -> agree_from rs1 rs2 start' k'.
Proof.
  intros H1 H2 H i Hi.
  replace (start' + i)%nat with (start + (start' - start + i))%nat by lia.
  apply H. lia.
Qed.

Lemma reads_weaken {A} k k' (m : (nat -> Q) -> Method State A) :
  (k <= k')%nat -> reads k m -> reads k' m.
Proof.
  intros Hk Hm rs1 rs2 st Ha.
  destruct (Hm rs1 rs2 st) as [E B];
    [eapply agree_from_weaken; eassumption|].
  split; [exact E|lia].
Qed.

(** A computation that ignores the random source and draws nothing. *)
Lemma reads_none {A} k (m : Method State A) :
  (forall st, draws (snd (m st)) = draws st) -> reads k (fun _ => m).
Proof. intros H rs1 rs2 st _. split; [reflexivity|]. rewrite H. lia. Qed.

Lemma reads_bind {A B} k1 k2 (m : (nat -> Q) -> Method State A)
      (f : A -> (nat -> Q) -> Method State B) :
  reads k1 m -> (forall a, reads k2 (f a)) ->
  reads (k1 + k2) (fun rs => m rs ≫= (fun a => f a rs)).
Proof.
  intros Hm Hf rs1 rs2 st Ha.
  destruct (Hm rs1 rs2 st) as [E1 B1];
    [eapply agree_from_weaken; [|exact Ha]; lia|].
  unfold mbind, method_bind, Method.bind. rewrite <- E1.
  destruct (m rs1 st) as [[a|e] st1]; simpl in B1.
  - destruct (Hf a rs1 rs2 st1) as [E2 B2];
      [eapply agree_from_shift; [| |exact Ha]; lia|].
    split; [exact E2|lia].
  - split; [reflexivity|simpl; lia].
Qed.

(** The frequent case: the first computation is deterministic. *)
Lemma reads_bind_none {A B} k (m : Method State A)
      (f : A -> (nat -> Q) -> Method State B) :
  (forall st, draws (snd (m st)) = draws st) ->
  (forall a, reads k (f a)) ->
  reads k (fun rs => m ≫= (fun a => f a rs)).
Proof.
  intros Hm Hf. apply (reads_bind 0 k (fun _ => m) f); [|exact Hf].
  apply reads_none. exact Hm.
Qed.

Lemma reads_ret {A} k (a : A) : reads k (fun _ => mret a).
Proof. apply reads_none. reflexivity. Qed.

Lemma reads_random : reads 1 random.
Proof.
  intros rs1 rs2 st Ha. unfold random. simpl.
  specialize (Ha 0%nat). rewrite Nat.add_0_r in Ha.
  rewrite Ha by lia. split; [reflexivity|lia].
Qed.

Lemma reads_uniform a b : reads 1 (fun rs => uniform rs a b).
Proof.
  unfold uniform.
  apply (reads_bind 1 0 random (fun u _ => mret (a + (b - a) * u)));
    [apply reads_random|intros u; apply reads_ret].
Qed.

Lemma draws_lift {A} (r : result A) st :
  draws (snd (Method.lift r st)) = draws st.
Proof. reflexivity. Qed.

Lemma draws_get st : draws (snd (@Method.get State st)) = draws st.
Proof. reflexivity. Qed.

Lemma draws_on_car {A} (m : Method Car A) st :
  draws (snd (on_car m st)) = draws st.
Proof. unfold on_car. destruct (m _). reflexivity. Qed.

Ltac replay :=
  repeat first
    [ apply reads_ret
    | apply reads_random
    | apply reads_uniform
    | apply reads_none; reflexivity
    | apply reads_bind_none;
      [first [exact draws_get | apply draws_lift | apply draws_on_car]|intros]
    | match goal with
      | |- reads _ (fun _ => match ?x with _ => _ end) => destruct x
      | |- reads _ (fun _ => let '(_, _) := ?x in _) => destruct x
      end ].

(** A segment makes at most three draws: the variance, the mistake and
    the size of the mistake. *)
Lemma reads_calculate_sector_time n lap :
  reads 3 (fun rs => calculate_sector_time rs n lap).
Proof.
  unfold calculate_sector_time. replay.
  eapply (reads_bind 1 2).
  - destruct (ltb 0 _); [|apply reads_ret].
    eapply (reads_bind 1 0); [apply reads_uniform|intros; apply reads_ret].
  - intros sector_time. eapply (reads_bind 1 1); [apply reads_random|].
    intros u. eapply (reads_bind 1 0).
    + destruct (ltb u _); [|apply reads_ret].
      eapply (reads_bind 1 0); [apply reads_uniform|intros; apply reads_ret].
    + intros [x y]. apply reads_ret.
Qed.

Lemma simulate_sectors_reads lap nums :
  forall acc, reads (3 * List.length nums)
                    (fun rs => simulate_sectors rs lap nums acc).
Proof.
  induction nums as [|n nums IH]; intros acc.
  - apply reads_ret.
  - destruct acc as [[results total] all_warnings]. simpl simulate_sectors.
    replace (3 * List.length (n :: nums))%nat
      with (3 + 3 * List.length nums)%nat by (simpl; lia).
    eapply (reads_bind 3 (3 * List.length nums)
              (fun rs => calculate_sector_time rs n lap)).
    + apply reads_calculate_sector_time.
    + intros r. apply IH.
Qed.

Lemma range1_length n : List.length (range1 n) = n.
Proof. unfold range1. rewrite length_seqZ. lia. Qed.

End Replay.

(** ** The warnings of a lap *)

Section Warnings.
Import car lap_simulator.

Lemma apply_weather_effect_warning t w compound q s :
  utils.apply_weather_effect t w compound = Ok (q, s) ->
  s = ""%string \/ s = utils.suboptimal_warning w.
Proof.
  unfold utils.apply_weather_effect. intros H.
  destruct (truediv _ _); [|discriminate]. cbn in H.
  destruct (negb _); injection H as _ <-; auto.
Qed.

Lemma calculate_sector_time_warnings rs n lap st r st' :
  calculate_sector_time rs n lap st = (Ok r, st') ->
  warnings r = []
  \/ warnings r = [utils.suboptimal_warning (current_weather (self st))].
Proof.
  unfold calculate_sector_time, mbind, method_bind, Method.bind, Method.get,
    Method.lift, Method.raise, mret, method_ret, Method.ret, on_car.
  intros H.
  repeat first
    [ discriminate H
    | progress cbn in H
    | match type of H with
      | context [utils.apply_weather_effect ?a ?b ?c] =>
          let E := fresh "Ew" in
          destruct (utils.apply_weather_effect a b c) as [[? ?]|] eqn:E
      | context [String.eqb ?s ""] =>
          let E := fresh "Es" in destruct (String.eqb s "") eqn:E
      | context [match ?x with _ => _ end] => destruct x
      | context [if ?x then _ else _] => destruct x
      end ];
    injection H as <- _; simpl; [left; reflexivity|].
  right. destruct (apply_weather_effect_warning _ _ _ _ _ Ew) as [->| ->];
    [discriminate Es|reflexivity].
Qed.

(** The simulator stays the same but for its car. *)
Lemma calculate_sector_time_weather rs n lap st :
  current_weather (self (snd (calculate_sector_time rs n lap st)))
  = current_weather (self st).
Proof.
  destruct (car_evolves_calculate_sector_time rs n lap st) as (c' & _ & E).
  rewrite E. reflexivity.
Qed.

Lemma simulate_sectors_warnings rs lap nums :
  forall results total ws st results' total' ws' st' w,
    w = utils.suboptimal_warning (current_weather (self st)) ->
    Forall (eq w) ws ->
    simulate_sectors rs lap nums (results, total, ws) st
    = (Ok (results', total', ws'), st') ->
    Forall (eq w) ws'.
Proof.
  induction nums as [|n nums IH];
    intros results total ws st results' total' ws' st' w Hw Hws H.
  - injection H as _ _ <- _. exact Hws.
  - simpl in H. unfold mbind, method_bind, Method.bind in H.
    pose proof (calculate_sector_time_weather rs n lap st) as Hweather.
    destruct (calculate_sector_time rs n lap st) as [[r|e] st1] eqn:E;
      [|discriminate].
    simpl in Hweather.
    eapply (IH _ _ _ st1); [| |exact H].
    + rewrite Hweather. exact Hw.
    + apply Forall_app. split; [exact Hws|].
      destruct (calculate_sector_time_warnings _ _ _ _ _ _ E) as [-> | ->];
        [constructor|].
      subst w. constructor; [reflexivity|constructor].
Qed.

Lemma distinct_of_copies w (l : list string) :
  Forall (eq w) l -> distinct l = [] \/ distinct l = [w].
Proof.
  unfold distinct. induction 1 as [|x l <- _ IH]; [left; reflexivity|].
  right. simpl. destruct IH as [E|E].
  - destruct (decide_rel elem_of w l) as [Hin|_]; [|rewrite E; reflexivity].
    exfalso. apply elem_of_remove_dups in Hin. rewrite E in Hin.
    inversion Hin.
  - destruct (decide_rel elem_of w l) as [_|Hout]; [exact E|].
    exfalso. apply Hout. apply elem_of_remove_dups. rewrite E. left.
Qed.

(** A lap has no warning or the one warning of its weather: the order in
    which [list(set(...))] lists the warnings cannot be observed. *)
Lemma lap_warnings_at_most_one rs lap st r st' :
  simulate_full_lap rs lap st = (Ok r, st') ->
  lr_warnings r = []
  \/ lr_warnings r = [utils.suboptimal_warning (current_weather (self st))].
Proof.
  unfold simulate_full_lap, mbind, method_bind, Method.bind, Method.get,
    Method.lift, mret, method_ret, Method.ret.
  intros H.
  destruct (simulate_sectors _ _ _ _ _) as [[[[results total] ws]|e] st1] eqn:E;
    [|discriminate].
  destruct (_calculate_lap_statistics _ _ _); [|discriminate].
  injection H as <- _. simpl.
  apply distinct_of_copies.
  eapply simulate_sectors_warnings; [reflexivity| |exact E]. constructor.
Qed.

End Warnings.

(* ===================================================================== *)
(** * Further properties of [circuit.py] *)
(* ===================================================================== *)

Lemma truediv_raises a b e : truediv a b = Raise e -> e = ZeroDivisionError /\ b == 0.
Proof.
  unfold truediv. destruct (Qeq_bool b 0) eqn:E; [|discriminate].
  intros [= <-]. apply Qeq_bool_iff in E. auto.
Qed.

Lemma truediv_inv a b q : truediv a b = Ok q -> ~ b == 0 /\ q = a / b.
Proof.
  unfold truediv. destruct (Qeq_bool b 0) eqn:E; [discriminate|].
  intros [= <-]. split; [|reflexivity]. intros H.
  apply Qeq_bool_iff in H. congruence.
Qed.

Lemma min_upper a b : min a b <= a.
Proof. destruct (min_cases a b) as [[? ->]|[? ->]]; lra. Qed.

Lemma min_upper_r a b : min a b <= b.
Proof. destruct (min_cases a b) as [[? ->]|[? ->]]; lra. Qed.

(** X1: the lookup of a segment returns the first segment of the list that
    carries the number, and nothing exactly when no segment carries it. *)
Theorem get_sector_data_first_match (c : circuit.Circuit) (n : Z) :
  (forall s, circuit.get_sector_data c n = Some s ->
             exists before after,
               circuit.sectors c = before ++ s :: after
               /\ Sector.number s = n
               /\ Forall (fun x => Sector.number x <> n) before)
  /\ (circuit.get_sector_data c n = None <->
      Forall (fun x => Sector.number x <> n) (circuit.sectors c)).
Proof.
  unfold circuit.get_sector_data.
  induction (circuit.sectors c) as [|x l [IH1 IH2]]; simpl.
  - split; [discriminate|]. split; [constructor|reflexivity].
  - destruct (Z.eqb_spec (Sector.number x) n) as [E|E].
    + split.
      * intros s [= <-]. exists [], l. repeat split; [exact E|constructor].
      * split; [discriminate|]. intros H. apply Forall_cons in H.
        destruct H as [H _]. contradiction.
    + split.
      * intros s Hs. destruct (IH1 s Hs) as (b & a & -> & Hn & Hb).
        exists (x :: b), a. repeat split; [exact Hn|].
        constructor; assumption.
      * rewrite IH2. split; [intros H; constructor; assumption|].
        intros H. apply Forall_cons in H. tauto.
Qed.

(** The clamp of [calculate_sector_difficulty]. *)
Lemma sector_difficulty_bounds (c : circuit.Circuit) (n : Z) (d : Q) :
  circuit.calculate_sector_difficulty c n = Ok d -> 0.5 <= d /\ d <= 1.2.
Proof.
  unfold circuit.calculate_sector_difficulty.
  destruct (circuit.get_sector_data c n) as [s|].
  - destruct (truediv (Sector.turns s) (Sector.length s / 1000)) as [q|e0];
      cbn; [|discriminate].
    intros [= <-]. split; [apply max_lower|].
    match goal with |- max 0.5 (min 1.2 ?x) <= _ =>
      pose proof (min_upper 1.2 x);
      destruct (max_cases 0.5 (min 1.2 x)) as [[? ->]|[? ->]]; lra
    end.
  - intros [= <-]. split; discriminate.
Qed.

(** X2: the difficulty of a segment, when it is computed, lies in [0.5, 1.2];
    the computation fails only by a division by zero, for a segment of
    length zero. *)
Theorem sector_difficulty_range (c : circuit.Circuit) (n : Z) :
  (forall d, circuit.calculate_sector_difficulty c n = Ok d ->
             0.5 <= d /\ d <= 1.2)
  /\ (forall e, circuit.calculate_sector_difficulty c n = Raise e ->
                e = ZeroDivisionError
                /\ exists s, circuit.get_sector_data c n = Some s
                             /\ Sector.length s == 0).
Proof.
  split; [apply sector_difficulty_bounds|].
  unfold circuit.calculate_sector_difficulty.
  destruct (circuit.get_sector_data c n) as [s|]; [|discriminate].
  destruct (truediv (Sector.turns s) (Sector.length s / 1000)) as [q|e0] eqn:E;
    cbn; [discriminate|].
  intros e [= <-]. apply truediv_raises in E. destruct E as [-> Hz].
  split; [reflexivity|]. exists s. split; [reflexivity|].
  assert (Hl : Sector.length s == Sector.length s / 1000 * 1000) by field.
  rewrite Hl, Hz. reflexivity.
Qed.

(** X3: the base time of a segment is its share of the base lap time (by
    length) scaled by the difficulty: between 0.5 and 1.2 times the share. *)
Theorem sector_base_time_share (c : circuit.Circuit) (n : Z) (s : Sector.t) :
  circuit.get_sector_data c n = Some s ->
  0 < circuit.length c ->
  0 < Sector.length s ->
  0 <= circuit.base_lap_time c ->
  exists d t,
    circuit.calculate_sector_difficulty c n = Ok d
    /\ circuit.get_sector_base_time c n = Ok t
    /\ t == circuit.base_lap_time c * (Sector.length s / circuit.length c) * d
    /\ 0.5 * (circuit.base_lap_time c * (Sector.length s / circuit.length c)) <= t
    /\ t <= 1.2 * (circuit.base_lap_time c * (Sector.length s / circuit.length c)).
Proof.
  intros Hs Hc Hl Hb.
  destruct (circuit.calculate_sector_difficulty c n) as [d|e] eqn:Ed.
  - destruct (sector_difficulty_bounds c n d Ed) as [Hd1 Hd2].
    exists d. unfold circuit.get_sector_base_time. rewrite Hs.
    rewrite truediv_ok by lra. cbn. rewrite Ed. cbn.
    eexists. split; [reflexivity|]. split; [reflexivity|].
    split; [reflexivity|].
    assert (0 <= Sector.length s / circuit.length c).
    { apply Qle_shift_div_l; lra. }
    assert (0 <= circuit.base_lap_time c * (Sector.length s / circuit.length c))
      by nra.
    split; nra.
  - exfalso. unfold circuit.calculate_sector_difficulty in Ed. rewrite Hs in Ed.
    destruct (truediv _ _) eqn:E; [discriminate|].
    apply truediv_raises in E. destruct E as [_ E].
    assert (Hz : Sector.length s == Sector.length s / 1000 * 1000) by field.
    rewrite E in Hz. lra.
Qed.

Lemma sector_base_time_share_witness :
  exists d t,
    circuit.calculate_sector_difficulty Demo.two_segment_track 2 = Ok d
    /\ circuit.get_sector_base_time Demo.two_segment_track 2 = Ok t
    /\ 0.5 * (100 * (3000 / 5000)) <= t
    /\ t <= 1.2 * (100 * (3000 / 5000)).
Proof.
  destruct (sector_base_time_share Demo.two_segment_track 2
              {| Sector.number := 2; Sector.length := 3000; Sector.turns := 3;
                 Sector.type := Some "high_speed"%string;
                 Sector.elevation_change := None |})
    as (d & t & Hd & Ht & _ & Hlo & Hhi).
  - reflexivity.
  - reflexivity.
  - reflexivity.
  - vm_compute. discriminate.
  - exists d, t. split; [exact Hd|]. split; [exact Ht|].
    split; [exact Hlo|exact Hhi].
Defined.


(** X5: the speed estimate of a segment is never below 80; for a segment with
    a positive length and no negative turn count it is at most the base
    speed of its category, hence at most 280; a segment number that is
    not on the track is estimated at 200. *)
Theorem average_speed_estimate_range (c : circuit.Circuit) (n : Z) :
  (forall v, circuit_rest.get_average_speed_estimate c n = Ok v -> 80 <= v)
  /\ (forall s, circuit.get_sector_data c n = Some s ->
                0 < Sector.length s -> 0 <= Sector.turns s ->
                exists v,
                  circuit_rest.get_average_speed_estimate c n = Ok v
                  /\ v <= circuit_rest.base_speeds
                            (get (Sector.type s) "medium_speed"%string)
                  /\ v <= 280)
  /\ (circuit.get_sector_data c n = None ->
      circuit_rest.get_average_speed_estimate c n = Ok 200.0).
Proof.
  unfold circuit_rest.get_average_speed_estimate.
  split; [|split].
  - intros v. destruct (circuit.get_sector_data c n) as [s|].
    + destruct (truediv _ _); cbn; [|discriminate].
      intros [= <-]. apply max_lower.
    + intros [= <-]. discriminate.
  - intros s -> Hl Ht.
    assert (Hk : 0 < Sector.length s / 1000) by (apply Qlt_shift_div_l; lra).
    rewrite truediv_ok by lra. cbn. eexists. split; [reflexivity|].
    set (b := circuit_rest.base_speeds _).
    assert (Hb : 120 <= b /\ b <= 280).
    { unfold b, circuit_rest.base_speeds.
      repeat destruct (String.eqb _ _); split; discriminate. }
    assert (Hd : 0 <= Sector.turns s / (Sector.length s / 1000)).
    { apply Qle_shift_div_l; lra. }
    set (d := Sector.turns s / (Sector.length s / 1000)) in *.
    assert (Hr : 0 <= min 50 (d * 15)).
    { destruct (min_cases 50 (d * 15)) as [[? ->]|[? ->]]; lra. }
    destruct (max_cases 80 (b - min 50 (d * 15))) as [[? ->]|[? ->]]; lra.
  - intros ->. reflexivity.
Qed.

Lemma sum_speed_estimates_above (c : circuit.Circuit) (nums : list Z) :
  forall acc total,
    circuit_rest.sum_speed_estimates c nums acc = Ok total ->
    acc + 220 * inject_Z (Z.of_nat (List.length nums)) < total ->
    exists i v, In i nums
                /\ circuit_rest.get_average_speed_estimate c i = Ok v
                /\ 220 < v.
Proof.
  induction nums as [|i rest IH]; intros acc total Hsum Hgt.
  - simpl in *. injection Hsum as <-. exfalso.
    change (inject_Z (Z.of_nat 0)) with 0 in Hgt. lra.
  - simpl in Hsum.
    destruct (circuit_rest.get_average_speed_estimate c i) as [v|e] eqn:Ev;
      [|discriminate].
    cbn in Hsum.
    destruct (Qlt_le_dec 220 v) as [Hv|Hv].
    + exists i, v. split; [left; reflexivity|]. auto.
    + destruct (IH (acc + v) total Hsum) as (j & w & Hj & Hw & Hgt').
      * assert (E : inject_Z (Z.of_nat (List.length (i :: rest)))
                    == 1 + inject_Z (Z.of_nat (List.length rest))).
        { simpl List.length. rewrite Nat2Z.inj_succ. unfold Z.succ.
          rewrite inject_Z_plus. ring. }
        rewrite E in Hgt. lra.
      * exists j, w. split; [right; exact Hj|]. auto.
Qed.

(** X6: a track is classified as high-speed only if one of its segments is of
    the high_speed category (segments with positive lengths and no
    negative turn counts). *)
Theorem high_speed_circuit_has_fast_sector (c : circuit.Circuit) :
  (forall s, In s (circuit.sectors c) ->
             0 < Sector.length s /\ 0 <= Sector.turns s) ->
  circuit_rest._classify_circuit_type c = Ok "High-speed circuit"%string ->
  exists s, In s (circuit.sectors c)
            /\ Sector.type s = Some "high_speed"%string.
Proof.
  intros Hwf H. unfold circuit_rest._classify_circuit_type in H.
  destruct (circuit_rest.sum_speed_estimates c _ 0) as [total|e] eqn:Es;
    [|discriminate].
  cbn in H.
  destruct (truediv total _) as [avg|e] eqn:Ea; [|discriminate].
  cbn in H. apply truediv_inv in Ea. destruct Ea as [Hn ->].
  set (k := inject_Z (Z.of_nat (circuit.get_total_sectors c))) in *.
  destruct (ltb 220 (total / k)) eqn:Ehigh;
    [|destruct (ltb (total / k) 140); discriminate].
  apply ltb_iff in Ehigh.
  assert (Hk : 0 < k).
  { assert (0 <= k).
    { unfold k. change 0 with (inject_Z 0). rewrite <- Zle_Qle. lia. }
    destruct (Qlt_le_dec 0 k) as [Hlt|Hle]; [exact Hlt|].
    exfalso. apply Hn. lra. }
  assert (Hgt : 0 + 220 * k < total).
  { assert (E : total == total / k * k) by (field; lra).
    assert (220 * k < total / k * k) by nra. lra. }
  assert (Hgt' : 0 + 220 * inject_Z (Z.of_nat (List.length
                     (lap_simulator.range1 (circuit.get_total_sectors c))))
                 < total) by (rewrite range1_length; exact Hgt).
  destruct (sum_speed_estimates_above c _ 0 total Es Hgt')
    as (i & v & _ & Hv & Hfast).
  unfold circuit_rest.get_average_speed_estimate in Hv.
  destruct (circuit.get_sector_data c i) as [s|] eqn:Ei.
  - destruct (get_sector_data_found c i s Ei) as [Hin _].
    destruct (Hwf s Hin) as [Hl Ht].
    exists s. split; [exact Hin|].
    assert (Hd : 0 < Sector.length s / 1000) by (apply Qlt_shift_div_l; lra).
    rewrite truediv_ok in Hv by lra. cbn in Hv. injection Hv as <-.
    assert (Hq : 0 <= Sector.turns s / (Sector.length s / 1000)).
    { apply Qle_shift_div_l; lra. }
    set (d := Sector.turns s / (Sector.length s / 1000)) in *.
    assert (Hr : 0 <= min 50 (d * 15)).
    { destruct (min_cases 50 (d * 15)) as [[? ->]|[? ->]]; lra. }
    set (b := circuit_rest.base_speeds _) in *.
    assert (Hb : 220 < b).
    { destruct (max_cases 80 (b - min 50 (d * 15))) as [[? E]|[? E]];
        rewrite E in Hfast; lra. }
    unfold b, circuit_rest.base_speeds in Hb.
    destruct (Sector.type s) as [ty|]; simpl in Hb.
    + destruct (String.eqb ty "low_speed"); [exfalso; lra|].
      destruct (String.eqb ty "medium_speed"); [exfalso; lra|].
      destruct (String.eqb_spec ty "high_speed") as [->|_];
        [reflexivity|exfalso; lra].
    + exfalso. lra.
  - exfalso. injection Hv as <-. lra.
Qed.

Lemma high_speed_circuit_has_fast_sector_witness :
  circuit_rest._classify_circuit_type
    (circuit.create_custom_circuit "Oval" 3000
       [ {| Sector.number := 1; Sector.length := 3000; Sector.turns := 2;
            Sector.type := Some "high_speed"%string;
            Sector.elevation_change := None |} ])
  = Ok "High-speed circuit"%string
  /\ exists s, In s [ {| Sector.number := 1; Sector.length := 3000;
                         Sector.turns := 2;
                         Sector.type := Some "high_speed"%string;
                         Sector.elevation_change := None |} ]
               /\ Sector.type s = Some "high_speed"%string.
Proof.
  assert (E : circuit_rest._classify_circuit_type
                (circuit.create_custom_circuit "Oval" 3000
                   [ {| Sector.number := 1; Sector.length := 3000;
                        Sector.turns := 2;
                        Sector.type := Some "high_speed"%string;
                        Sector.elevation_change := None |} ])
              = Ok "High-speed circuit"%string) by (vm_compute; reflexivity).
  split; [exact E|].
  apply (high_speed_circuit_has_fast_sector _ ) in E; [exact E|].
  intros s [<-|[]]. split; [reflexivity|vm_compute; discriminate].
Defined.

Lemma fold_left_Qplus_acc (l : list Q) (a : Q) :
  fold_left Qplus l a == a + fold_left Qplus l 0.
Proof.
  revert a. induction l as [|x l IH]; intros a; simpl; [ring|].
  rewrite (IH (a + x)), (IH (0 + x)). ring.
Qed.

Lemma sum_cons (x : Q) (l : list Q) : sum (x :: l) == x + sum l.
Proof. unfold sum. simpl. rewrite fold_left_Qplus_acc. ring. Qed.

Lemma sum_app (l1 l2 : list Q) : sum (l1 ++ l2) == sum l1 + sum l2.
Proof.
  induction l1 as [|x l1 IH]; simpl.
  - unfold sum at 2. simpl. ring.
  - rewrite !sum_cons, IH. ring.
Qed.

Lemma collect_sector_info_spec (c : circuit.Circuit) (nums : list Z) :
  forall acc turns out total,
    circuit_rest.collect_sector_info c nums (acc, turns) = Ok (out, total) ->
    exists new,
      out = acc ++ new
      /\ map circuit_rest.si_sector new
         = List.filter (fun i => contains (circuit.get_sector_data c i)) nums
      /\ Forall (describes c) new
      /\ total == turns + sum (map circuit_rest.si_turns new).
Proof.
  induction nums as [|i rest IH]; intros acc turns out total H.
  - injection H as <- <-. exists []. rewrite app_nil_r.
    repeat split; [constructor|]. unfold sum. simpl. ring.
  - simpl in H. simpl List.filter.
    destruct (circuit.get_sector_data c i) as [s|] eqn:Ei; simpl.
    + destruct (circuit.calculate_sector_difficulty c i) as [d|] eqn:Ed;
        [|discriminate].
      cbn in H.
      destruct (circuit.get_sector_base_time c i) as [t|] eqn:Et;
        [|discriminate].
      cbn in H.
      destruct (circuit_rest.get_average_speed_estimate c i) as [v|] eqn:Ev;
        [|discriminate].
      cbn in H. apply IH in H.
      destruct H as (new & -> & Hmap & Hall & Hsum).
      eexists (_ :: new). rewrite <- app_assoc. simpl.
      split; [reflexivity|]. split; [rewrite Hmap; reflexivity|].
      split.
      * constructor; [|exact Hall]. exists s. simpl.
        repeat split; assumption.
      * rewrite Hsum, sum_cons. simpl. ring.
    + apply IH in H. exact H.
Qed.

Lemma filter_length_le {A} (f : A -> bool) (l : list A) :
  (List.length (List.filter f l) <= List.length l)%nat.
Proof.
  induction l as [|x l IH]; simpl; [lia|]. destruct (f x); simpl; lia.
Qed.

(** X7: the summary of a track lists, in order, the numbers from 1 to the
    count of segments that are the number of a segment (a segment
    numbered otherwise is left out, also of the total of turns), each
    with the data and the figures of that segment; and it names one of
    the three kinds of track. *)
Theorem circuit_info_lists_found_sectors
        (c : circuit.Circuit) (info : circuit_rest.CircuitInfo) :
  circuit_rest.get_circuit_info c = Ok info ->
  map circuit_rest.si_sector (circuit_rest.ci_sectors info)
  = List.filter (fun i => contains (circuit.get_sector_data c i))
                (lap_simulator.range1 (circuit.get_total_sectors c))
  /\ (List.length (circuit_rest.ci_sectors info)
      <= circuit.get_total_sectors c)%nat
  /\ Forall (describes c) (circuit_rest.ci_sectors info)
  /\ circuit_rest.ci_total_turns info
     == sum (map circuit_rest.si_turns (circuit_rest.ci_sectors info))
  /\ circuit_rest.ci_drs_zones info = List.length (circuit.drs_zones c)
  /\ In (circuit_rest.ci_circuit_type info)
        ["High-speed circuit"; "Street/Technical circuit"; "Mixed circuit"]%string.
Proof.
  unfold circuit_rest.get_circuit_info. intros H.
  destruct (circuit_rest.collect_sector_info c _ _) as [[out total]|] eqn:Ec;
    [|discriminate].
  cbn in H.
  destruct (circuit_rest._classify_circuit_type c) as [ty|] eqn:Et;
    [|discriminate].
  cbn in H. injection H as <-. simpl.
  apply collect_sector_info_spec in Ec.
  destruct Ec as (new & -> & Hmap & Hall & Hsum). simpl.
  split; [exact Hmap|]. split.
  { rewrite <- (length_map circuit_rest.si_sector), Hmap.
    etransitivity; [apply filter_length_le|]. rewrite range1_length. lia. }
  split; [exact Hall|]. split; [rewrite Hsum; ring|].
  split; [reflexivity|].
  unfold circuit_rest._classify_circuit_type in Et.
  destruct (circuit_rest.sum_speed_estimates c _ 0); [|discriminate].
  cbn in Et. destruct (truediv _ _); [|discriminate]. cbn in Et.
  injection Et as <-.
  destruct (ltb 220 _); [left; reflexivity|].
  destruct (ltb _ 140); [right; left; reflexivity|right; right; left; reflexivity].
Qed.

Lemma circuit_info_lists_found_sectors_witness :
  exists info,
    circuit_rest.get_circuit_info Demo.two_segment_track = Ok info
    /\ map circuit_rest.si_sector (circuit_rest.ci_sectors info) = [1; 2]%Z
    /\ circuit_rest.ci_total_turns info == 8.
Proof.
  destruct (circuit_rest.get_circuit_info Demo.two_segment_track)
    as [info|e] eqn:E.
  - exists info. split; [reflexivity|].
    destruct (circuit_info_lists_found_sectors _ _ E) as (H1 & _ & _ & H2 & _).
    split; [rewrite H1; reflexivity|].
    rewrite H2. vm_compute in E. injection E as <-. reflexivity.
  - exfalso. vm_compute in E. discriminate E.
Defined.

(* ===================================================================== *)
(** * Further properties of [car.py] *)
(* ===================================================================== *)

Section CarValid.
Import car lap_simulator Reach car_rest.

Lemma init_validated tires compound fuel c :
  car.__init__ tires compound fuel = Ok c -> validated c.
Proof.
  intros H. destruct (car_init_ok _ _ _ _ H) as (H1 & H2 & H3).
  unfold car.__init__ in H.
  destruct (negb _); [discriminate|]. destruct (negb _); [discriminate|].
  injection H as <-. unfold validated. simpl.
  split; [exact H1|]. split; [exact H2|]. split; [exact H3|].
  split; [lia|].
  split; [apply elem_of_cons; right; apply elem_of_cons; left; reflexivity|].
  split; [apply elem_of_cons; left; reflexivity|].
  split; [reflexivity|]. split; [reflexivity|]. split; discriminate.
Qed.

Lemma set_setup_validated downforce mode ers c :
  validated c -> validated (snd (set_setup downforce mode ers c)).
Proof.
  intros Hc. unfold set_setup.
  destruct ((1 <=? downforce)%Z && (downforce <=? 10)%Z) eqn:E1;
    [|exact Hc].
  destruct (bool_decide (mode ∈ valid_engine_modes)) eqn:E2; [|exact Hc].
  destruct (bool_decide (ers ∈ valid_ers_modes)) eqn:E3; [|exact Hc].
  apply andb_true_iff in E1. destruct E1 as [Ea Eb].
  apply Z.leb_le in Ea, Eb. apply bool_decide_eq_true_1 in E2, E3.
  destruct Hc as (H1 & H2 & H3 & _ & _ & _ & H7 & H8 & _).
  unfold validated. simpl.
  split; [exact H1|]. split; [exact H2|]. split; [exact H3|].
  split; [lia|]. split; [exact E2|]. split; [exact E3|].
  split; [exact H7|]. split; [exact H8|].
  assert (1 <= inject_Z downforce).
  { change 1 with (inject_Z 1). rewrite <- Zle_Qle. exact Ea. }
  assert (inject_Z downforce <= 10).
  { change 10 with (inject_Z 10). rewrite <- Zle_Qle. exact Eb. }
  assert (E : inject_Z downforce / 10 * 0.6 == inject_Z downforce * 0.06)
    by field.
  rewrite E. split; lra.
Qed.

Lemma evolves_validated c c' : validated c -> evolves c c' -> validated c'.
Proof. intros Hc H. induction H; assumption. Qed.

Lemma car_evolves_validated {A} (m : Method State A) st :
  car_evolves m -> validated (car (self st)) ->
  validated (car (self (snd (m st)))).
Proof.
  intros Hm Hc. destruct (Hm st) as (c' & E & S). rewrite S. simpl.
  eapply evolves_validated; eassumption.
Qed.

Lemma reachable_validated c : reachable c -> validated c.
Proof.
  intros H. induction H.
  - eapply init_validated. eassumption.
  - apply set_setup_validated. assumption.
  - assumption.
  - apply car_evolves_validated;
      [apply car_evolves_calculate_sector_time|assumption].
  - apply car_evolves_validated;
      [apply car_evolves_simulate_full_lap|assumption].
  - apply car_evolves_validated;
      [apply car_evolves_simulate_stint|assumption].
  - rewrite compare_configurations_self. assumption.
  - unfold set_driver_parameters. destruct (negb _); assumption.
  - unfold set_track_condition. destruct (negb _); assumption.
Qed.

End CarValid.

(** X8: every car the code can produce keeps what its constructor and
    [set_setup] checked: a compound of its table, a fuel load in
    [0, 110], a downforce level in [1, 10], an engine and an ERS mode of
    the enumerated sets, a drag coefficient in [0.76, 1.3]. *)
Theorem reachable_car_is_validated (c : car.Car) :
  Reach.reachable c ->
  is_Some (TireData.tire_compounds (car.tire_data c) !! car.tire_compound c)
  /\ 0 <= car.fuel_load c /\ car.fuel_load c <= 110
  /\ (1 <= car.downforce_level c <= 10)%Z
  /\ car.engine_mode c ∈ car.valid_engine_modes
  /\ car.ers_deployment c ∈ car.valid_ers_modes
  /\ 0.76 <= car.drag_coefficient c /\ car.drag_coefficient c <= 1.3.
Proof.
  intros H. apply reachable_validated in H.
  destruct H as (H1 & H2 & H3 & H4 & H5 & H6 & _ & _ & H9 & H10).
  repeat (split; [assumption|]). assumption.
Qed.

Lemma reachable_car_is_validated_witness :
  (1 <= car.downforce_level
          (snd (car.set_setup 8 "quali" "aggressive" Demo2.medium_car)) <= 10)%Z
  /\ car.drag_coefficient
       (snd (car.set_setup 8 "quali" "aggressive" Demo2.medium_car)) <= 1.3.
Proof.
  destruct (reachable_car_is_validated
              (snd (car.set_setup 8 "quali" "aggressive" Demo2.medium_car)))
    as (_ & _ & _ & H & _ & _ & _ & H').
  - apply Reach.reach_set_setup. exact medium_car_reachable.
  - split; [exact H|exact H'].
Defined.

Lemma valid_engine_mode_cases (m : string) :
  m ∈ car.valid_engine_modes ->
  m = "quali"%string \/ m = "race"%string \/ m = "conservation"%string.
Proof.
  unfold car.valid_engine_modes. intros H.
  repeat (apply elem_of_cons in H; destruct H as [H|H]; [auto|]).
  apply elem_of_nil in H. contradiction.
Qed.

Lemma valid_ers_mode_cases (m : string) :
  m ∈ car.valid_ers_modes ->
  m = "auto"%string \/ m = "aggressive"%string \/ m = "conservative"%string.
Proof.
  unfold car.valid_ers_modes. intros H.
  repeat (apply elem_of_cons in H; destruct H as [H|H]; [auto|]).
  apply elem_of_nil in H. contradiction.
Qed.

Lemma engine_performance_validated (c : car.Car) :
  car_rest.validated c ->
  exists p,
    car.get_engine_performance c = Ok p
    /\ car.total_power p == car.effective_power p + car.ers_contribution p
    /\ 920 <= car.effective_power p /\ car.effective_power p <= 1080
    /\ 10 <= car.ers_contribution p /\ car.ers_contribution p <= 40
    /\ 930 <= car.total_power p /\ car.total_power p <= 1120.
Proof.
  intros (_ & _ & _ & _ & Hm & He & _ & Hp & _).
  unfold car.get_engine_performance. rewrite Hp.
  destruct (valid_engine_mode_cases _ Hm) as [-> | [-> | ->]];
    destruct (valid_ers_mode_cases _ He) as [-> | [-> | ->]];
    cbn; eexists; (split; [reflexivity|]); cbn;
    repeat (split; [first [reflexivity | discriminate]|]);
    first [reflexivity | discriminate].
Qed.

(** X9: on every car the code can produce the engine figures are computed
    without a missing key: the total power is the mode-scaled base power
    plus the ERS contribution and lies in [930, 1120], so that the power
    divisor of the segment time, 0.95 + (total power / 1000) x 0.05, is
    positive. *)
Theorem engine_performance_of_reachable (c : car.Car) :
  Reach.reachable c ->
  exists p,
    car.get_engine_performance c = Ok p
    /\ car.total_power p == car.effective_power p + car.ers_contribution p
    /\ 930 <= car.total_power p /\ car.total_power p <= 1120
    /\ 0 < 0.95 + car.total_power p / 1000 * 0.05.
Proof.
  intros H. apply reachable_validated in H.
  destruct (engine_performance_validated c H)
    as (p & Hp & Hsum & _ & _ & _ & _ & Hlo & Hhi).
  exists p. split; [exact Hp|]. split; [exact Hsum|].
  split; [exact Hlo|]. split; [exact Hhi|].
  assert (E : car.total_power p / 1000 * 0.05 == car.total_power p * 0.00005)
    by field.
  rewrite E. lra.
Qed.

Lemma engine_performance_of_reachable_witness :
  exists p,
    car.get_engine_performance Demo2.medium_car = Ok p
    /\ 930 <= car.total_power p /\ car.total_power p <= 1120.
Proof.
  destruct (engine_performance_of_reachable Demo2.medium_car
              medium_car_reachable) as (p & Hp & _ & Hlo & Hhi & _).
  exists p. split; [exact Hp|]. split; [exact Hlo|exact Hhi].
Defined.

(** X10: on every car the code can produce, downforce costs on the straights
    and pays in the corners: the drag multiplier (applied to high-speed
    segments) is in (1, 1.08], the cornering multiplier (dividing
    low-speed segments) is in (1, 1.15] and is the larger of the two, and
    the factor applied to the other segments is 1 - 0.0035 x level, below
    1; the label follows the level. *)
Theorem aerodynamic_balance_of_reachable (c : car.Car) :
  Reach.reachable c ->
  1 < car.drag_multiplier (car.get_aerodynamic_balance c)
  /\ car.drag_multiplier (car.get_aerodynamic_balance c) <= 1.08
  /\ car.drag_multiplier (car.get_aerodynamic_balance c)
     < car.cornering_multiplier (car.get_aerodynamic_balance c)
  /\ car.cornering_multiplier (car.get_aerodynamic_balance c) <= 1.15
  /\ 1.0 + (car.drag_multiplier (car.get_aerodynamic_balance c) - 1.0) * 0.5
         - (car.cornering_multiplier (car.get_aerodynamic_balance c) - 1.0) * 0.5
     == 1 - 0.0035 * inject_Z (car.downforce_level c)
  /\ ((car.downforce_level c <= 3)%Z ->
      car.balance_type (car.get_aerodynamic_balance c)
      = "Low downforce (Monza-style)"%string)
  /\ ((3 < car.downforce_level c <= 7)%Z ->
      car.balance_type (car.get_aerodynamic_balance c)
      = "Medium downforce (Balanced)"%string)
  /\ ((7 < car.downforce_level c)%Z ->
      car.balance_type (car.get_aerodynamic_balance c)
      = "High downforce (Monaco-style)"%string).
Proof.
  intros H. apply reachable_validated in H.
  destruct H as (_ & _ & _ & Hd & _).
  assert (H1 : 1 <= inject_Z (car.downforce_level c)).
  { change 1 with (inject_Z 1). rewrite <- Zle_Qle. lia. }
  assert (H10 : inject_Z (car.downforce_level c) <= 10).
  { change 10 with (inject_Z 10). rewrite <- Zle_Qle. lia. }
  unfold car.get_aerodynamic_balance. simpl.
  set (d := inject_Z (car.downforce_level c)) in *.
  assert (E8 : d / 10 * 0.08 == d * 0.008) by field.
  assert (E15 : d / 10 * 0.15 == d * 0.015) by field.
  rewrite E8, E15.
  split; [lra|]. split; [lra|]. split; [lra|]. split; [lra|].
  split; [ring|].
  unfold car._get_aero_balance_description.
  split; [|split].
  - intros Hle. apply Z.leb_le in Hle. rewrite Hle. reflexivity.
  - intros [Hgt Hle]. apply Z.leb_gt in Hgt. apply Z.leb_le in Hle.
    rewrite Hgt, Hle. reflexivity.
  - intros Hgt. assert (Hgt' : (3 < car.downforce_level c)%Z) by lia.
    apply Z.leb_gt in Hgt, Hgt'. rewrite Hgt', Hgt. reflexivity.
Qed.

Lemma aerodynamic_balance_of_reachable_witness :
  1 < car.drag_multiplier (car.get_aerodynamic_balance Demo2.medium_car)
  /\ car.drag_multiplier (car.get_aerodynamic_balance Demo2.medium_car)
     < car.cornering_multiplier (car.get_aerodynamic_balance Demo2.medium_car).
Proof.
  destruct (aerodynamic_balance_of_reachable Demo2.medium_car
              medium_car_reachable) as (H1 & _ & H2 & _).
  split; [exact H1|exact H2].
Defined.

(** [int(x)] of a float that is not negative is its floor. *)
Lemma int_floor (x : Q) :
  0 <= x -> inject_Z (int x) <= x /\ x < inject_Z (int x) + 1 /\ (0 <= int x)%Z.
Proof.
  intros Hx.
  assert (Hn : (0 <= Qnum x)%Z).
  { unfold Qle in Hx. simpl in Hx. lia. }
  assert (E : int x = Qfloor x).
  { unfold int, Qfloor. destruct x as [n d]. simpl in *.
    apply Z.quot_div_nonneg; lia. }
  rewrite E. split; [apply Qfloor_le|].
  split.
  - pose proof (Qlt_floor x) as H.
    rewrite inject_Z_plus in H. exact H.
  - change 0%Z with (Qfloor 0). apply Qfloor_resp_le. exact Hx.
Qed.

(** The quotient of the fuel load by the rate is rounded before it is
    truncated: with 13.999999999999998 kg, just under five laps at 2.8 kg
    a lap, the binary64 quotient is 5 and the estimate five laps, where
    the exact quotient gives four. *)
Example estimate_fuel_laps_rounds_up :
  PrimFloat.ltb 0x1.bffffffffffffp+3 14 = true
  /\ car_binary64._estimate_fuel_laps 0x1.bffffffffffffp+3 "race" = Some 5%Z
  /\ int ((7881299347898367 # 562949953421312) / 2.8) = 4%Z
  /\ car_binary64._estimate_fuel_laps 50 "race" = Some 17%Z
  /\ int (50 / 2.8) = 17%Z.
Proof. repeat split; vm_compute; reflexivity. Qed.

(** X11: on every car the code can produce the fuel figures are computed
    without a missing key: the weight is 798 kg plus the fuel, in
    [798, 908]; the handling multiplier is in [1, 1.11]; the estimate of
    the laps left is a whole number between 0 and 47, less than one lap
    away from the laps the fuel lasts at the rate of the engine mode
    (3.5, 2.8 or 2.3 kg). *)
Theorem fuel_effect_of_reachable (c : car.Car) (circuit_length : Q) :
  Reach.reachable c ->
  exists fe rate,
    car.get_fuel_effect c circuit_length = Ok fe
    /\ car.consumption_rates (car.engine_mode c) = Some rate
    /\ car.total_weight fe == 798 + car.fuel_load c
    /\ 798 <= car.total_weight fe /\ car.total_weight fe <= 908
    /\ 1 <= car.handling_multiplier fe /\ car.handling_multiplier fe <= 1.11
    /\ car.time_penalty fe
       == car.fuel_load c * (circuit_length / 1000) * 0.035
    /\ (inject_Z (car.laps_remaining fe) - 1) * rate < car.fuel_load c
    /\ car.fuel_load c < (inject_Z (car.laps_remaining fe) + 1) * rate
    /\ (0 <= car.laps_remaining fe <= 47)%Z.
Proof.
  intros H. apply reachable_validated in H.
  destruct H as (_ & Hf0 & Hf1 & _ & Hm & _ & Hw & _).
  unfold car.get_fuel_effect, car._estimate_fuel_laps, car.get_total_weight.
  rewrite Hw.
  assert (Hrate : exists rate,
             car.consumption_rates (car.engine_mode c) = Some rate
             /\ 2.3 <= rate /\ rate <= 3.5).
  { destruct (valid_engine_mode_cases _ Hm) as [-> | [-> | ->]];
      eexists; (split; [reflexivity|]); split; discriminate. }
  destruct Hrate as (rate & Er & Hr1 & Hr2). rewrite Er. cbn.
  assert (Hq : 0 <= car.fuel_load c / rate) by (apply Qle_shift_div_l; lra).
  destruct (int_floor _ Hq) as (Hlo & Hhi & Hnn).
  set (k := int (car.fuel_load c / rate)) in *.
  assert (Ef : car.fuel_load c == car.fuel_load c / rate * rate)
    by (field; lra).
  assert (Hk1 : inject_Z k * rate <= car.fuel_load c).
  { assert (inject_Z k * rate <= car.fuel_load c / rate * rate)
      by (apply Qmult_le_compat_r; lra).
    lra. }
  assert (Hk2 : car.fuel_load c < (inject_Z k + 1) * rate).
  { assert (car.fuel_load c / rate * rate < (inject_Z k + 1) * rate)
      by (apply Qmult_lt_compat_r; lra).
    lra. }
  exists {| car.fe_fuel_load := car.fuel_load c;
            car.total_weight := 798 + car.fuel_load c;
            car.time_penalty :=
              utils.fuel_weight_to_lap_time (car.fuel_load c) circuit_length;
            car.handling_multiplier := 1.0 + car.fuel_load c / 1000;
            car.laps_remaining := k |}, rate.
  split; [reflexivity|]. split; [reflexivity|]. simpl.
  split; [reflexivity|]. split; [lra|]. split; [lra|].
  assert (Eh : car.fuel_load c / 1000 == car.fuel_load c * 0.001) by field.
  rewrite Eh. split; [lra|]. split; [lra|].
  split; [reflexivity|]. split; [nra|]. split; [exact Hk2|].
  split; [exact Hnn|].
  assert (Hup : inject_Z k < inject_Z 48).
  { change (inject_Z 48) with 48.
    assert (inject_Z k * 2.3 <= 110) by nra. lra. }
  rewrite <- Zlt_Qlt in Hup. lia.
Qed.

Lemma fuel_effect_of_reachable_witness :
  exists fe,
    car.get_fuel_effect Demo2.medium_car 5000 = Ok fe
    /\ car.total_weight fe == 848
    /\ car.laps_remaining fe = 17%Z.
Proof.
  destruct (fuel_effect_of_reachable Demo2.medium_car 5000
              medium_car_reachable) as (fe & rate & Hfe & _ & Hw & _).
  exists fe. split; [exact Hfe|]. split; [rewrite Hw; reflexivity|].
  vm_compute in Hfe. injection Hfe as <-. reflexivity.
Defined.

Lemma calculate_tire_degradation_raises lap ti e :
  utils.calculate_tire_degradation lap ti = Raise e -> e = ZeroDivisionError.
Proof.
  unfold utils.calculate_tire_degradation.
  destruct (leb _ _); [|discriminate].
  destruct (truediv _ _) eqn:E; [discriminate|].
  cbn. intros [= <-]. apply truediv_raises in E. tauto.
Qed.

Lemma get_tire_performance_raises (c : car.Car) lap e :
  car_rest.validated c ->
  car.get_tire_performance c lap = Raise e -> e = ZeroDivisionError.
Proof.
  intros (Hc & _). destruct Hc as [ti Hti].
  unfold car.get_tire_performance, car._calculate_temperature_effect,
    car.tire_info.
  rewrite Hti. cbn.
  destruct (utils.calculate_tire_degradation _ ti) eqn:Ed; cbn.
  - repeat match goal with
           | |- context [if ?b then _ else _] => destruct b
           end; cbn;
      (destruct (truediv _ _) eqn:Et; cbn; [discriminate|];
       intros [= <-]; apply truediv_raises in Et; tauto).
  - intros [= <-]. eapply calculate_tire_degradation_raises. exact Ed.
Qed.

(** X12: on every car the code can produce no lookup of the summary misses its
    key: the summary and the tire figures can fail only by a division by
    zero in the tire data; when the summary is returned, it carries the
    tire figures of the current lap, the engine figures and the weight
    of 798 kg plus the fuel. *)
Theorem car_summary_of_reachable (c : car.Car) :
  Reach.reachable c ->
  (forall lap e, car.get_tire_performance c lap = Raise e ->
                 e = ZeroDivisionError)
  /\ (forall e, car_rest.get_car_summary c = Raise e -> e = ZeroDivisionError)
  /\ (forall s, car_rest.get_car_summary c = Ok s ->
                car.get_tire_performance c None
                = Ok (car_rest.cs_tire_performance s)
                /\ car.lap_number (car_rest.cs_tire_performance s)
                   = car.current_lap c
                /\ car.get_engine_performance c
                   = Ok (car_rest.cs_engine_performance s)
                /\ car_rest.cs_total_weight s == 798 + car.fuel_load c).
Proof.
  intros H. apply reachable_validated in H.
  split; [intros lap e; apply get_tire_performance_raises; exact H|].
  destruct (engine_performance_validated c H) as (ep & Hep & _).
  unfold car_rest.get_car_summary. rewrite Hep.
  split.
  - intros e. destruct (car.get_tire_performance c None) eqn:Et; cbn;
      [discriminate|].
    intros [= <-]. eapply get_tire_performance_raises; eassumption.
  - intros s. destruct (car.get_tire_performance c None) as [tp|] eqn:Et; cbn;
      [|discriminate].
    intros [= <-]. simpl. split; [reflexivity|]. split.
    + unfold car.get_tire_performance in Et.
      destruct (car.tire_info c); [|discriminate]. cbn in Et.
      destruct (utils.calculate_tire_degradation _ _); [|discriminate].
      cbn in Et.
      destruct (car._calculate_temperature_effect c); [|discriminate].
      cbn in Et. destruct (truediv _ _); [|discriminate]. cbn in Et.
      injection Et as <-. reflexivity.
    + split; [reflexivity|].
      destruct H as (_ & _ & _ & _ & _ & _ & Hw & _).
      unfold car.get_total_weight. rewrite Hw. reflexivity.
Qed.

Lemma car_summary_of_reachable_witness :
  exists s,
    car_rest.get_car_summary Demo2.medium_car = Ok s
    /\ car_rest.cs_total_weight s == 798 + 50.
Proof.
  destruct (car_summary_of_reachable Demo2.medium_car medium_car_reachable)
    as (_ & _ & H).
  destruct (car_rest.get_car_summary Demo2.medium_car) as [s|e] eqn:E.
  - exists s. split; [reflexivity|].
    destruct (H s eq_refl) as (_ & _ & _ & Hw). exact Hw.
  - exfalso. vm_compute in E. discriminate E.
Defined.

(** X13: the share of tire life left is 1 - lap / life span while the lap
    number is below the life span and 0 from there on; it is in [0, 1]
    for every lap number from 0 on. *)
Theorem tire_life_remaining_range
        (c : car.Car) (lap_number : option Z) (ti : TireInfo.t)
        (p : car.TirePerformance) :
  car.tire_info c = Ok ti ->
  car.get_tire_performance c lap_number = Ok p ->
  0 < TireInfo.life_span ti ->
  (0 <= get lap_number (car.current_lap c))%Z ->
  0 <= car.tire_life_remaining p /\ car.tire_life_remaining p <= 1
  /\ (inject_Z (get lap_number (car.current_lap c)) < TireInfo.life_span ti ->
      car.tire_life_remaining p
      == 1 - inject_Z (get lap_number (car.current_lap c))
             / TireInfo.life_span ti)
  /\ (TireInfo.life_span ti <= inject_Z (get lap_number (car.current_lap c)) ->
      car.tire_life_remaining p == 0).
Proof.
  intros Hti Hp Hls Hlap.
  unfold car.get_tire_performance in Hp. rewrite Hti in Hp. cbn in Hp.
  destruct (utils.calculate_tire_degradation _ _); [|discriminate].
  cbn in Hp.
  destruct (car._calculate_temperature_effect c); [|discriminate].
  cbn in Hp. rewrite truediv_ok in Hp by lra. cbn in Hp.
  injection Hp as <-. simpl.
  set (lap := inject_Z (get lap_number (car.current_lap c))) in *.
  assert (H0 : 0 <= lap).
  { unfold lap. change 0 with (inject_Z 0). rewrite <- Zle_Qle. exact Hlap. }
  assert (Hq : 0 <= lap / TireInfo.life_span ti)
    by (apply Qle_shift_div_l; lra).
  destruct (max_cases 0 (1 - lap / TireInfo.life_span ti)) as [[Hc ->]|[Hc ->]].
  - split; [lra|]. split; [lra|]. split.
    + intros Hlt.
      assert (lap / TireInfo.life_span ti < 1)
        by (apply Qlt_shift_div_r; lra).
      lra.
    + reflexivity.
  - split; [lra|]. split; [lra|]. split; [reflexivity|].
    intros Hge. exfalso.
    assert (1 <= lap / TireInfo.life_span ti)
      by (apply Qle_shift_div_l; lra).
    lra.
Qed.

Lemma tire_life_remaining_range_witness :
  exists p,
    car.get_tire_performance Demo2.medium_car (Some 10%Z) = Ok p
    /\ car.tire_life_remaining p == 0.75.
Proof.
  destruct (car.get_tire_performance Demo2.medium_car (Some 10%Z))
    as [p|e] eqn:E.
  - exists p. split; [reflexivity|].
    destruct (tire_life_remaining_range Demo2.medium_car (Some 10%Z)
                Demo.medium p) as (_ & _ & H & _).
    + vm_compute. reflexivity.
    + exact E.
    + reflexivity.
    + simpl. lia.
    + rewrite H; reflexivity.
  - exfalso. vm_compute in E. discriminate E.
Defined.

Lemma update_tire_state_temperature lap category c :
  car.tire_temperature (snd (car.update_tire_state lap category c))
  = Z.max 60 (Z.min 140 (car.tire_temperature c + car.temp_changes category)).
Proof. reflexivity. Qed.

(** X14: segments of one category in a row move the tire temperature of a car
    the code can produce by their delta each, up to the bound: after [k]
    high-speed segments it is min(140, t + 3k), after [k] low-speed
    segments max(60, t - 2k), and medium-speed segments leave it at t. *)
Theorem tire_temperature_after_segments (c : car.Car) (lap : Z) (k : nat) :
  Reach.reachable c ->
  car.tire_temperature
    (Nat.iter k (fun c' => snd (car.update_tire_state lap "high_speed" c')) c)
  = Z.min 140 (car.tire_temperature c + 3 * Z.of_nat k)
  /\ car.tire_temperature
       (Nat.iter k (fun c' => snd (car.update_tire_state lap "low_speed" c')) c)
     = Z.max 60 (car.tire_temperature c - 2 * Z.of_nat k)
  /\ car.tire_temperature
       (Nat.iter k (fun c' => snd (car.update_tire_state lap "medium_speed" c')) c)
     = car.tire_temperature c.
Proof.
  intros H. apply reachable_temperature in H.
  unfold Reach.temperature_in_range in H.
  split; [|split]; induction k as [|k IH]; try (simpl; lia);
    rewrite Nat.iter_succ, update_tire_state_temperature, IH, ?Nat2Z.inj_succ.
  - change (car.temp_changes "high_speed") with 3%Z. lia.
  - change (car.temp_changes "low_speed") with (-2)%Z. lia.
  - change (car.temp_changes "medium_speed") with 0%Z. lia.
Qed.

Lemma tire_temperature_after_segments_witness :
  car.tire_temperature
    (Nat.iter 20 (fun c' => snd (car.update_tire_state 1 "high_speed" c'))
              Demo2.medium_car) = 140%Z.
Proof.
  destruct (tire_temperature_after_segments Demo2.medium_car 1 20
              medium_car_reachable) as (H & _).
  rewrite H. reflexivity.
Defined.

(* ===================================================================== *)
(** * Further properties of [utils.py] *)
(* ===================================================================== *)

Example format_lap_time_test_1 : utils_rest.format_lap_time 45.123 = "45.123s".
Proof. vm_compute. reflexivity. Qed.

Example format_lap_time_test_2 : utils_rest.format_lap_time 75.456 = "1:15.456".
Proof. vm_compute. reflexivity. Qed.

Example format_lap_time_test_3 : utils_rest.format_lap_time (-5) = "N/A".
Proof. vm_compute. reflexivity. Qed.

Example format_sector_time_test : utils_rest.format_sector_time 25.123 = "25.123s".
Proof. vm_compute. reflexivity. Qed.

Example format_lap_time_pads : utils_rest.format_lap_time 65.5 = "1:05.500".
Proof. vm_compute. reflexivity. Qed.

Lemma Qfloor_unique (x : Q) (m : Z) :
  inject_Z m <= x -> x < inject_Z m + 1 -> Qfloor x = m.
Proof.
  intros Hlo Hhi.
  assert (H1 : (m <= Qfloor x)%Z).
  { rewrite <- (Qfloor_Z m). apply Qfloor_resp_le. exact Hlo. }
  assert (H2 : (Qfloor x < m + 1)%Z).
  { rewrite Zlt_Qlt, inject_Z_plus. pose proof (Qfloor_le x).
    change (inject_Z 1) with 1. lra. }
  lia.
Qed.

Lemma round_half_even_up (y : Q) (f : Z) :
  inject_Z f + 0.5 < y -> y < inject_Z f + 1 ->
  utils_rest.round_half_even y = (f + 1)%Z.
Proof.
  intros Hlo Hhi. unfold utils_rest.round_half_even.
  rewrite (Qfloor_unique y f) by lra.
  destruct (ltb (y - inject_Z f) 0.5) eqn:E1.
  - apply ltb_iff in E1. exfalso. lra.
  - destruct (ltb 0.5 (y - inject_Z f)) eqn:E2; [reflexivity|].
    apply ltb_false_iff in E2. exfalso. lra.
Qed.

(** X15: a time whose seconds part is above 59.9995 is shown with 60.000
    seconds: the rounding to thousandths is not carried into the minutes
    (59.9996 s is shown as 60.000s, 119.9996 s as 1:60.000). *)
Theorem format_lap_time_shows_60_seconds (seconds : Q) (m : Z) :
  (0 <= m)%Z ->
  60 * inject_Z m + 59.9995 < seconds ->
  seconds < 60 * inject_Z m + 60 ->
  utils_rest.format_lap_time seconds
  = if (0 <? m)%Z then (pretty m ++ ":60.000")%string else "60.000s"%string.
Proof.
  intros Hm Hlo Hhi.
  assert (H0 : 0 <= inject_Z m).
  { change 0 with (inject_Z 0). rewrite <- Zle_Qle. exact Hm. }
  unfold utils_rest.format_lap_time.
  assert (E0 : ltb seconds 0 = false) by (apply ltb_false_iff; lra).
  rewrite E0.
  assert (Ef : Qfloor (seconds / 60) = m).
  { apply Qfloor_unique.
    - apply Qle_shift_div_l; lra.
    - apply Qlt_shift_div_r; lra. }
  unfold utils_rest.floordiv60, utils_rest.mod60. rewrite Ef.
  assert (Ei : int (inject_Z m) = m).
  { unfold int. simpl. apply Z.quot_1_r. }
  rewrite Ei.
  set (r := seconds - 60 * inject_Z m).
  assert (Hr1 : 59.9995 < r) by (unfold r; lra).
  assert (Hr2 : r < 60) by (unfold r; lra).
  assert (Er : utils_rest.fixed3 r = "60.000"%string).
  { unfold utils_rest.fixed3.
    assert (Eneg : ltb r 0 = false) by (apply ltb_false_iff; lra).
    rewrite Eneg.
    assert (Ea : Qabs r == r) by (apply Qabs_pos; lra).
    rewrite (round_half_even_up (Qabs r * 1000) 59999).
    - vm_compute. reflexivity.
    - rewrite Ea. change (inject_Z 59999) with 59999. lra.
    - rewrite Ea. change (inject_Z 59999) with 59999. lra. }
  unfold utils_rest.fixed3_width6. rewrite Er.
  destruct (0 <? m)%Z; reflexivity.
Qed.

Lemma format_lap_time_shows_60_seconds_witness :
  utils_rest.format_lap_time 119.9996 = "1:60.000"%string
  /\ utils_rest.format_lap_time 59.9996 = "60.000s"%string.
Proof.
  split.
  - apply (format_lap_time_shows_60_seconds 119.9996 1);
      [lia | reflexivity | reflexivity].
  - apply (format_lap_time_shows_60_seconds 59.9996 0);
      [lia | reflexivity | reflexivity].
Defined.

Lemma contains_is_Some {A} (o : option A) : contains o = true <-> is_Some o.
Proof.
  destruct o; simpl; split; intros H; eauto; try discriminate.
  destruct (is_Some_None H).
Qed.

(** X16: [validate_inputs] accepts exactly the inputs that the constructors of
    the circuit, the car and the simulator accept: it returns (True, "")
    when the three names are in their tables and the fuel load is in
    [0, 110], and then [Circuit], [Car] and [LapSimulator] are built
    without error; otherwise it returns False with a message that is not
    empty, and one of the three constructors raises [ValueError]. *)
Theorem validate_inputs_agrees_with_constructors
        (circuits : gmap string CircuitData.t) (tires : TireData.t)
        (presets : WeatherData.t) (keys_text : forall V, gmap string V -> string)
        (circuit_name compound : string) (fuel : Q) (weather : string) :
  (utils_rest.validate_inputs circuits tires presets keys_text
     circuit_name compound fuel weather = (true, ""%string)
   <-> is_Some (circuits !! circuit_name)
       /\ is_Some (TireData.tire_compounds tires !! compound)
       /\ is_Some (WeatherData.weather_conditions presets !! weather)
       /\ 0 <= fuel /\ fuel <= 110)
  /\ (utils_rest.validate_inputs circuits tires presets keys_text
        circuit_name compound fuel weather = (true, ""%string) ->
      exists track c sim,
        circuit.__init__ circuits circuit_name = Ok track
        /\ car.__init__ tires compound fuel = Ok c
        /\ lap_simulator.__init__ presets track c weather = Ok sim)
  /\ (fst (utils_rest.validate_inputs circuits tires presets keys_text
             circuit_name compound fuel weather) = false ->
      snd (utils_rest.validate_inputs circuits tires presets keys_text
             circuit_name compound fuel weather) <> ""%string
      /\ (circuit.__init__ circuits circuit_name = Raise ValueError
          \/ car.__init__ tires compound fuel = Raise ValueError
          \/ forall track c,
               lap_simulator.__init__ presets track c weather
               = Raise ValueError)).
Proof.
  unfold utils_rest.validate_inputs, circuit.__init__, car.__init__,
    lap_simulator.__init__.
  destruct (circuits !! circuit_name) as [cd|] eqn:E1; simpl.
  2:{ split; [split; [discriminate|intros (H & _); destruct (is_Some_None H)]|].
      split; [discriminate|]. intros _. split; [discriminate|]. auto. }
  destruct (TireData.tire_compounds tires !! compound) as [ti|] eqn:E2; simpl.
  2:{ split; [split; [discriminate|intros (_ & H & _); destruct (is_Some_None H)]|].
      split; [discriminate|]. intros _. split; [discriminate|]. auto. }
  destruct (WeatherData.weather_conditions presets !! weather) as [w|] eqn:E3;
    simpl.
  2:{ split; [split; [discriminate|intros (_ & _ & H & _); destruct (is_Some_None H)]|].
      split; [discriminate|]. intros _. split; [discriminate|]. auto. }
  destruct (leb 0 fuel && leb fuel 110) eqn:E4; simpl.
  - apply andb_true_iff in E4. destruct E4 as [Ea Eb].
    apply leb_iff in Ea, Eb.
    split; [split; [intros _; eauto 10|reflexivity]|].
    split; [intros _; eauto 10|discriminate].
  - split.
    + split; [discriminate|]. intros (_ & _ & _ & Ha & Hb).
      apply leb_iff in Ha, Hb. rewrite Ha, Hb in E4. discriminate.
    + split; [discriminate|]. intros _. split; [discriminate|]. auto.
Qed.

Lemma suboptimal_warning_not_empty (w : Weather.t) :
  utils.suboptimal_warning w <> ""%string.
Proof. unfold utils.suboptimal_warning. simpl. discriminate. Qed.

(** What [apply_weather_effect] returns when the product of the grip and
    the speed modifier is not zero. *)
Lemma apply_weather_effect_value (t : Q) (w : Weather.t) (tire : string) :
  ~ get (Weather.grip_modifier w) 1.0 * get (Weather.speed_modifier w) 1.0 == 0 ->
  exists t' warning,
    utils.apply_weather_effect t w tire = Ok (t', warning)
    /\ ((tire ∈ get (Weather.optimal_tire w) []
         /\ warning = ""%string
         /\ t' == t / (get (Weather.grip_modifier w) 1.0
                       * get (Weather.speed_modifier w) 1.0)
                  + t * get (Weather.mistake_probability w) 0.0 * 0.1)
        \/ ((tire ∉ get (Weather.optimal_tire w) [])
            /\ warning = utils.suboptimal_warning w
            /\ t' == 1.15 * (t / (get (Weather.grip_modifier w) 1.0
                                  * get (Weather.speed_modifier w) 1.0))
                     + t * get (Weather.mistake_probability w) 0.0 * 0.1)).
Proof.
  intros Hnz. unfold utils.apply_weather_effect.
  rewrite truediv_ok by exact Hnz. cbn.
  destruct (decide (tire ∈ get (Weather.optimal_tire w) [])) as [Hin|Hin].
  - rewrite bool_decide_eq_true_2 by exact Hin. cbn.
    eexists _, _. split; [reflexivity|]. left.
    split; [exact Hin|]. split; reflexivity.
  - rewrite bool_decide_eq_false_2 by exact Hin. cbn.
    eexists _, _. split; [reflexivity|]. right.
    split; [exact Hin|]. split; [reflexivity|ring].
Qed.

(** X17: in a weather whose grip x speed is in (0, 1] and whose mistake
    probability is not negative, the adjustment of a time that is not
    negative never shortens it, and a longer time is never adjusted to a
    shorter one; a warning comes exactly with a compound outside the
    optimal list of the weather, and such a compound is never faster
    than one of the list: it costs 15 % of the time over grip x speed. *)
Theorem weather_effect_never_shortens (t : Q) (w : Weather.t) (tire : string) :
  0 <= t ->
  0 < get (Weather.grip_modifier w) 1.0 * get (Weather.speed_modifier w) 1.0 ->
  get (Weather.grip_modifier w) 1.0 * get (Weather.speed_modifier w) 1.0 <= 1 ->
  0 <= get (Weather.mistake_probability w) 0.0 ->
  exists t' warning,
    utils.apply_weather_effect t w tire = Ok (t', warning)
    /\ t <= t'
    /\ (warning = ""%string <-> tire ∈ get (Weather.optimal_tire w) [])
    /\ (forall t2 t2' warning2,
          t <= t2 ->
          utils.apply_weather_effect t2 w tire = Ok (t2', warning2) ->
          t' <= t2' /\ warning2 = warning)
    /\ (forall listed t_listed warning_listed,
          listed ∈ get (Weather.optimal_tire w) [] ->
          utils.apply_weather_effect t w listed = Ok (t_listed, warning_listed) ->
          t_listed <= t'
          /\ (tire ∉ get (Weather.optimal_tire w) [] ->
              t' - t_listed
              == 0.15 * (t / (get (Weather.grip_modifier w) 1.0
                              * get (Weather.speed_modifier w) 1.0)))).
Proof.
  intros Ht Hgs0 Hgs1 Hmp.
  set (gs := get (Weather.grip_modifier w) 1.0
             * get (Weather.speed_modifier w) 1.0) in *.
  set (mp := get (Weather.mistake_probability w) 0.0) in *.
  assert (Hnz : ~ gs == 0) by lra.
  assert (Hdiv : forall x, 0 <= x -> x <= x / gs).
  { intros x Hx. apply Qle_shift_div_l; [exact Hgs0|]. nra. }
  assert (Hmono : forall x y, x <= y -> x / gs <= y / gs).
  { intros x y Hxy. unfold Qdiv. apply Qmult_le_compat_r; [exact Hxy|].
    apply Qlt_le_weak, Qinv_lt_0_compat. exact Hgs0. }
  destruct (apply_weather_effect_value t w tire Hnz)
    as (t' & warning & E & Hcase).
  fold gs mp in Hcase.
  exists t', warning. split; [exact E|].
  pose proof (Hdiv t Ht) as Hd.
  assert (Hm : 0 <= t * mp * 0.1) by nra.
  split; [destruct Hcase as [(_ & _ & ->)|(_ & _ & ->)]; lra|].
  split.
  { destruct Hcase as [(Hin & -> & _)|(Hin & -> & _)].
    - split; auto.
    - split; [intros Hw; destruct (suboptimal_warning_not_empty w Hw)
             |intros Hin'; contradiction]. }
  split.
  - intros t2 t2' warning2 Hle E2.
    destruct (apply_weather_effect_value t2 w tire Hnz)
      as (t2x & w2x & E2x & Hcase2).
    fold gs mp in Hcase2.
    rewrite E2 in E2x. injection E2x as <- <-.
    pose proof (Hmono t t2 Hle) as Hq.
    assert (Hm2 : t * mp * 0.1 <= t2 * mp * 0.1) by nra.
    destruct Hcase as [(Hin & -> & ->)|(Hin & -> & ->)];
      destruct Hcase2 as [(Hin2 & -> & ->)|(Hin2 & -> & ->)];
      try contradiction; split; try reflexivity; lra.
  - intros listed t_l w_l Hl El.
    destruct (apply_weather_effect_value t w listed Hnz)
      as (tx & wx & Ex & Hcasel).
    fold gs mp in Hcasel.
    rewrite El in Ex. injection Ex as <- <-.
    destruct Hcasel as [(_ & _ & ->)|(Hnl & _)]; [|contradiction].
    assert (Hq : 0 <= t / gs) by lra.
    destruct Hcase as [(Hin & _ & ->)|(Hin & _ & ->)].
    + split; [lra|]. intros Hn. contradiction.
    + split; [lra|]. intros _. ring.
Qed.

Lemma weather_effect_never_shortens_witness :
  exists t' warning,
    utils.apply_weather_effect 100 Demo.dry "hard" = Ok (t', warning)
    /\ 100 <= t'.
Proof.
  destruct (weather_effect_never_shortens 100 Demo.dry "hard")
    as (t' & warning & E & Hle & _);
    try (vm_compute; first [reflexivity | discriminate]).
  exists t', warning. split; [exact E|exact Hle].
Defined.



(* ===================================================================== *)
(** * Further properties of [lap_simulator.py] *)
(* ===================================================================== *)

Section LapShape.
Import car lap_simulator.

Lemma max_0_nonneg (x : Q) : 0 <= max 0 x.
Proof. apply max_lower. Qed.

(** What the result of a segment records. *)
Lemma calculate_sector_time_result rs n lap st r st' :
  calculate_sector_time rs n lap st = (Ok r, st') ->
  sector_number r = n
  /\ 0 <= time r
  /\ circuit.get_sector_data (circuit (self st)) n = Some (sector_data r)
  /\ circuit.get_sector_base_time (circuit (self st)) n = Ok (base_time r)
  /\ has_drs r = circuit.has_drs_in_sector (circuit (self st)) n
  /\ fuel_penalty (modifiers r)
     = utils.fuel_weight_to_lap_time (fuel_load (car (self st)))
         (circuit.length (circuit (self st)))
  /\ self st'
     = with_car (self st)
         (snd (update_tire_state lap
                 (get (Sector.type (sector_data r)) "medium_speed"%string)
                 (car (self st)))).
Proof.
  unfold calculate_sector_time, uniform, random, mbind, method_bind,
    Method.bind, Method.get, Method.lift, Method.raise, mret, method_ret,
    Method.ret, on_car.
  intros H.
  destruct (circuit.get_sector_base_time _ _) as [bt|] eqn:Ebt;
    [|discriminate].
  destruct (circuit.get_sector_data _ _) as [sd|] eqn:Esd; [|discriminate].
  cbn in H.
  destruct (get_tire_performance _ _); [|discriminate H].
  destruct (get_engine_performance _); [|discriminate H].
  unfold get_fuel_effect in H at 1.
  destruct (_estimate_fuel_laps _); [|discriminate H].
  cbn in H.
  unfold _calculate_all_modifiers in H at 1.
  destruct (subscript (Weather.grip_modifier _)); [|discriminate H].
  cbn in H.
  destruct (subscript (_ !! _)) eqn:Etrack; [|discriminate H].
  cbn in H.
  repeat first
    [ discriminate H
    | progress cbn in H
    | match type of H with
      | context [if ?x then _ else _] => destruct x
      | context [match ?x with _ => _ end] => destruct x
      end ];
    injection H as <- <-; simpl;
    (split; [reflexivity|]); (split; [apply max_0_nonneg|]);
    repeat (split; [reflexivity|]); reflexivity.
Qed.

Lemma calculate_sector_time_circuit rs n lap st :
  circuit (self (snd (calculate_sector_time rs n lap st))) = circuit (self st)
  /\ fuel_load (car (self (snd (calculate_sector_time rs n lap st))))
     = fuel_load (car (self st)).
Proof.
  destruct (car_evolves_calculate_sector_time rs n lap st) as (c' & Ev & E).
  rewrite E. simpl. split; [reflexivity|].
  clear E. induction Ev; [reflexivity|exact IHEv|exact IHEv].
Qed.

Lemma simulate_sectors_spec rs lap nums :
  forall results total ws st results' total' ws' st',
    simulate_sectors rs lap nums (results, total, ws) st
    = (Ok (results', total', ws'), st') ->
    exists new,
      results' = results ++ new
      /\ map sector_number new = nums
      /\ Forall (records_segment (circuit (self st))
                   (fuel_load (car (self st)))) new
      /\ total' == total + sum (map time new)
      /\ self st'
         = with_car (self st)
             (after_segments lap (map category new) (car (self st))).
Proof.
  induction nums as [|n nums IH];
    intros results total ws st results' total' ws' st' H.
  - injection H as <- <- _ <-. exists []. rewrite app_nil_r.
    split; [reflexivity|]. split; [reflexivity|].
    split; [constructor|]. split; [unfold sum; simpl; ring|].
    destruct st as [[] ?]. reflexivity.
  - simpl in H. unfold mbind, method_bind, Method.bind in H.
    destruct (calculate_sector_time_circuit rs n lap st) as [Hc Hf].
    destruct (calculate_sector_time rs n lap st) as [[r|e] st1] eqn:E;
      [|discriminate].
    simpl in Hc, Hf.
    apply calculate_sector_time_result in E.
    destruct E as (E1 & E2 & E3 & E4 & E5 & E6 & E7).
    apply IH in H. destruct H as (new & -> & Hn & Hall & Hsum & Hst).
    exists (r :: new). rewrite <- app_assoc. simpl.
    split; [reflexivity|]. split; [rewrite E1, Hn; reflexivity|].
    split; [|split].
    + constructor.
      * unfold records_segment. rewrite E1. auto.
      * rewrite Hc, Hf in Hall. exact Hall.
    + rewrite Hsum, sum_cons. ring.
    + rewrite Hst, E7. reflexivity.
Qed.

Lemma after_segments_keeps lap tys c :
  fuel_load (after_segments lap tys c) = fuel_load c
  /\ (tys <> [] -> current_lap (after_segments lap tys c) = lap).
Proof.
  revert c. induction tys as [|ty tys IH]; intros c.
  - split; [reflexivity|]. intros H. contradiction.
  - destruct (IH (snd (update_tire_state lap ty c))) as [IH1 IH2].
    split; [exact IH1|]. intros _.
    destruct tys as [|ty' tys']; [reflexivity|].
    apply IH2. discriminate.
Qed.

(** What a lap that is returned is made of, and what it leaves. *)
Lemma simulate_full_lap_spec rs lap st r st' :
  simulate_full_lap rs lap st = (Ok r, st') ->
  map sector_number (sector_results r)
  = range1 (circuit.get_total_sectors (circuit (self st)))
  /\ sector_results r <> []
  /\ Forall (records_segment (circuit (self st)) (fuel_load (car (self st))))
            (sector_results r)
  /\ sector_times r = map time (sector_results r)
  /\ total_time r == sum (sector_times r)
  /\ lr_lap_number r = lap
  /\ self st'
     = with_car (self st)
         (after_segments lap (map category (sector_results r)) (car (self st)))
  /\ _calculate_lap_statistics (self st') (sector_results r) (total_time r)
     = Ok (lap_statistics r)
  /\ c_fuel_load (conditions r) = fuel_load (car (self st)).
Proof.
  intros H.
  unfold simulate_full_lap, mbind, method_bind, Method.bind,
    Method.get, Method.lift, mret, method_ret, Method.ret in H.
  destruct (simulate_sectors _ _ _ _ _)
    as [[[[results total] ws]|e] st1] eqn:E; [|discriminate].
  apply simulate_sectors_spec in E.
  destruct E as (new & Hr & Hn & Hall & Hsum & Hst). simpl in Hr. subst results.
  destruct (_calculate_lap_statistics _ _ _) as [stats|] eqn:Es;
    [|discriminate].
  injection H as <- <-. simpl.
  split; [exact Hn|]. split.
  { intros ->. discriminate Es. }
  split; [exact Hall|]. split; [reflexivity|].
  split; [rewrite Hsum; change 0.0 with (0 # 10); ring|].
  split; [reflexivity|]. split; [exact Hst|]. split; [exact Es|].
  rewrite Hst. simpl. apply after_segments_keeps.
Qed.

Lemma sum_nonneg (l : list Q) : Forall (Qle 0) l -> 0 <= sum l.
Proof.
  induction 1 as [|x l Hx _ IH]; [unfold sum; simpl; lra|].
  rewrite sum_cons. lra.
Qed.

End LapShape.

(** X19: a lap that is returned has one segment result for each number from 1
    to the count of segments of the track, in order, each the result of
    the segment of that number; the segment times are not negative and
    the total time is their sum; so a track that has no segment, or whose
    segments are not numbered 1 to their count, gives no lap. *)
Theorem lap_result_shape
        (random_source : nat -> Q) (lap : Z) (st st' : lap_simulator.State)
        (r : lap_simulator.LapResult) :
  lap_simulator.simulate_full_lap random_source lap st = (Ok r, st') ->
  map lap_simulator.sector_number (lap_simulator.sector_results r)
  = lap_simulator.range1
      (circuit.get_total_sectors (lap_simulator.circuit (lap_simulator.self st)))
  /\ (1 <= circuit.get_total_sectors
             (lap_simulator.circuit (lap_simulator.self st)))%nat
  /\ Forall (records_segment
               (lap_simulator.circuit (lap_simulator.self st))
               (car.fuel_load (lap_simulator.car (lap_simulator.self st))))
            (lap_simulator.sector_results r)
  /\ lap_simulator.sector_times r
     = map lap_simulator.time (lap_simulator.sector_results r)
  /\ lap_simulator.total_time r == sum (lap_simulator.sector_times r)
  /\ 0 <= lap_simulator.total_time r
  /\ lap_simulator.lr_lap_number r = lap.
Proof.
  intros H. apply simulate_full_lap_spec in H.
  destruct H as (Hn & Hne & Hall & Hts & Ht & Hlap & _).
  split; [exact Hn|]. split.
  { apply (f_equal (@List.length Z)) in Hn.
    rewrite length_map, range1_length in Hn.
    destruct (lap_simulator.sector_results r); [contradiction|].
    simpl in Hn. lia. }
  split; [exact Hall|]. split; [exact Hts|]. split; [exact Ht|].
  split; [|exact Hlap].
  rewrite Ht, Hts. apply sum_nonneg.
  clear -Hall. induction Hall as [|x l Hx _ IH]; simpl; constructor.
  - apply Hx.
  - exact IH.
Qed.

Lemma lap_result_shape_witness :
  exists r st',
    lap_simulator.simulate_full_lap Demo.half 1 Demo2.start = (Ok r, st')
    /\ lap_simulator.total_time r == sum (lap_simulator.sector_times r)
    /\ List.length (lap_simulator.sector_results r) = 2%nat.
Proof.
  destruct (lap_simulator.simulate_full_lap Demo.half 1 Demo2.start)
    as [[r|e] st'] eqn:E.
  - exists r, st'. split; [reflexivity|].
    destruct (lap_result_shape Demo.half 1 Demo2.start st' r E)
      as (Hn & _ & _ & _ & Ht & _).
    split; [exact Ht|].
    apply (f_equal (@List.length Z)) in Hn.
    rewrite length_map in Hn. exact Hn.
  - vm_compute in E. discriminate E.
Defined.

Section Extremes.
Import PyList.

Lemma nth_snoc_last (pre : list Q) (x : Q) (l : list Q) :
  nth (List.length pre) (pre ++ x :: l) 0 = x.
Proof. rewrite app_nth2, Nat.sub_diag; [reflexivity|lia]. Qed.

Lemma nth_prefix (pre l : list Q) (j : nat) :
  (j < List.length pre)%nat -> nth j (pre ++ l) 0 = nth j pre 0.
Proof. intros H. apply app_nth1. exact H. Qed.

(** The scan of [min(range(len(l)), key=...)] and of [min(l)] from a
    prefix [pre] whose first smallest element is at [best_i]. *)
Lemma argmin_from_spec (l : list Q) :
  forall (pre : list Q) (best_i : nat) (best : Q),
    (best_i < List.length pre)%nat ->
    nth best_i pre 0 = best ->
    (forall j, (j < List.length pre)%nat -> best <= nth j pre 0) ->
    (forall j, (j < best_i)%nat -> best < nth j pre 0) ->
    let k := argmin_from best_i best (List.length pre) l in
    (k < List.length (pre ++ l))%nat
    /\ (forall j, (j < List.length (pre ++ l))%nat ->
                  nth k (pre ++ l) 0 <= nth j (pre ++ l) 0)
    /\ (forall j, (j < k)%nat -> nth k (pre ++ l) 0 < nth j (pre ++ l) 0)
    /\ fold_left (fun best y => if ltb y best then y else best) l best
       = nth k (pre ++ l) 0.
Proof.
  induction l as [|x l IH]; intros pre best_i best Hi Hb Hall Hbefore; simpl.
  - rewrite app_nil_r. subst best. repeat split; auto.
  - assert (Hlen : List.length (pre ++ [x]) = S (List.length pre))
      by (rewrite length_app; simpl; lia).
    assert (Happ : (pre ++ [x]) ++ l = pre ++ x :: l)
      by (rewrite <- app_assoc; reflexivity).
    destruct (ltb x best) eqn:E.
    + apply ltb_iff in E.
      specialize (IH (pre ++ [x]) (List.length pre) x).
      rewrite Hlen, Happ in IH. apply IH.
      * lia.
      * apply nth_snoc_last.
      * intros j Hj. destruct (Nat.eq_dec j (List.length pre)) as [->|Hne].
        -- rewrite nth_snoc_last. lra.
        -- rewrite nth_prefix by lia. specialize (Hall j ltac:(lia)). lra.
      * intros j Hj. rewrite nth_prefix by lia.
        specialize (Hall j Hj). lra.
    + apply ltb_false_iff in E.
      specialize (IH (pre ++ [x]) best_i best).
      rewrite Hlen, Happ in IH. apply IH.
      * lia.
      * rewrite nth_prefix by lia. exact Hb.
      * intros j Hj. destruct (Nat.eq_dec j (List.length pre)) as [->|Hne].
        -- rewrite nth_snoc_last. exact E.
        -- rewrite nth_prefix by lia. apply Hall. lia.
      * intros j Hj. rewrite nth_prefix by lia. apply Hbefore. exact Hj.
Qed.

Lemma argmax_from_spec (l : list Q) :
  forall (pre : list Q) (best_i : nat) (best : Q),
    (best_i < List.length pre)%nat ->
    nth best_i pre 0 = best ->
    (forall j, (j < List.length pre)%nat -> nth j pre 0 <= best) ->
    (forall j, (j < best_i)%nat -> nth j pre 0 < best) ->
    let k := argmax_from best_i best (List.length pre) l in
    (k < List.length (pre ++ l))%nat
    /\ (forall j, (j < List.length (pre ++ l))%nat ->
                  nth j (pre ++ l) 0 <= nth k (pre ++ l) 0)
    /\ (forall j, (j < k)%nat -> nth j (pre ++ l) 0 < nth k (pre ++ l) 0)
    /\ fold_left (fun best y => if ltb best y then y else best) l best
       = nth k (pre ++ l) 0.
Proof.
  induction l as [|x l IH]; intros pre best_i best Hi Hb Hall Hbefore; simpl.
  - rewrite app_nil_r. subst best. repeat split; auto.
  - assert (Hlen : List.length (pre ++ [x]) = S (List.length pre))
      by (rewrite length_app; simpl; lia).
    assert (Happ : (pre ++ [x]) ++ l = pre ++ x :: l)
      by (rewrite <- app_assoc; reflexivity).
    destruct (ltb best x) eqn:E.
    + apply ltb_iff in E.
      specialize (IH (pre ++ [x]) (List.length pre) x).
      rewrite Hlen, Happ in IH. apply IH.
      * lia.
      * apply nth_snoc_last.
      * intros j Hj. destruct (Nat.eq_dec j (List.length pre)) as [->|Hne].
        -- rewrite nth_snoc_last. lra.
        -- rewrite nth_prefix by lia. specialize (Hall j ltac:(lia)). lra.
      * intros j Hj. rewrite nth_prefix by lia.
        specialize (Hall j Hj). lra.
    + apply ltb_false_iff in E.
      specialize (IH (pre ++ [x]) best_i best).
      rewrite Hlen, Happ in IH. apply IH.
      * lia.
      * rewrite nth_prefix by lia. exact Hb.
      * intros j Hj. destruct (Nat.eq_dec j (List.length pre)) as [->|Hne].
        -- rewrite nth_snoc_last. exact E.
        -- rewrite nth_prefix by lia. apply Hall. lia.
      * intros j Hj. rewrite nth_prefix by lia. apply Hbefore. exact Hj.
Qed.

(** [min(range(len(l)), key=...)] is the first index of a smallest
    element, and [min(l)] is the element there. *)
Lemma argmin_spec (l : list Q) (k : nat) :
  argmin l = Ok k ->
  (k < List.length l)%nat
  /\ (forall j, (j < List.length l)%nat -> nth k l 0 <= nth j l 0)
  /\ (forall j, (j < k)%nat -> nth k l 0 < nth j l 0)
  /\ minimum l = Ok (nth k l 0).
Proof.
  destruct l as [|x l]; [discriminate|]. intros H. injection H as <-.
  destruct (argmin_from_spec l [x] 0 x) as (H1 & H2 & H3 & H4).
  - simpl. lia.
  - reflexivity.
  - intros j Hj. simpl in Hj. destruct j; [simpl; lra|lia].
  - intros j Hj. lia.
  - simpl in *. repeat split; auto. rewrite H4. reflexivity.
Qed.

Lemma argmax_spec (l : list Q) (k : nat) :
  argmax l = Ok k ->
  (k < List.length l)%nat
  /\ (forall j, (j < List.length l)%nat -> nth j l 0 <= nth k l 0)
  /\ (forall j, (j < k)%nat -> nth j l 0 < nth k l 0)
  /\ maximum l = Ok (nth k l 0).
Proof.
  destruct l as [|x l]; [discriminate|]. intros H. injection H as <-.
  destruct (argmax_from_spec l [x] 0 x) as (H1 & H2 & H3 & H4).
  - simpl. lia.
  - reflexivity.
  - intros j Hj. simpl in Hj. destruct j; [simpl; lra|lia].
  - intros j Hj. lia.
  - simpl in *. repeat split; auto. rewrite H4. reflexivity.
Qed.

End Extremes.

(** The statistics of a list of segment results: the fastest and the
    slowest segment are counted from 1 and are the first segment with
    the smallest, and the first with the largest time; the balance is
    the difference of these two times; the theoretical best is the sum of
    the base times and the average is the total over the count. *)
Lemma calculate_lap_statistics_spec
      (self : lap_simulator.LapSimulator)
      (results : list lap_simulator.SectorResult) (total : Q)
      (s : lap_simulator.LapStatistics) :
  lap_simulator._calculate_lap_statistics self results total = Ok s ->
  let ts := map lap_simulator.time results in
  exists kf ks : nat,
    lap_simulator.fastest_sector s = S kf
    /\ lap_simulator.slowest_sector s = S ks
    /\ (kf < List.length ts)%nat /\ (ks < List.length ts)%nat
    /\ (forall j, (j < List.length ts)%nat -> nth kf ts 0 <= nth j ts 0)
    /\ (forall j, (j < kf)%nat -> nth kf ts 0 < nth j ts 0)
    /\ (forall j, (j < List.length ts)%nat -> nth j ts 0 <= nth ks ts 0)
    /\ (forall j, (j < ks)%nat -> nth j ts 0 < nth ks ts 0)
    /\ lap_simulator.sector_balance s = nth ks ts 0 - nth kf ts 0
    /\ 0 <= lap_simulator.sector_balance s
    /\ lap_simulator.theoretical_best s
       = sum (map lap_simulator.base_time results)
    /\ lap_simulator.time_delta_to_theoretical s
       = total - lap_simulator.theoretical_best s
    /\ lap_simulator.average_sector_time s
       = total / inject_Z (Z.of_nat (List.length results)).
Proof.
  intros H ts.
  unfold lap_simulator._calculate_lap_statistics, mbind, result_bind in H.
  fold ts in H.
  destruct (PyList.argmin ts) as [kf|] eqn:Ef; [|discriminate].
  destruct (PyList.argmax ts) as [ks|] eqn:Es; [|discriminate].
  destruct (car.get_tire_performance _ _) as [tp|]; [|discriminate].
  destruct (truediv _ _) as [fw|]; [|discriminate].
  destruct (subscript _) as [wg|]; [|discriminate].
  apply argmin_spec in Ef. destruct Ef as (F1 & F2 & F3 & F4).
  apply argmax_spec in Es. destruct Es as (S1 & S2 & S3 & S4).
  rewrite F4, S4 in H.
  destruct (truediv total _) as [avg|] eqn:Ea; [|discriminate].
  apply truediv_inv in Ea. destruct Ea as (Hn & ->).
  injection H as <-. simpl.
  exists kf, ks.
  split; [lia|]. split; [lia|].
  repeat (split; [assumption|]).
  split; [reflexivity|].
  split; [specialize (S2 kf F1); lra|].
  split; [reflexivity|]. split; reflexivity.
Qed.

Lemma nth_range1 (n k : nat) :
  (k < n)%nat -> nth k (lap_simulator.range1 n) 0%Z = Z.of_nat (S k).
Proof.
  intros H. unfold lap_simulator.range1.
  rewrite nth_lookup, (lookup_seqZ_lt 1 (Z.of_nat n) k) by lia.
  simpl. lia.
Qed.

(** X20: the statistics of a returned lap name, as fastest segment, the number
    of the first segment with the smallest time and, as slowest segment,
    the number of the first one with the largest time; the balance is the
    difference of these two times and is not negative; the theoretical
    best is the sum of the segments' base times, the delta the total time
    less that sum, and the average segment time is the sum of the
    segment times over their count. *)
Theorem lap_statistics_of_lap
        (random_source : nat -> Q) (lap : Z) (st st' : lap_simulator.State)
        (r : lap_simulator.LapResult) :
  lap_simulator.simulate_full_lap random_source lap st = (Ok r, st') ->
  let s := lap_simulator.lap_statistics r in
  let ts := lap_simulator.sector_times r in
  let numbers :=
    map lap_simulator.sector_number (lap_simulator.sector_results r) in
  exists kf ks : nat,
    (kf < List.length ts)%nat /\ (ks < List.length ts)%nat
    /\ nth kf numbers 0%Z = Z.of_nat (lap_simulator.fastest_sector s)
    /\ nth ks numbers 0%Z = Z.of_nat (lap_simulator.slowest_sector s)
    /\ (forall j, (j < List.length ts)%nat -> nth kf ts 0 <= nth j ts 0)
    /\ (forall j, (j < kf)%nat -> nth kf ts 0 < nth j ts 0)
    /\ (forall j, (j < List.length ts)%nat -> nth j ts 0 <= nth ks ts 0)
    /\ (forall j, (j < ks)%nat -> nth j ts 0 < nth ks ts 0)
    /\ lap_simulator.sector_balance s = nth ks ts 0 - nth kf ts 0
    /\ 0 <= lap_simulator.sector_balance s
    /\ lap_simulator.theoretical_best s
       = sum (map lap_simulator.base_time (lap_simulator.sector_results r))
    /\ lap_simulator.time_delta_to_theoretical s
       = lap_simulator.total_time r - lap_simulator.theoretical_best s
    /\ lap_simulator.average_sector_time s
       == sum ts / inject_Z (Z.of_nat (List.length ts)).
Proof.
  intros H s ts numbers. subst s ts numbers.
  apply simulate_full_lap_spec in H.
  destruct H as (Hn & _ & _ & Hts & Ht & _ & _ & Es & _).
  apply calculate_lap_statistics_spec in Es. simpl in Es.
  destruct Es as (kf & ks & Ef & Es & F1 & S1 & F2 & F3 & S2 & S3
                  & Hb & Hb0 & Htb & Hd & Havg).
  rewrite <- Hts in *.
  exists kf, ks.
  assert (Hlen : List.length (lap_simulator.sector_times r)
                 = circuit.get_total_sectors
                     (lap_simulator.circuit (lap_simulator.self st))).
  { rewrite Hts, length_map.
    apply (f_equal (@List.length Z)) in Hn.
    rewrite length_map, range1_length in Hn. exact Hn. }
  split; [exact F1|]. split; [exact S1|].
  split; [rewrite Hn, Ef; apply nth_range1; lia|].
  split; [rewrite Hn, Es; apply nth_range1; lia|].
  repeat (split; [assumption|]).
  rewrite Havg, <- Ht, Hts, !length_map. reflexivity.
Qed.

Lemma lap_statistics_of_lap_witness :
  exists r st',
    lap_simulator.simulate_full_lap Demo.half 1 Demo2.start = (Ok r, st')
    /\ 0 <= lap_simulator.sector_balance (lap_simulator.lap_statistics r).
Proof.
  destruct (lap_simulator.simulate_full_lap Demo.half 1 Demo2.start)
    as [[r|e] st'] eqn:E.
  - exists r, st'. split; [reflexivity|].
    destruct (lap_statistics_of_lap Demo.half 1 Demo2.start st' r E)
      as (kf & ks & H). apply H.
  - vm_compute in E. discriminate E.
Defined.

Lemma calculate_lap_statistics_fuel
      (self : lap_simulator.LapSimulator)
      (results : list lap_simulator.SectorResult) (total : Q)
      (s : lap_simulator.LapStatistics) :
  lap_simulator._calculate_lap_statistics self results total = Ok s ->
  lap_simulator.estimated_fuel_remaining s
  = max 0 (car.fuel_load (lap_simulator.car self)
           - 2.8 * inject_Z (car.current_lap (lap_simulator.car self))).
Proof.
  intros H.
  unfold lap_simulator._calculate_lap_statistics, mbind, result_bind in H.
  destruct (PyList.argmin _); [|discriminate].
  destruct (PyList.argmax _); [|discriminate].
  destruct (car.get_tire_performance _ _); [|discriminate].
  destruct (truediv _ _); [|discriminate].
  destruct (subscript _); [|discriminate].
  destruct (PyList.maximum _); [|discriminate].
  destruct (PyList.minimum _); [|discriminate].
  destruct (truediv total _); [|discriminate].
  injection H as <-. reflexivity.
Qed.

(** X21: a lap that is returned leaves the simulator as it was but for its
    car, and the car as the calls of [update_tire_state] of its segments
    leave it: the current lap of the car is the number of the lap and its
    fuel load is what it was.  The fuel the statistics estimate as
    remaining is the fuel load less 2.8 for each lap up to this one, and
    0 if that is negative, whatever the engine mode. *)
Theorem lap_leaves_car
        (random_source : nat -> Q) (lap : Z) (st st' : lap_simulator.State)
        (r : lap_simulator.LapResult) :
  lap_simulator.simulate_full_lap random_source lap st = (Ok r, st') ->
  lap_simulator.self st'
  = lap_simulator.with_car (lap_simulator.self st)
      (after_segments lap (map category (lap_simulator.sector_results r))
         (lap_simulator.car (lap_simulator.self st)))
  /\ car.current_lap (lap_simulator.car (lap_simulator.self st')) = lap
  /\ car.fuel_load (lap_simulator.car (lap_simulator.self st'))
     = car.fuel_load (lap_simulator.car (lap_simulator.self st))
  /\ lap_simulator.estimated_fuel_remaining (lap_simulator.lap_statistics r)
     = max 0 (car.fuel_load (lap_simulator.car (lap_simulator.self st))
              - 2.8 * inject_Z lap)
  /\ 0 <= lap_simulator.estimated_fuel_remaining
            (lap_simulator.lap_statistics r)
  /\ lap_simulator.c_fuel_load (lap_simulator.conditions r)
     = car.fuel_load (lap_simulator.car (lap_simulator.self st)).
Proof.
  intros H. apply simulate_full_lap_spec in H.
  destruct H as (_ & Hne & _ & _ & _ & _ & Hst & Es & Hc).
  apply calculate_lap_statistics_fuel in Es.
  destruct (after_segments_keeps lap
              (map category (lap_simulator.sector_results r))
              (lap_simulator.car (lap_simulator.self st))) as [Hf Hl].
  assert (Hl' : car.current_lap (lap_simulator.car (lap_simulator.self st'))
                = lap).
  { rewrite Hst. simpl. apply Hl.
    destruct (lap_simulator.sector_results r); [contradiction|discriminate]. }
  assert (Hf' : car.fuel_load (lap_simulator.car (lap_simulator.self st'))
                = car.fuel_load (lap_simulator.car (lap_simulator.self st))).
  { rewrite Hst. simpl. exact Hf. }
  rewrite Hl', Hf' in Es.
  split; [exact Hst|]. split; [exact Hl'|]. split; [exact Hf'|].
  split; [exact Es|]. split; [rewrite Es; apply max_lower|exact Hc].
Qed.

Lemma lap_leaves_car_witness :
  exists r st',
    lap_simulator.simulate_full_lap Demo.half 7 Demo2.start = (Ok r, st')
    /\ lap_simulator.estimated_fuel_remaining (lap_simulator.lap_statistics r)
       = max 0 (50 - 2.8 * 7)
    /\ car.current_lap (lap_simulator.car (lap_simulator.self st')) = 7%Z.
Proof.
  destruct (lap_simulator.simulate_full_lap Demo.half 7 Demo2.start)
    as [[r|e] st'] eqn:E.
  - exists r, st'. split; [reflexivity|].
    destruct (lap_leaves_car Demo.half 7 Demo2.start st' r E)
      as (_ & Hl & _ & He & _).
    split; [exact He|exact Hl].
  - vm_compute in E. discriminate E.
Defined.

Section Stint.
Import car lap_simulator.

Lemma simulate_laps_spec rs laps :
  forall acc st results st',
    simulate_laps rs laps acc st = (Ok results, st') ->
    exists new,
      results = acc ++ new
      /\ map lr_lap_number new = laps
      /\ map (fun r => estimated_fuel_remaining (lap_statistics r)) new
         = map (fun lap => max 0 (fuel_load (car (self st)) - 2.8 * inject_Z lap))
               laps
      /\ Forall (fun r => sector_results r <> []
                          /\ total_time r == sum (sector_times r)) new
      /\ circuit (self st') = circuit (self st)
      /\ fuel_load (car (self st')) = fuel_load (car (self st))
      /\ (laps = [] -> st' = st)
      /\ (forall d, laps <> [] -> current_lap (car (self st')) = List.last laps d).
Proof.
  induction laps as [|lap laps IH]; intros acc st results st' H.
  - injection H as <- <-. exists []. rewrite app_nil_r.
    repeat split; auto. intros d Hd. contradiction.
  - simpl in H. unfold mbind, method_bind, Method.bind in H.
    destruct (simulate_full_lap rs lap st) as [[r|e] st1] eqn:E;
      [|discriminate].
    pose proof (simulate_full_lap_spec _ _ _ _ _ E)
      as (_ & Hne & _ & _ & Ht & Hlap & Hst & Es & _).
    apply calculate_lap_statistics_fuel in Es.
    destruct (after_segments_keeps lap (map category (sector_results r))
                (car (self st))) as [Hf Hl].
    rewrite Hst in Es. simpl in Es. rewrite Hf, Hl in Es
      by (destruct (sector_results r); [contradiction|discriminate]).
    unfold on_car, set_current_lap, Method.modify in H. simpl in H.
    apply IH in H.
    destruct H as (new & -> & Hn & He & Hall & Hc & Hfl & Hsame & Hlast).
    simpl in Hc, Hfl, He, Hlast.
    exists (r :: new). rewrite <- app_assoc. simpl.
    split; [reflexivity|]. split; [rewrite Hlap, Hn; reflexivity|].
    split; [rewrite Es, He, Hst; simpl; rewrite Hf; reflexivity|].
    split; [constructor; auto|].
    split; [rewrite Hc, Hst; reflexivity|].
    split; [rewrite Hfl, Hst; simpl; exact Hf|].
    split; [discriminate|].
    intros d _. destruct laps as [|lap' laps'].
    + rewrite (Hsame eq_refl). reflexivity.
    + apply Hlast. discriminate.
Qed.

Lemma last_seqZ (start : Z) (n : nat) (d : Z) :
  List.last (seqZ start (Z.of_nat (S n))) d = (start + Z.of_nat n)%Z.
Proof.
  revert start. induction n as [|n IH]; intros start.
  - unfold seqZ. simpl. lia.
  - rewrite seqZ_cons by lia.
    replace (Z.pred (Z.of_nat (S (S n)))) with (Z.of_nat (S n)) by lia.
    specialize (IH (Z.succ start)).
    destruct (seqZ (Z.succ start) (Z.of_nat (S n))) eqn:E.
    + apply (f_equal (@List.length Z)) in E. rewrite length_seqZ in E.
      simpl in E. lia.
    + change (List.last (z :: l) d = (start + Z.of_nat (S n))%Z).
      rewrite IH. lia.
Qed.

End Stint.

(** X22: a stint that is returned has one lap for each lap number from the
    start lap on, in order, [num_laps] of them, each with its total time
    the sum of its segment times; the fuel estimated as remaining falls
    from lap to lap by 2.8 from the fuel load, which the stint leaves as
    it was, as it does the track; afterwards the current lap of the car
    is the last lap of the stint, and a stint of no lap changes
    nothing. *)
Theorem stint_laps
        (random_source : nat -> Q) (num_laps : nat) (start_lap : Z)
        (st st' : lap_simulator.State)
        (results : list lap_simulator.LapResult) :
  lap_simulator.simulate_stint random_source num_laps start_lap st
  = (Ok results, st') ->
  map lap_simulator.lr_lap_number results = seqZ start_lap (Z.of_nat num_laps)
  /\ List.length results = num_laps
  /\ map (fun r => lap_simulator.estimated_fuel_remaining
                     (lap_simulator.lap_statistics r)) results
     = map (fun lap =>
              max 0 (car.fuel_load (lap_simulator.car (lap_simulator.self st))
                     - 2.8 * inject_Z lap))
           (seqZ start_lap (Z.of_nat num_laps))
  /\ Forall (fun r => lap_simulator.sector_results r <> []
                      /\ lap_simulator.total_time r
                         == sum (lap_simulator.sector_times r)) results
  /\ lap_simulator.circuit (lap_simulator.self st')
     = lap_simulator.circuit (lap_simulator.self st)
  /\ car.fuel_load (lap_simulator.car (lap_simulator.self st'))
     = car.fuel_load (lap_simulator.car (lap_simulator.self st))
  /\ (num_laps = 0%nat -> st' = st)
  /\ (num_laps <> 0%nat ->
      car.current_lap (lap_simulator.car (lap_simulator.self st'))
      = (start_lap + Z.of_nat num_laps - 1)%Z).
Proof.
  intros H. unfold lap_simulator.simulate_stint in H.
  apply simulate_laps_spec in H.
  destruct H as (new & -> & Hn & He & Hall & Hc & Hf & Hsame & Hlast).
  simpl.
  split; [exact Hn|]. split.
  { apply (f_equal (@List.length Z)) in Hn.
    rewrite length_map, length_seqZ in Hn. lia. }
  split; [exact He|]. split; [exact Hall|]. split; [exact Hc|].
  split; [exact Hf|]. split.
  - intros ->. apply Hsame. reflexivity.
  - intros Hnz. destruct num_laps as [|n]; [contradiction|].
    rewrite (Hlast 0%Z), last_seqZ; [lia|].
    intros E. apply (f_equal (@List.length Z)) in E.
    rewrite length_seqZ in E. simpl in E. lia.
Qed.

Lemma stint_laps_witness :
  exists results st',
    lap_simulator.simulate_stint Demo.half 3 5 Demo2.start = (Ok results, st')
    /\ map lap_simulator.lr_lap_number results = [5; 6; 7]%Z
    /\ car.current_lap (lap_simulator.car (lap_simulator.self st')) = 7%Z.
Proof.
  destruct (lap_simulator.simulate_stint Demo.half 3 5 Demo2.start)
    as [[results|e] st'] eqn:E.
  - exists results, st'. split; [reflexivity|].
    destruct (stint_laps Demo.half 3 5 Demo2.start st' results E)
      as (Hn & _ & _ & _ & _ & _ & _ & Hl).
    split; [exact Hn|]. apply Hl. discriminate.
  - vm_compute in E. discriminate E.
Defined.

(* ===================================================================== *)
(** * A track without segments *)
(* ===================================================================== *)

(** X23: a track that has no segment gives no lap and no summary: the lap
    raises [ValueError] (the smallest of no segment times) and leaves the
    simulator as it was, the classification and the summary of the track
    raise [ZeroDivisionError] (the average speed over no segment), and so
    does the setup suggestion.  [create_custom_circuit] builds such a
    track from an empty list of segments without complaint. *)
Theorem track_without_segments (c : circuit.Circuit) :
  circuit.sectors c = [] ->
  circuit.get_total_sectors c = 0%nat
  /\ circuit_rest._classify_circuit_type c = Raise ZeroDivisionError
  /\ circuit_rest.get_circuit_info c = Raise ZeroDivisionError
  /\ (forall random_source lap st,
         lap_simulator.circuit (lap_simulator.self st) = c ->
         lap_simulator.simulate_full_lap random_source lap st
         = (Raise ValueError, st))
  /\ (forall self,
         lap_simulator.circuit self = c ->
         lap_simulator_rest.get_optimal_setup_suggestions self
         = lap_simulator_rest.Raises ZeroDivisionError).
Proof.
  intros H.
  assert (H0 : circuit.get_total_sectors c = 0%nat)
    by (unfold circuit.get_total_sectors; rewrite H; reflexivity).
  assert (Hc : circuit_rest._classify_circuit_type c = Raise ZeroDivisionError).
  { unfold circuit_rest._classify_circuit_type. rewrite H0. reflexivity. }
  assert (Hi : circuit_rest.get_circuit_info c = Raise ZeroDivisionError).
  { unfold circuit_rest.get_circuit_info. rewrite H0. simpl. rewrite Hc.
    reflexivity. }
  split; [exact H0|]. split; [exact Hc|]. split; [exact Hi|]. split.
  - intros rs lap st <-.
    unfold lap_simulator.simulate_full_lap, mbind, method_bind, Method.bind,
      Method.get. simpl. rewrite H0. destruct st. reflexivity.
  - intros self <-.
    unfold lap_simulator_rest.get_optimal_setup_suggestions. rewrite Hi.
    reflexivity.
Qed.

Lemma track_without_segments_witness :
  circuit.sectors (circuit.create_custom_circuit "empty" 5000 []) = []
  /\ circuit_rest.get_circuit_info (circuit.create_custom_circuit "empty" 5000 [])
     = Raise ZeroDivisionError.
Proof.
  split; [reflexivity|].
  apply (track_without_segments (circuit.create_custom_circuit "empty" 5000 [])).
  reflexivity.
Defined.

(* ===================================================================== *)
(** * Setup suggestions *)
(* ===================================================================== *)

Lemma classify_circuit_type_cases (c : circuit.Circuit) (ty : string) :
  circuit_rest._classify_circuit_type c = Ok ty ->
  ty = "High-speed circuit"%string
  \/ ty = "Street/Technical circuit"%string
  \/ ty = "Mixed circuit"%string.
Proof.
  unfold circuit_rest._classify_circuit_type, mbind, result_bind.
  destruct (circuit_rest.sum_speed_estimates _ _ _) as [total|];
    [|discriminate].
  cbn. destruct (truediv total _) as [avg|]; [|discriminate].
  intros H. injection H as <-.
  destruct (ltb 220 avg); [auto|]. destruct (ltb avg 140); auto.
Qed.

(** X24: the setup that is suggested is one that [set_setup] accepts on every
    car: downforce 3 on a track classified as high-speed, 8 on a
    street/technical one and 5 on a mixed one, engine mode race and ERS
    auto, with one line of reasoning.  In dry weather the tire strategy
    is soft for qualifying and medium for the race start whatever the
    difficulty of the track; in any other weather it is the first optimal
    compound of the weather, and the call fails if the weather lists
    none. *)
Theorem setup_suggestions_are_accepted
        (self : lap_simulator.LapSimulator)
        (s : lap_simulator_rest.Suggestions) (c : car.Car) :
  lap_simulator_rest.get_optimal_setup_suggestions self
  = lap_simulator_rest.Returns s ->
  let setup := lap_simulator_rest.recommended_setup s in
  let strategy := lap_simulator_rest.tire_strategy s in
  let circuit_type :=
    circuit_rest.ci_circuit_type (lap_simulator_rest.circuit_analysis s) in
  fst (car.set_setup (lap_simulator_rest.rs_downforce setup)
         (lap_simulator_rest.rs_engine_mode setup)
         (lap_simulator_rest.rs_ers_deployment setup) c) = Ok tt
  /\ circuit_rest.get_circuit_info (lap_simulator.circuit self)
     = Ok (lap_simulator_rest.circuit_analysis s)
  /\ (circuit_type = "High-speed circuit"%string
      /\ lap_simulator_rest.rs_downforce setup = 3%Z
      \/ circuit_type = "Street/Technical circuit"%string
         /\ lap_simulator_rest.rs_downforce setup = 8%Z
      \/ circuit_type = "Mixed circuit"%string
         /\ lap_simulator_rest.rs_downforce setup = 5%Z)
  /\ lap_simulator_rest.rs_engine_mode setup = "race"%string
  /\ lap_simulator_rest.rs_ers_deployment setup = "auto"%string
  /\ List.length (lap_simulator_rest.reasoning s) = 1%nat
  /\ (lap_simulator.weather self = "dry"%string ->
      strategy
      = {| lap_simulator_rest.ts_qualifying := Some "soft"%string;
           lap_simulator_rest.ts_race_start := Some "medium"%string;
           lap_simulator_rest.ts_recommended := None |})
  /\ (lap_simulator.weather self <> "dry"%string ->
      exists tire rest,
        Weather.optimal_tire (lap_simulator.current_weather self)
        = Some (tire :: rest)
        /\ strategy
           = {| lap_simulator_rest.ts_qualifying := None;
                lap_simulator_rest.ts_race_start := None;
                lap_simulator_rest.ts_recommended := Some tire |}).
Proof.
  intros H setup strategy circuit_type. subst setup strategy circuit_type.
  unfold lap_simulator_rest.get_optimal_setup_suggestions in H.
  destruct (circuit_rest.get_circuit_info _) as [info|] eqn:Ei;
    [|discriminate].
  assert (Hty : circuit_rest.ci_circuit_type info = "High-speed circuit"%string
                \/ circuit_rest.ci_circuit_type info
                   = "Street/Technical circuit"%string
                \/ circuit_rest.ci_circuit_type info = "Mixed circuit"%string).
  { unfold circuit_rest.get_circuit_info, mbind, result_bind in Ei.
    destruct (circuit_rest.collect_sector_info _ _ _) as [[si tt]|];
      [|discriminate].
    destruct (circuit_rest._classify_circuit_type _) as [ty|] eqn:Et;
      [|discriminate].
    injection Ei as <-. simpl. apply classify_circuit_type_cases in Et.
    exact Et. }
  destruct (String.eqb (lap_simulator.weather self) "dry") eqn:Ew.
  - apply String.eqb_eq in Ew.
    destruct Hty as [E|[E|E]]; rewrite E in H; cbn in H;
      destruct (ltb 0.8 _); injection H as <-; simpl;
      (split; [reflexivity|]); (split; [reflexivity|]);
      (split; [rewrite E; auto|]);
      repeat (split; [reflexivity|]);
      intros Hn; contradiction.
  - apply String.eqb_neq in Ew.
    destruct (Weather.optimal_tire _) as [[|tire rest]|] eqn:Eo;
      [destruct Hty as [E|[E|E]]; rewrite E in H; cbn in H; discriminate H
      | |destruct Hty as [E|[E|E]]; rewrite E in H; cbn in H; discriminate H].
    destruct Hty as [E|[E|E]]; rewrite E in H; cbn in H;
      injection H as <-; simpl;
      (split; [reflexivity|]); (split; [reflexivity|]);
      (split; [rewrite E; auto|]);
      (split; [reflexivity|]); (split; [reflexivity|]);
      (split; [reflexivity|]);
      (split; [intros Hn; contradiction|]);
      intros _; exists tire, rest; split; reflexivity.
Qed.

Lemma setup_suggestions_are_accepted_witness :
  exists s,
    lap_simulator_rest.get_optimal_setup_suggestions Demo2.simulator
    = lap_simulator_rest.Returns s
    /\ fst (car.set_setup
              (lap_simulator_rest.rs_downforce
                 (lap_simulator_rest.recommended_setup s))
              (lap_simulator_rest.rs_engine_mode
                 (lap_simulator_rest.recommended_setup s))
              (lap_simulator_rest.rs_ers_deployment
                 (lap_simulator_rest.recommended_setup s))
              Demo2.medium_car) = Ok tt.
Proof.
  destruct (lap_simulator_rest.get_optimal_setup_suggestions Demo2.simulator)
    as [s|e|] eqn:E.
  - exists s. split; [reflexivity|].
    apply (setup_suggestions_are_accepted Demo2.simulator s Demo2.medium_car E).
  - vm_compute in E. discriminate E.
  - vm_compute in E. discriminate E.
Defined.

(* ===================================================================== *)
(** * Two evaluations in a row *)
(* ===================================================================== *)

Section Again.
Import car lap_simulator.

(** The current lap of the car is overwritten by the first segment before
    anything reads it: a segment evaluated from two states that differ in
    it alone either fails in both before it touches the car, or gives the
    same outcome and the same state. *)
Lemma calculate_sector_time_current_lap rs n lap st1 st2 :
  same_but_current_lap st1 st2 ->
  calculate_sector_time rs n lap st1 = calculate_sector_time rs n lap st2
  \/ exists e,
       calculate_sector_time rs n lap st1 = (Raise e, st1)
       /\ calculate_sector_time rs n lap st2 = (Raise e, st2).
Proof.
  destruct st1 as [s1 d1], st2 as [s2 d2]. intros [Hd [l Hs]].
  simpl in Hd, Hs. subst d2 s2.
  unfold calculate_sector_time, uniform, random, mbind, method_bind,
    Method.bind, Method.get, Method.lift, Method.raise, mret, method_ret,
    Method.ret, on_car.
  change (circuit (self {| self := with_car s1 (snd (set_current_lap l (car s1)));
                           draws := d1 |}))
    with (circuit (self {| self := s1; draws := d1 |})).
  destruct (circuit.get_sector_base_time _ n) as [bt|e];
    [|right; exists e; split; reflexivity].
  destruct (circuit.get_sector_data _ n) as [sd|];
    [|right; exists ValueError; split; reflexivity].
  left. reflexivity.
Qed.


Lemma simulate_sectors_current_lap rs lap nums :
  forall acc st1 st2,
    same_but_current_lap st1 st2 ->
    fst (simulate_sectors rs lap nums acc st1)
    = fst (simulate_sectors rs lap nums acc st2)
    /\ (nums <> [] ->
        is_ok (fst (simulate_sectors rs lap nums acc st1)) = true ->
        snd (simulate_sectors rs lap nums acc st1)
        = snd (simulate_sectors rs lap nums acc st2)).
Proof.
  destruct nums as [|n nums]; intros [[results total] ws] st1 st2 H.
  - split; [reflexivity|]. intros Hne. contradiction.
  - simpl. unfold mbind, method_bind, Method.bind.
    destruct (calculate_sector_time_current_lap rs n lap st1 st2 H)
      as [E|(e & E1 & E2)].
    + rewrite E. split; [reflexivity|]. intros _ _. reflexivity.
    + rewrite E1, E2. simpl. split; [reflexivity|]. intros _ Hok.
      discriminate Hok.
Qed.

Lemma bind_get {A} (f : State -> Method State A) (st : State) :
  (Method.get ≫= f) st = f st st.
Proof. reflexivity. Qed.

Lemma bind_unfold {A B} (m : Method State A) (k : A -> Method State B)
      (st : State) :
  (m ≫= k) st
  = match m st with
    | (Ok a, st') => k a st'
    | (Raise e, st') => (Raise e, st')
    end.
Proof. reflexivity. Qed.

(** A lap evaluated from two states that differ in the current lap of the
    car alone has the same outcome. *)
Lemma simulate_full_lap_current_lap rs lap st1 st2 :
  same_but_current_lap st1 st2 ->
  fst (simulate_full_lap rs lap st1) = fst (simulate_full_lap rs lap st2).
Proof.
  intros H.
  assert (Hc : circuit (self st2) = circuit (self st1)).
  { destruct H as [_ [l ->]]. reflexivity. }
  unfold simulate_full_lap. rewrite !bind_get, Hc, !bind_unfold.
  destruct (simulate_sectors_current_lap rs lap
              (range1 (circuit.get_total_sectors (circuit (self st1))))
              ([], 0.0, []) st1 st2 H) as [Hf Hs].
  destruct (range1 (circuit.get_total_sectors (circuit (self st1))))
    as [|n nums] eqn:En.
  - reflexivity.
  - destruct (simulate_sectors rs lap (n :: nums) ([], 0.0, []) st1)
      as [[x|e] st1'] eqn:E1;
      destruct (simulate_sectors rs lap (n :: nums) ([], 0.0, []) st2)
        as [[y|e2] st2'] eqn:E2; simpl in Hf; try discriminate Hf.
    + injection Hf as <-. simpl in Hs.
      rewrite (Hs ltac:(discriminate) eq_refl). reflexivity.
    + simpl. injection Hf as <-. reflexivity.
Qed.

Lemma after_segments_fields lap tys c :
  tire_data (after_segments lap tys c) = tire_data c
  /\ tire_compound (after_segments lap tys c) = tire_compound c
  /\ car.downforce_level (after_segments lap tys c) = car.downforce_level c
  /\ engine_mode (after_segments lap tys c) = engine_mode c
  /\ ers_deployment (after_segments lap tys c) = ers_deployment c
  /\ base_weight (after_segments lap tys c) = base_weight c
  /\ power_unit_power (after_segments lap tys c) = power_unit_power c
  /\ drag_coefficient (after_segments lap tys c) = drag_coefficient c.
Proof.
  revert c. induction tys as [|ty tys IH]; intros c.
  - repeat split.
  - exact (IH (snd (update_tire_state lap ty c))).
Qed.

(** When the segments of a lap leave the tire temperature where it was,
    the car they leave differs from the one they found in its current lap
    alone. *)
Lemma after_segments_same_temperature lap tys c :
  tys <> [] ->
  car.tire_temperature (after_segments lap tys c) = car.tire_temperature c ->
  after_segments lap tys c = snd (set_current_lap lap c).
Proof.
  intros Hne Ht.
  destruct (after_segments_keeps lap tys c) as [Hf Hl]. specialize (Hl Hne).
  destruct (after_segments_fields lap tys c)
    as (H1 & H2 & H3 & H4 & H5 & H6 & H7 & H8).
  destruct (after_segments lap tys c). simpl in *. subst. reflexivity.
Qed.

End Again.

(** The evaluation of a lap moves the tire temperature of the car, so
    that a second evaluation of the same lap on the same simulator, with
    nothing done in between and the random source started again, is
    another lap: on the track of one slow segment the temperature falls
    from 90 to 88 degrees and the second lap is the slower one. *)
Lemma second_lap_on_the_used_car_differs :
  exists r1 st1 r2 st2,
    lap_simulator.simulate_full_lap Demo.half 1 Demo4.start = (Ok r1, st1)
    /\ lap_simulator.simulate_full_lap Demo.half 1 (replayed st1 0)
       = (Ok r2, st2)
    /\ car.tire_temperature (lap_simulator.car (lap_simulator.self Demo4.start))
       = 90%Z
    /\ car.tire_temperature (lap_simulator.car (lap_simulator.self st1)) = 88%Z
    /\ lap_simulator.total_time r1 < lap_simulator.total_time r2.
Proof.
  eexists _, _, _, _.
  split; [vm_compute; reflexivity|].
  split; [vm_compute; reflexivity|].
  split; [reflexivity|]. split; [reflexivity|].
  vm_compute. reflexivity.
Qed.

(** C3: a full lap is a function of the state it starts from (track,
    vehicle, conditions, parameters) and of the values the random source
    delivers: two evaluations from the same state under random sources
    that deliver the same sequence over the draws a lap can make (three
    per segment) have the same outcome, hence the same lap result (total
    time, segment times, warnings, statistics), and leave the same state.
    The evaluation itself changes the state: it leaves the car as its
    segments' calls of [update_tire_state] leave it.  A second evaluation
    on the simulator the first one leaves, with the random source started
    again, returns the same lap result if the first has left the tire
    temperature of the car where it was. *)
Theorem simulate_full_lap_deterministic
        (rs1 rs2 : nat -> Q) (lap : Z) (st : lap_simulator.State) :
  agree_from rs1 rs2 (lap_simulator.draws st)
    (3 * circuit.get_total_sectors
           (lap_simulator.circuit (lap_simulator.self st))) ->
  lap_simulator.simulate_full_lap rs1 lap st
  = lap_simulator.simulate_full_lap rs2 lap st
  /\ (forall r st',
        lap_simulator.simulate_full_lap rs1 lap st = (Ok r, st') ->
        lap_simulator.self st'
        = lap_simulator.with_car (lap_simulator.self st)
            (after_segments lap
               (map category (lap_simulator.sector_results r))
               (lap_simulator.car (lap_simulator.self st)))
        /\ (car.tire_temperature (lap_simulator.car (lap_simulator.self st'))
            = car.tire_temperature (lap_simulator.car (lap_simulator.self st)) ->
            fst (lap_simulator.simulate_full_lap rs2 lap
                   (replayed st' (lap_simulator.draws st)))
            = Ok r)).
Proof.
  intros Ha.
  assert (Hsame : forall st0,
             lap_simulator.circuit (lap_simulator.self st0)
             = lap_simulator.circuit (lap_simulator.self st) ->
             lap_simulator.draws st0 = lap_simulator.draws st ->
             lap_simulator.simulate_full_lap rs1 lap st0
             = lap_simulator.simulate_full_lap rs2 lap st0).
  { intros st0 Hc Hd. unfold lap_simulator.simulate_full_lap.
    unfold mbind at 1 3, method_bind, Method.bind, Method.get.
    pose proof (simulate_sectors_reads lap
                  (lap_simulator.range1
                     (circuit.get_total_sectors
                        (lap_simulator.circuit (lap_simulator.self st0))))
                  ([], 0.0, [])) as Hr.
    rewrite range1_length in Hr.
    destruct (Hr rs1 rs2 st0) as [E _]; [rewrite Hc, Hd; exact Ha|].
    unfold mbind, method_bind, Method.bind. rewrite E. reflexivity. }
  split; [apply Hsame; reflexivity|].
  intros r st' H.
  pose proof (simulate_full_lap_spec _ _ _ _ _ H)
    as (_ & Hne & _ & _ & _ & _ & Hst & _).
  split; [exact Hst|]. intros Ht.
  assert (Hrel : same_but_current_lap st
                   (replayed st' (lap_simulator.draws st))).
  { split; [reflexivity|]. exists lap. unfold replayed. simpl.
    rewrite Hst. f_equal.
    apply after_segments_same_temperature.
    - destruct (lap_simulator.sector_results r); [contradiction|discriminate].
    - rewrite Hst in Ht. exact Ht. }
  rewrite <- Hsame.
  - rewrite <- (simulate_full_lap_current_lap rs1 lap _ _ Hrel), H.
    reflexivity.
  - unfold replayed. simpl. rewrite Hst. reflexivity.
  - reflexivity.
Qed.

Lemma simulate_full_lap_deterministic_witness :
  lap_simulator.simulate_full_lap Demo.half 1 Demo5.start
  = lap_simulator.simulate_full_lap Demo4.half_then_zero 1 Demo5.start
  /\ exists r st',
       lap_simulator.simulate_full_lap Demo.half 1 Demo5.start = (Ok r, st')
       /\ fst (lap_simulator.simulate_full_lap Demo4.half_then_zero 1
                 (replayed st' 0))
          = Ok r.
Proof.
  assert (Ha : agree_from Demo.half Demo4.half_then_zero
                 (lap_simulator.draws Demo5.start)
                 (3 * circuit.get_total_sectors
                        (lap_simulator.circuit
                           (lap_simulator.self Demo5.start)))).
  { intros i Hi. simpl in Hi.
    destruct i as [|[|[|i]]]; [reflexivity..|lia]. }
  destruct (simulate_full_lap_deterministic Demo.half Demo4.half_then_zero 1
              Demo5.start Ha) as [He Hr].
  split; [exact He|].
  destruct (lap_simulator.simulate_full_lap Demo.half 1 Demo5.start)
    as [[r|e] st'] eqn:E.
  - exists r, st'. split; [reflexivity|].
    destruct (Hr r st' eq_refl) as [_ Hagain].
    apply Hagain. vm_compute in E. injection E as _ <-. reflexivity.
  - vm_compute in E. discriminate E.
Defined.
